(** * olmocr/viewer/dolmaviewer.py: the Dolma viewer pipeline

    A shallow embedding of [read_jsonl], [generate_presigned_url],
    [process_document] and [main], together with the parts of the Python
    runtime they rely on ([str.replace], [str.startswith], [str.strip],
    slicing, [html.escape], [os.path.join], [dict.get]).

    Python text is modelled by Stdlib's [string]; every operation below works
    character by character and does not depend on the alphabet.  Stateful code
    is written in a state-and-exception monad over the record [world]. *)

From Stdlib Require Import ZArith Ascii.
From stdpp Require Import gmap strings list fin_maps.

Set Warnings "-register-all".
Local Open Scope Z_scope.

(** ** Python strings *)

Module PyStr.

(** [s.startswith(p)] *)
Fixpoint startswith (p s : string) : bool :=
  match p, s with
  | EmptyString, _ => true
  | String _ _, EmptyString => false
  | String a p', String b s' => Ascii.eqb a b && startswith p' s'
  end.

(** The scanning loop of [s.replace(old, new)] for a non-empty [old]:
    occurrences are found left to right and do not overlap.  [skip] counts the
    characters of the occurrence just replaced that are still to be passed. *)
Fixpoint replace_scan (old new : string) (skip : nat) (s : string) : string :=
  match s with
  | EmptyString => EmptyString
  | String c s' =>
      match skip with
      | S k => replace_scan old new k s'
      | O =>
          if startswith old s
          then new +:+ replace_scan old new (String.length old - 1) s'
          else String c (replace_scan old new 0 s')
      end
  end.

(** With an empty [old], Python inserts [new] before every character and at
    the end. *)
Fixpoint intersperse_all (new s : string) : string :=
  match s with
  | EmptyString => new
  | String c s' => new +:+ String c (intersperse_all new s')
  end.

(** [s.replace(old, new)] *)
Definition replace (s old new : string) : string :=
  match old with
  | EmptyString => intersperse_all new s
  | String _ _ => replace_scan old new 0 s
  end.

(** Whitespace as [str.strip()] sees it, for code points below 256. *)
Definition isspace (c : ascii) : bool :=
  let n := nat_of_ascii c in
  ((9 <=? n) && (n <=? 13) || (28 <=? n) && (n <=? 32)
   || (n =? 133) || (n =? 160))%nat.

Fixpoint lstrip (s : string) : string :=
  match s with
  | EmptyString => EmptyString
  | String c s' => if isspace c then lstrip s' else s
  end.

Fixpoint rstrip (s : string) : string :=
  match s with
  | EmptyString => EmptyString
  | String c s' =>
      match rstrip s' with
      | EmptyString => if isspace c then EmptyString else String c EmptyString
      | r => String c r
      end
  end.

(** [s.strip()] *)
Definition strip (s : string) : string := rstrip (lstrip s).

(** One bound of a slice, as [PySlice_AdjustIndices] adjusts it for step 1:
    a negative bound counts from the end, and the result is clamped to
    [0 .. len]. *)
Definition adjust_index (len : Z) (bound : option Z) (default : Z) : Z :=
  match bound with
  | None => default
  | Some i =>
      if i <? 0 then (if i + len <? 0 then 0 else i + len)
      else (if len <=? i then len else i)
  end.

(** [s[start:stop]] for integer or absent bounds. *)
Definition slice (s : string) (start stop : option Z) : string :=
  let len := Z.of_nat (String.length s) in
  let lo := adjust_index len start 0 in
  let hi := adjust_index len stop len in
  if hi <=? lo then EmptyString
  else String.substring (Z.to_nat lo) (Z.to_nat (hi - lo)) s.

(** [html.escape(s, quote=True)] of CPython's [Lib/html/__init__.py]: five
    successive replacements, the ampersand first. *)
Definition dquote : string := String "034"%char EmptyString.

Definition html_escape (s : string) : string :=
  let s := replace s "&" "&amp;" in
  let s := replace s "<" "&lt;" in
  let s := replace s ">" "&gt;" in
  let s := replace s dquote "&quot;" in
  let s := replace s "'" "&#x27;" in
  s.

(** [os.path.join(a, b)] of [posixpath] for two components. *)
Definition endswith_slash (s : string) : bool :=
  match String.get (String.length s - 1) s with
  | Some c => Ascii.eqb c "/"
  | None => false
  end.

Definition os_path_join (a b : string) : string :=
  if startswith "/" b then b
  else if (String.eqb a "" || endswith_slash a)%bool then a +:+ b
  else a +:+ "/" +:+ b.

End PyStr.

(** ** Python values, exceptions and results *)

(** The values [json.loads] produces.  [JFloat m e] stands for the float
    parsed from a literal with a fraction or an exponent; this program only
    ever tests such a value for being zero.  A [JObj] lists the items of a
    [dict] (keys are distinct, as in any [dict]). *)
Inductive json : Type :=
  | JNull
  | JBool (b : bool)
  | JInt (n : Z)
  | JFloat (m e : Z)
  | JStr (s : string)
  | JList (l : list json)
  | JObj (kv : list (string * json)).

Inductive exn_class : Type :=
  | TypeError | ValueError | AttributeError
  | FileNotFoundError | JSONDecodeError
  | NoCredentialsError | PartialCredentialsError
  | OtherError (name : string).

(** A raised exception: its class and [str(e)].  Every exception of the model
    derives from [Exception]. *)
Record exn : Type := Exn { exn_cls : exn_class; exn_str : string }.

Inductive result (A : Type) : Type :=
  | Ok (a : A)
  | Raise (e : exn).
Arguments Ok {A} a.
Arguments Raise {A} e.

Definition bytes : Type := list Byte.byte.

(** One entry of the [pages] list handed to the template. *)
Record page : Type := Page { pg_page_num : json; pg_text : string; pg_image : string }.

(** ** The world a task acts on *)

(** A request made to the storage backend for a presigned URL. *)
Record presign_request : Type := PresignRequest {
  pr_method : string; pr_bucket : string; pr_key : string; pr_expires_in : Z }.

Record world : Type := World {
  tmp_next : nat;                 (* name of the next temporary file *)
  tmp_files : gmap nat bytes;     (* temporary files that exist, with content *)
  disk : gmap string string;      (* files written with open(path, 'w') *)
  stdout : list string;           (* lines printed *)
  s3_requests : list presign_request  (* presign calls received by the backend *)
}.

(** The [s3_client] argument. *)
Record S3Client : Type := {
  s3_generate_presigned_url : string -> string -> string -> Z -> result string }.

(** The [template] argument: [template.render(id=, pages=, s3_link=)]. *)
Record Template : Type := {
  render : json -> list page -> option string -> result string }.

(** What the module imports and the operating system it runs on.  The
    functions of [olmocr.s3_utils] and [olmocr.data.renderpdf] and the
    libraries [json] and [markdown2] are collaborators of this file and are
    taken as given. *)
Record Env : Type := {
  json_loads : string -> result json;
  markdown2_markdown : string -> list string -> result string;
  get_s3_bytes : S3Client -> json -> result bytes;
  parse_s3_path : string -> result (string * string);
  render_pdf_to_base64webp : bytes -> json -> result string;
  (* open(path, 'w'): the exception it raises, if any *)
  open_w : string -> option exn;
  (* f.write(content) on the file opened at path, with the flush that closes
     it: the exception raised, if any, and the number of characters that
     reached the file before it *)
  f_write : string -> string -> option (exn * nat) }.

(** ** State and exception monad *)

Definition M (A : Type) : Type := world -> result A * world.

Definition ret {A} (a : A) : M A := fun w => (Ok a, w).
Definition raise {A} (e : exn) : M A := fun w => (Raise e, w).
Definition bind {A B} (c : M A) (k : A -> M B) : M B :=
  fun w => match c w with
           | (Ok a, w') => k a w'
           | (Raise e, w') => (Raise e, w')
           end.
Definition lift {A} (r : result A) : M A := fun w => (r, w).

Declare Scope py_scope.
Delimit Scope py_scope with py.
Notation "'let!' x ':=' c 'in' k" := (bind c (fun x => k))
  (at level 10, x pattern, c at level 100, k at level 200) : py_scope.
Notation "c ';;' k" := (bind c (fun _ => k))
  (at level 100, k at level 200, right associativity) : py_scope.
Local Open Scope py_scope.

(** The world after a line is printed, after a request reaches the storage
    backend, and after a file is written. *)
Definition printed (w : world) (line : string) : world :=
  World (tmp_next w) (tmp_files w) (disk w) (stdout w ++ [line]) (s3_requests w).

Definition requested (w : world) (q : presign_request) : world :=
  World (tmp_next w) (tmp_files w) (disk w) (stdout w) (s3_requests w ++ [q]).

Definition written (w : world) (filepath content : string) : world :=
  World (tmp_next w) (tmp_files w) (<[filepath := content]> (disk w))
        (stdout w) (s3_requests w).

Definition print (line : string) : M unit :=
  fun w => (Ok tt, printed w line).

(** ** Python object operations used by the program *)

Definition type_name (v : json) : string :=
  match v with
  | JNull => "NoneType" | JBool _ => "bool" | JInt _ => "int" | JFloat _ _ => "float"
  | JStr _ => "str" | JList _ => "list" | JObj _ => "dict"
  end.

Definition no_attribute (v : json) (attr : string) : exn :=
  Exn AttributeError ("'" +:+ type_name v +:+ "' object has no attribute '" +:+ attr +:+ "'").

Fixpoint assoc (k : string) (kv : list (string * json)) : option json :=
  match kv with
  | [] => None
  | (k', v) :: kv' => if String.eqb k k' then Some v else assoc k kv'
  end.

(** The value [d.get(k, default)] finds in the items [kv] of a [dict]. *)
Definition field (kv : list (string * json)) (k : string) (default : json) : json :=
  match assoc k kv with Some v => v | None => default end.

(** [d.get(k, default)]: only a [dict] has the method. *)
Definition dict_get (d : json) (k : string) (default : json) : result json :=
  match d with
  | JObj kv => Ok (field kv k default)
  | _ => Raise (no_attribute d "get")
  end.

(** Truth value of an object, as [and] and [if] test it. *)
Definition truthy (v : json) : bool :=
  match v with
  | JNull => false
  | JBool b => b
  | JInt n => negb (n =? 0)
  | JFloat m _ => negb (m =? 0)
  | JStr s => negb (String.eqb s "")
  | JList l => match l with [] => false | _ => true end
  | JObj kv => match kv with [] => false | _ => true end
  end.

Fixpoint chars (s : string) : list json :=
  match s with
  | EmptyString => []
  | String c s' => JStr (String c EmptyString) :: chars s'
  end.

(** The items [for x in v] iterates over. *)
Definition py_iter (v : json) : result (list json) :=
  match v with
  | JList l => Ok l
  | JStr s => Ok (chars s)
  | JObj kv => Ok (map (fun p => JStr (fst p)) kv)
  | _ => Raise (Exn TypeError ("'" +:+ type_name v +:+ "' object is not iterable"))
  end.

(** [a, b, c = v], with the messages of CPython 3.11: too few values are
    counted, too many are not. *)
Definition unpack3 (v : json) : result (json * json * json) :=
  match py_iter v with
  | Raise _ =>
      Raise (Exn TypeError ("cannot unpack non-iterable " +:+ type_name v +:+ " object"))
  | Ok [] => Raise (Exn ValueError "not enough values to unpack (expected 3, got 0)")
  | Ok [_] => Raise (Exn ValueError "not enough values to unpack (expected 3, got 1)")
  | Ok [_; _] => Raise (Exn ValueError "not enough values to unpack (expected 3, got 2)")
  | Ok [a; b; c] => Ok (a, b, c)
  | Ok (_ :: _ :: _ :: _ :: _) =>
      Raise (Exn ValueError "too many values to unpack (expected 3)")
  end.

(** A bound of a slice: [None], or an object with [__index__]. *)
Definition slice_bound (v : json) : result (option Z) :=
  match v with
  | JNull => Ok None
  | JInt i => Ok (Some i)
  | JBool b => Ok (Some (if b then 1 else 0))
  | _ => Raise (Exn TypeError
           "slice indices must be integers or None or have an __index__ method")
  end.

Definition list_slice {A} (l : list A) (start stop : option Z) : list A :=
  let len := Z.of_nat (length l) in
  let lo := PyStr.adjust_index len start 0 in
  let hi := PyStr.adjust_index len stop len in
  if hi <=? lo then [] else take (Z.to_nat (hi - lo)) (drop (Z.to_nat lo) l).

(** [v[start:stop]].  A [str] or a [list] is sliced; nothing else can be (a
    [dict] raises [TypeError] up to Python 3.11 and [KeyError] from 3.12). *)
Definition getitem_slice (v start stop : json) : result json :=
  match v with
  | JStr s =>
      match slice_bound start, slice_bound stop with
      | Ok lo, Ok hi => Ok (JStr (PyStr.slice s lo hi))
      | Raise e, _ | _, Raise e => Raise e
      end
  | JList l =>
      match slice_bound start, slice_bound stop with
      | Ok lo, Ok hi => Ok (JList (list_slice l lo hi))
      | Raise e, _ | _, Raise e => Raise e
      end
  | JObj _ => Raise (Exn TypeError "unhashable type: 'slice'")
  | _ => Raise (Exn TypeError ("'" +:+ type_name v +:+ "' object is not subscriptable"))
  end.

(** [html.escape(v, quote=True)]: the first thing it does is [v.replace]. *)
Definition html_escape (v : json) : result string :=
  match v with
  | JStr s => Ok (PyStr.html_escape s)
  | _ => Raise (no_attribute v "replace")
  end.

(** ** Temporary files and output files *)

(** [tempfile.NamedTemporaryFile("wb+", suffix=".pdf")]: a fresh, empty file. *)
Definition NamedTemporaryFile : M nat :=
  fun w => (Ok (tmp_next w),
            World (S (tmp_next w)) (<[tmp_next w := []]> (tmp_files w))
                  (disk w) (stdout w) (s3_requests w)).

(** [f.write(data)] followed by [f.flush()] on a temporary file. *)
Definition tmp_write (name : nat) (data : bytes) : M unit :=
  fun w => (Ok tt,
            World (tmp_next w)
                  (alter (fun old => old ++ data) name (tmp_files w))
                  (disk w) (stdout w) (s3_requests w)).

(** [f.close()]: a [NamedTemporaryFile] is deleted when it is closed. *)
Definition tmp_close (name : nat) : M unit :=
  fun w => (Ok tt,
            World (tmp_next w) (delete name (tmp_files w))
                  (disk w) (stdout w) (s3_requests w)).

(** [with open(filepath, 'w', encoding='utf-8') as f: f.write(content)].
    When [open] raises, no file is touched.  Otherwise [open] has created the
    file or emptied the one that was there; if writing then raises, the file
    is left with the part of the content that reached it. *)
Definition write_file (E : Env) (filepath content : string) : M unit :=
  fun w => match open_w E filepath with
           | Some e => (Raise e, w)
           | None =>
               match f_write E filepath content with
               | Some (e, n) =>
                   (Raise e, written w filepath (String.substring 0 n content))
               | None => (Ok tt, written w filepath content)
               end
           end.

(** ** The program *)

(** [read_jsonl] (lines 17-20): the lines of the resource, each stripped. *)
Definition read_jsonl (raw_lines : list string) : list string :=
  map PyStr.strip raw_lines.

Definition is_credentials_error (e : exn) : bool :=
  match exn_cls e with
  | NoCredentialsError | PartialCredentialsError => true
  | _ => false
  end.

(** [try: body  except <classes>: handler] *)
Definition try_except {A} (body : M A) (caught : exn -> bool) (handler : M A) : M A :=
  fun w => match body w with
           | (Raise e, w') => if caught e then handler w' else (Raise e, w')
           | r => r
           end.

(** [s3_client.generate_presigned_url(method, Params={'Bucket':, 'Key':},
    ExpiresIn=)]: the backend receives the request and answers it. *)
Definition client_generate_presigned_url (s3_client : S3Client)
    (method bucket key : string) (ExpiresIn : Z) : M string :=
  fun w =>
    (s3_generate_presigned_url s3_client method bucket key ExpiresIn,
     requested w (PresignRequest method bucket key ExpiresIn)).

(** [generate_presigned_url] (lines 22-30). *)
Definition generate_presigned_url (s3_client : S3Client)
    (bucket_name key_name : string) : M (option string) :=
  try_except
    (let! response :=
       client_generate_presigned_url s3_client "get_object" bucket_name key_name
         (3600 * 24 * 7 - 100) in
     ret (Some response))
    is_credentials_error
    (print "Error: AWS credentials not found or incomplete." ;;
     ret None).

(** [render_pdf_to_base64webp(local_pdf.name, page_num)]: the collaborator
    reads the temporary file by its name. *)
Definition render_page_image (E : Env) (local_pdf : nat) (page_num : json) : M string :=
  fun w => match tmp_files w !! local_pdf with
           | Some content => (render_pdf_to_base64webp E content page_num, w)
           | None => (Raise (Exn FileNotFoundError "No such file or directory"), w)
           end.

(** The [.replace('&lt;br&gt;', '<br>')] of line 51, which restores the
    break marker in the escaped text. *)
Definition sanitize (escaped : string) : string :=
  PyStr.replace escaped "&lt;br&gt;" "<br>".

(** The loop of lines 46-56, with [pages] the list built so far. *)
Fixpoint render_pages (E : Env) (text : json) (local_pdf : nat)
    (spans : list json) (pages : list page) : M (list page) :=
  match spans with
  | [] => ret pages
  | span :: rest =>
      let! (start_index, end_index, page_num) := lift (unpack3 span) in
      let! page_text := lift (getitem_slice text start_index end_index) in
      let! escaped := lift (html_escape page_text) in
      let page_text := sanitize escaped in
      let! page_text := lift (markdown2_markdown E page_text ["tables"]) in
      let! base64_image := render_page_image E local_pdf page_num in
      render_pages E text local_pdf rest
        (pages ++ [Page page_num page_text base64_image])
  end.

(** Lines 61-64. *)
Definition make_s3_link (E : Env) (s3_client : S3Client) (source_file : json)
    : M (option string) :=
  if truthy source_file then
    match source_file with
    | JStr path =>
        if PyStr.startswith "s3://" path then
          let! (bucket_name, key_name) := lift (parse_s3_path E path) in
          generate_presigned_url s3_client bucket_name key_name
        else ret None
    | _ => raise (no_attribute source_file "startswith")
    end
  else ret None.

(** The file name of line 70, without the directory. *)
Definition output_name (source_file : string) : string :=
  PyStr.replace (PyStr.replace (PyStr.replace source_file "s3://" "") "/" "_") "." "_"
  +:+ ".html".

Definition output_filename (source_file : json) : result string :=
  match source_file with
  | JStr path => Ok (output_name path)
  | _ => Raise (no_attribute source_file "replace")
  end.

(** [process_document] (lines 32-73). *)
Definition process_document (E : Env) (data : json) (s3_client : S3Client)
    (template : Template) (output_dir : string) : M unit :=
  let! id_ := lift (dict_get data "id" JNull) in
  let! text := lift (dict_get data "text" (JStr "")) in
  let! attributes := lift (dict_get data "attributes" (JObj [])) in
  let! pdf_page_numbers := lift (dict_get attributes "pdf_page_numbers" (JList [])) in
  let! metadata := lift (dict_get data "metadata" (JObj [])) in
  let! source_file := lift (dict_get metadata "Source-File" JNull) in
  let! local_pdf := NamedTemporaryFile in
  let! content := lift (get_s3_bytes E s3_client source_file) in
  tmp_write local_pdf content ;;
  let! spans := lift (py_iter pdf_page_numbers) in
  let! pages := render_pages E text local_pdf spans [] in
  tmp_close local_pdf ;;
  let! s3_link := make_s3_link E s3_client source_file in
  let! html_content := lift (render template id_ pages s3_link) in
  let! filename := lift (output_filename source_file) in
  let filepath := PyStr.os_path_join output_dir filename in
  write_file E filepath html_content.

(** The dispatch loop of [main] (lines 91-96) over the lines [read_jsonl]
    yields: the records submitted to the executor, in order, and the exception
    that left the loop, if any. *)
Fixpoint dispatch (E : Env) (lines : list string) : list json * option exn :=
  match lines with
  | [] => ([], None)
  | line :: rest =>
      if String.eqb line "" then dispatch E rest
      else match json_loads E line with
           | Raise e => ([], Some e)
           | Ok data =>
               let '(submitted, stopped) := dispatch E rest in
               (data :: submitted, stopped)
           end
  end.

(** The worker pool.  A submitted task is never cancelled: leaving the [with]
    block waits for every one of them.  [schedule] lists the tasks, by
    submission index, in the order in which they take effect; the outcome of
    each is kept in its future. *)
Fixpoint run_pool (tasks : list (M unit)) (schedule : list nat) (w : world)
    : gmap nat (result unit) * world :=
  match schedule with
  | [] => (∅, w)
  | i :: rest =>
      match tasks !! i with
      | Some task =>
          let '(r, w1) := task w in
          let '(futures, w2) := run_pool tasks rest w1 in
          (<[i := r]> futures, w2)
      | None => run_pool tasks rest w
      end
  end.

(** The loop of lines 98-103 over the outcomes [future.result()] meets, in the
    order in which [as_completed] yields the futures. *)
Fixpoint drain (completed : list (result unit)) : M unit :=
  match completed with
  | [] => ret tt
  | Ok _ :: rest => drain rest
  | Raise e :: _ => print ("An error occurred: " +:+ exn_str e) ;; raise e
  end.

(** [main] (lines 75-103) from the [with ThreadPoolExecutor()] block on, given
    the output directory, the template and the client that lines 76-86 set up
    and the lines of the input.  The tasks run while the driver goes on.
    [schedule] lists the tasks that take effect before the driver leaves the
    body of the block, in the order in which they do, and [seen] is the order
    in which [as_completed] yields the futures.  Leaving the block, at its end
    or by an exception, waits for the tasks that are still running and cancels
    none of them: [late] lists those tasks, which take effect after whatever
    the driver has printed. *)
Definition main (E : Env) (s3_client : S3Client) (template : Template)
    (output_dir : string) (raw_lines : list string)
    (schedule seen late : list nat) : M unit :=
  fun w =>
    let '(submitted, stopped) := dispatch E (read_jsonl raw_lines) in
    let tasks :=
      map (fun data => process_document E data s3_client template output_dir)
          submitted in
    let '(futures, w1) := run_pool tasks schedule w in
    let '(r, w2) :=
      match stopped with
      | Some e => (Raise e, w1)
      | None => drain (omap (fun i => futures !! i) seen) w1
      end in
    (r, snd (run_pool tasks late w2)).

(** ** Vocabulary of the properties *)

(** The five characters [html.escape] rewrites. *)
Definition is_special (c : ascii) : bool :=
  (Ascii.eqb c "&" || Ascii.eqb c "<" || Ascii.eqb c ">"
   || Ascii.eqb c "034" || Ascii.eqb c "'")%bool.

(** The entity [html.escape] writes for one character. *)
Definition escape_char (c : ascii) : string :=
  if Ascii.eqb c "&" then "&amp;"
  else if Ascii.eqb c "<" then "&lt;"
  else if Ascii.eqb c ">" then "&gt;"
  else if Ascii.eqb c "034" then "&quot;"
  else if Ascii.eqb c "'" then "&#x27;"
  else String c EmptyString.

(** Escaping every character of a text except the characters of a literal
    [<br>], which is kept as it is.  [skip] counts the characters of a [<br>]
    still to be passed. *)
Fixpoint escape_keeping_br (skip : nat) (raw : string) : string :=
  match raw with
  | EmptyString => EmptyString
  | String c t =>
      match skip with
      | S k => escape_keeping_br k t
      | O =>
          if PyStr.startswith "<br>" raw
          then "<br>" +:+ escape_keeping_br 3 t
          else escape_char c +:+ escape_keeping_br 0 t
      end
  end.

(** Text in which every [<], [>], [&] and quote belongs to an entity written
    by the escaping or to a [<br>] tag. *)
Inductive markup_safe : string -> Prop :=
  | safe_empty : markup_safe EmptyString
  | safe_plain c s :
      is_special c = false -> markup_safe s -> markup_safe (String c s)
  | safe_entity c s :
      is_special c = true -> markup_safe s -> markup_safe (escape_char c +:+ s)
  | safe_br s : markup_safe s -> markup_safe ("<br>" +:+ s).

(** [c in s] for a character. *)
Fixpoint contains (c : ascii) (s : string) : bool :=
  match s with
  | EmptyString => false
  | String d s' => Ascii.eqb c d || contains c s'
  end.

Definition result_bind {A B} (r : result A) (k : A -> result B) : result B :=
  match r with Ok a => k a | Raise e => Raise e end.

Notation "'let?' x ':=' r 'in' k" := (result_bind r (fun x => k))
  (at level 10, x pattern, r at level 100, k at level 200) : py_scope.

(** One turn of the loop of lines 46-56 as a function of the content of the
    local copy of the PDF. *)
Definition span_page (E : Env) (text : json) (content : bytes) (span : json)
    : result page :=
  let? (start_index, end_index, page_num) := unpack3 span in
  let? page_text := getitem_slice text start_index end_index in
  let? escaped := html_escape page_text in
  let? page_text := markdown2_markdown E (sanitize escaped) ["tables"] in
  let? base64_image := render_pdf_to_base64webp E content page_num in
  Ok (Page page_num page_text base64_image).

(** [f] on every element in order, up to the first exception. *)
Fixpoint map_result {A B} (f : A -> result B) (l : list A) : result (list B) :=
  match l with
  | [] => Ok []
  | x :: rest =>
      let? y := f x in
      let? ys := map_result f rest in
      Ok (y :: ys)
  end.

(** A record of the documented shape: an id, the text, the spans and the
    path of the source file. *)
Definition record (id_ : json) (text : string) (spans : list json)
    (source_file : string) : json :=
  JObj [("id", id_); ("text", JStr text);
        ("attributes", JObj [("pdf_page_numbers", JList spans)]);
        ("metadata", JObj [("Source-File", JStr source_file)])].

(** A span [(start_index, end_index, page_num)]. *)
Definition span (start_index end_index page_num : Z) : json :=
  JList [JInt start_index; JInt end_index; JInt page_num].

(** The world once lines 41-43 have created the temporary file and written
    [content] to it, and once line 58 has closed it. *)
Definition opened (w : world) (content : bytes) : world :=
  World (S (tmp_next w)) (<[tmp_next w := content]> (tmp_files w))
        (disk w) (stdout w) (s3_requests w).

Definition closed (w : world) : world :=
  World (S (tmp_next w)) (delete (tmp_next w) (tmp_files w))
        (disk w) (stdout w) (s3_requests w).

(** Lines 60-73: the link, the template and the output file. *)
Definition finish_document (E : Env) (s3_client : S3Client) (template : Template)
    (output_dir : string) (id_ source_file : json) (pages : list page) : M unit :=
  let! s3_link := make_s3_link E s3_client source_file in
  let! html_content := lift (render template id_ pages s3_link) in
  let! filename := lift (output_filename source_file) in
  let filepath := PyStr.os_path_join output_dir filename in
  write_file E filepath html_content.

(** The longest lifetime the storage backend accepts for a presigned URL:
    seven days, in seconds. *)
Definition BACKEND_MAX_EXPIRES_IN : Z := 604800.

Definition ONE_WEEK : Z := 7 * 24 * 3600.

(** A span whose end lies beyond a text of [len] characters, with the end
    moved to [len]; any other span as it is. *)
Definition clamp_end (len : Z) (sp : json) : json :=
  match sp with
  | JList [start_index; JInt end_index; page_num] =>
      if len <? end_index then JList [start_index; JInt len; page_num] else sp
  | _ => sp
  end.

(** The span list of a record is missing or empty: no [attributes], or
    [attributes] without [pdf_page_numbers], or with an empty list. *)
Definition spans_absent_or_empty (kv : list (string * json)) : Prop :=
  assoc "attributes" kv = None \/
  exists akv,
    assoc "attributes" kv = Some (JObj akv) /\
    (assoc "pdf_page_numbers" akv = None \/
     assoc "pdf_page_numbers" akv = Some (JList [])).

(** The outcome of a task that raised. *)
Definition failed (r : result unit) : Prop := exists e, r = Raise e.

(** ** Further vocabulary *)

(** A [dict], the only value with a [get] method. *)
Definition is_object (v : json) : bool :=
  match v with JObj _ => true | _ => false end.

(** The line [generate_presigned_url] prints when the credentials are missing. *)
Definition CREDENTIALS_MESSAGE : string :=
  "Error: AWS credentials not found or incomplete.".

(** What lines 60-64 can do to a world: nothing, or send the backend one
    request for a [get_object] link of 604700 seconds, and then print the
    credentials message or not. *)
Definition link_step (w0 w1 : world) : Prop :=
  w1 = w0 \/
  exists q,
    pr_method q = "get_object" /\ pr_expires_in q = 604700 /\
    (w1 = requested w0 q \/ w1 = printed (requested w0 q) CREDENTIALS_MESSAGE).

(** The [Source-File] of a record, when it has one that is a string. *)
Definition source_of (data : json) : option string :=
  match data with
  | JObj kv =>
      match field kv "metadata" (JObj []) with
      | JObj mkv =>
          match field mkv "Source-File" JNull with
          | JStr path => Some path
          | _ => None
          end
      | _ => None
      end
  | _ => None
  end.

(** The texts of the spans [(start, e1), (e1, e2), ...], each starting where
    the one before ends. *)
Fixpoint consecutive_slices (s : string) (start : Z) (ends : list Z) : list string :=
  match ends with
  | [] => []
  | e :: rest => PyStr.slice s (Some start) (Some e) :: consecutive_slices s e rest
  end.

(** [start <= e1 <= e2 <= ...] *)
Fixpoint ascending (start : Z) (ends : list Z) : Prop :=
  match ends with
  | [] => True
  | e :: rest => start <= e /\ ascending e rest
  end.

(** The last offset of a chain. *)
Fixpoint last_end (start : Z) (ends : list Z) : Z :=
  match ends with
  | [] => start
  | e :: rest => last_end e rest
  end.

(** [''.join(parts)] *)
Definition join_all (parts : list string) : string :=
  fold_right String.append EmptyString parts.

(** No character of the text is one that [html.escape] rewrites. *)
Fixpoint all_plain (s : string) : bool :=
  match s with
  | EmptyString => true
  | String c s' => negb (is_special c) && all_plain s'
  end.

(** Every character of the line is whitespace. *)
Fixpoint all_space (s : string) : bool :=
  match s with
  | EmptyString => true
  | String c s' => PyStr.isspace c && all_space s'
  end.

(** [/] and [.] turned into [_]. *)
Definition underscore (c : ascii) : ascii :=
  if (Ascii.eqb c "/" || Ascii.eqb c ".")%bool then "_"%char else c.

Fixpoint map_chars (f : ascii -> ascii) (s : string) : string :=
  match s with
  | EmptyString => EmptyString
  | String c s' => String (f c) (map_chars f s')
  end.

(** A span of three integers. *)
Definition span_of (t : Z * Z * Z) : json :=
  let '(start_index, end_index, page_num) := t in
  span start_index end_index page_num.

(** The page of a span of three integers over a text: the conversion of the
    text from [start_index] up to [end_index], or up to the end of the text
    when [end_index] lies beyond it, with the image of the page. *)
Definition clamped_page (E : Env) (text : string) (content : bytes)
    (t : Z * Z * Z) : result page :=
  let '(start_index, end_index, page_num) := t in
  let stop := Z.min end_index (Z.of_nat (String.length text)) in
  let selected := PyStr.slice text (Some start_index) (Some stop) in
  let? page_text :=
    markdown2_markdown E (sanitize (PyStr.html_escape selected)) ["tables"] in
  let? base64_image := render_pdf_to_base64webp E content (JInt page_num) in
  Ok (Page (JInt page_num) page_text base64_image).

(** What is left in the output file of a run: the whole document when the
    run returned, the part that was written when writing raised. *)
Definition left_in_file (E : Env) (filepath html_content : string) : string :=
  match f_write E filepath html_content with
  | Some (_, n) => String.substring 0 n html_content
  | None => html_content
  end.

(** [html_content] is the document of a record: what the template renders
    from its id, the pages of its spans over the fetched content, and the link
    that the link step gives in the world [w]. *)
Definition document_of (E : Env) (s3_client : S3Client) (template : Template)
    (data : json) (w : world) (html_content : string) : Prop :=
  exists kv akv mkv content spans pages s3_link w1,
    data = JObj kv /\
    field kv "attributes" (JObj []) = JObj akv /\
    field kv "metadata" (JObj []) = JObj mkv /\
    get_s3_bytes E s3_client (field mkv "Source-File" JNull) = Ok content /\
    py_iter (field akv "pdf_page_numbers" (JList [])) = Ok spans /\
    map_result (span_page E (field kv "text" (JStr "")) content) spans = Ok pages /\
    make_s3_link E s3_client (field mkv "Source-File" JNull) w = (Ok s3_link, w1) /\
    render template (field kv "id" JNull) pages s3_link = Ok html_content.

(** ** Concrete collaborators and inputs

    A small environment on which the program can be run: a Markdown converter
    that wraps its input in a paragraph, a rasterizer for a three-page PDF, a
    storage backend, a template that lists the pages, and a [json.loads] that
    knows the lines used below. *)

Module Sample.

Definition quoted (s : string) : string := PyStr.dquote +:+ s +:+ PyStr.dquote.

Definition markdown (text : string) (extras : list string) : result string :=
  Ok ("<p>" +:+ text +:+ "</p>").

Definition pdf_bytes : bytes := [Byte.x25; Byte.x50; Byte.x44; Byte.x46].

Definition fetch (s3_client : S3Client) (path : json) : result bytes :=
  match path with
  | JStr p =>
      if String.eqb p "s3://b/missing.pdf"
      then Raise (Exn (OtherError "ClientError") "NoSuchKey")
      else Ok pdf_bytes
  | _ => Raise (Exn TypeError "expected str, bytes or os.PathLike object")
  end.

Fixpoint split_at_slash (s : string) : string * string :=
  match s with
  | EmptyString => (EmptyString, EmptyString)
  | String c t =>
      if Ascii.eqb c "/" then (EmptyString, t)
      else let '(a, b) := split_at_slash t in (String c a, b)
  end.

Definition parse (path : string) : result (string * string) :=
  if PyStr.startswith "s3://" path
  then Ok (split_at_slash (String.substring 5 (String.length path - 5) path))
  else Raise (Exn ValueError "s3_path must start with s3://").

(** A PDF of three pages, numbered from 1. *)
Definition rasterize (content : bytes) (page_num : json) : result string :=
  match page_num with
  | JInt n =>
      if (1 <=? n) && (n <=? 3) then Ok "UklGRg=="
      else Raise (Exn ValueError "page out of range")
  | _ => Raise (Exn TypeError "page number must be an integer")
  end.

Definition show_page (p : page) : string :=
  "<section>" +:+ pg_text p +:+ "<img src='data:image/webp;base64,"
  +:+ pg_image p +:+ "'></section>".

Definition template : Template :=
  {| render := fun id_ pages s3_link =>
       Ok (match s3_link with
           | Some url => "<a href='" +:+ url +:+ "'>source</a>"
           | None => ""
           end +:+ String.concat "" (map show_page pages)) |}.

(** A template that cannot be rendered. *)
Definition broken_template : Template :=
  {| render := fun _ _ _ => Raise (Exn (OtherError "UndefinedError") "undefined") |}.

Definition client : S3Client :=
  {| s3_generate_presigned_url := fun method bucket key expires =>
       Ok ("https://" +:+ bucket +:+ ".s3.amazonaws.com/" +:+ key) |}.

Definition client_without_credentials : S3Client :=
  {| s3_generate_presigned_url := fun _ _ _ _ =>
       Raise (Exn NoCredentialsError "Unable to locate credentials") |}.

Definition client_refusing : S3Client :=
  {| s3_generate_presigned_url := fun _ _ _ _ =>
       Raise (Exn (OtherError "ParamValidationError") "Invalid bucket name") |}.

(** The record of the boundary example: the last span ends at 15 in a text
    of 14 characters. *)
Definition hello : json :=
  record (JStr "doc-1") "Hello World!!X" [span 0 5 1; span 5 10 1; span 10 15 2]
    "s3://b/k.pdf".

(** A record without [attributes] and without [text]. *)
Definition bare : json :=
  JObj [("id", JStr "doc-2"); ("metadata", JObj [("Source-File", JStr "s3://b/k.pdf")])].

(** A record whose only span names a page the PDF does not have. *)
Definition bad_page : json :=
  record (JStr "doc-3") "abc" [span 0 3 9] "s3://b/k.pdf".

(** A record without [text] and with two spans. *)
Definition textless : json :=
  JObj [("id", JStr "doc-4");
        ("attributes", JObj [("pdf_page_numbers", JList [span 0 5 1; span 5 9 2])]);
        ("metadata", JObj [("Source-File", JStr "s3://b/k.pdf")])].

Definition bare_line : string :=
  "{" +:+ quoted "id" +:+ ": " +:+ quoted "doc-2" +:+ ", " +:+ quoted "metadata"
  +:+ ": {" +:+ quoted "Source-File" +:+ ": " +:+ quoted "s3://b/k.pdf" +:+ "}}".

Definition bad_page_line : string :=
  "{" +:+ quoted "id" +:+ ": " +:+ quoted "doc-3" +:+ ", " +:+ quoted "text" +:+ ": "
  +:+ quoted "abc" +:+ ", " +:+ quoted "attributes" +:+ ": {"
  +:+ quoted "pdf_page_numbers" +:+ ": [[0, 3, 9]]}, " +:+ quoted "metadata"
  +:+ ": {" +:+ quoted "Source-File" +:+ ": " +:+ quoted "s3://b/k.pdf" +:+ "}}".

Definition hello_line : string :=
  "{" +:+ quoted "id" +:+ ": " +:+ quoted "doc-1" +:+ ", " +:+ quoted "text" +:+ ": "
  +:+ quoted "Hello World!!X" +:+ ", " +:+ quoted "attributes" +:+ ": {"
  +:+ quoted "pdf_page_numbers" +:+ ": [[0, 5, 1], [5, 10, 1], [10, 15, 2]]}, "
  +:+ quoted "metadata" +:+ ": {" +:+ quoted "Source-File" +:+ ": "
  +:+ quoted "s3://b/k.pdf" +:+ "}}".

(** [json.loads] on the lines above; any other line here is not JSON. *)
Definition loads (line : string) : result json :=
  if String.eqb line bare_line then Ok bare
  else if String.eqb line hello_line then Ok hello
  else if String.eqb line bad_page_line then Ok bad_page
  else Raise (Exn JSONDecodeError "Expecting value: line 1 column 1 (char 0)").

Definition env : Env :=
  {| json_loads := loads;
     markdown2_markdown := markdown;
     get_s3_bytes := fetch;
     parse_s3_path := parse;
     render_pdf_to_base64webp := rasterize;
     open_w := fun _ => None;
     f_write := fun _ _ => None |}.

Definition start : world := World 0 ∅ ∅ [] [].

End Sample.

(** Further inputs. *)
Module Cases.

(** A record whose source is a local path. *)
Definition local : json :=
  record (JStr "doc-5") "abc" [span 0 3 1] "data/a.pdf".

(** A record whose source is the same object as that of [Sample.hello], up to
    the separator before the extension. *)
Definition twin : json :=
  record (JStr "doc-6") "xyz" [span 0 3 2] "s3://b/k/pdf".

(** A record without [Source-File]. *)
Definition sourceless : json :=
  JObj [("id", JStr "doc-7"); ("text", JStr "abc");
        ("attributes", JObj [("pdf_page_numbers", JList [span 0 3 1])]);
        ("metadata", JObj [])].

(** A fetch that also answers for a missing path. *)
Definition lenient_env : Env :=
  {| json_loads := Sample.loads;
     markdown2_markdown := Sample.markdown;
     get_s3_bytes := fun _ _ => Ok Sample.pdf_bytes;
     parse_s3_path := Sample.parse;
     render_pdf_to_base64webp := Sample.rasterize;
     open_w := fun _ => None;
     f_write := fun _ _ => None |}.

(** A disk that fills up after ten characters of any file. *)
Definition full_disk_env : Env :=
  {| json_loads := Sample.loads;
     markdown2_markdown := Sample.markdown;
     get_s3_bytes := Sample.fetch;
     parse_s3_path := Sample.parse;
     render_pdf_to_base64webp := Sample.rasterize;
     open_w := fun _ => None;
     f_write := fun _ _ =>
       Some (Exn (OtherError "OSError") "[Errno 28] No space left on device",
             10%nat) |}.

End Cases.

Module MoreCases.

(** A record whose source cannot be fetched. *)
Definition missing : json :=
  record (JStr "doc-9") "abc" [span 0 3 1] "s3://b/missing.pdf".

(** A record whose [text] is [null]. *)
Definition null_text : json :=
  JObj [("id", JStr "doc-10"); ("text", JNull);
        ("attributes", JObj [("pdf_page_numbers", JList [span 0 3 1])]);
        ("metadata", JObj [("Source-File", JStr "s3://b/k.pdf")])].

End MoreCases.

(** * Properties *)

(** ** The Python runtime model on concrete inputs *)

Example replace_overlap : PyStr.replace "aaa" "aa" "b" = "ba".
Proof. reflexivity. Qed.

Example replace_empty_old : PyStr.replace "ab" "" "-" = "-a-b-".
Proof. reflexivity. Qed.

Example escape_all : PyStr.html_escape ("<a href='x'>&" +:+ PyStr.dquote) =
  "&lt;a href=&#x27;x&#x27;&gt;&amp;&quot;".
Proof. reflexivity. Qed.

Example slice_oob : PyStr.slice "Hello World!!X" (Some 10) (Some 15) = "d!!X".
Proof. reflexivity. Qed.

Example slice_negative : PyStr.slice "Hello" (Some (-3)) None = "llo".
Proof. reflexivity. Qed.

Example strip_line : PyStr.strip "  {}  " = "{}".
Proof. vm_compute. reflexivity. Qed.


(** ** Strings: replacement and escaping *)

(** Evaluates [escape_char] at a literal character. *)
Ltac eval_escape_char :=
  repeat match goal with
  | |- context [escape_char (Ascii ?b0 ?b1 ?b2 ?b3 ?b4 ?b5 ?b6 ?b7)] =>
      let c := constr:(Ascii b0 b1 b2 b3 b4 b5 b6 b7) in
      let e := eval vm_compute in (escape_char c) in
      change (escape_char c) with e
  end.

Section StringFacts.

Local Open Scope nat_scope.

Lemma append_cons (x : ascii) (a b : string) : String x a +:+ b = String x (a +:+ b).
Proof. reflexivity. Qed.

Lemma append_nil_l (b : string) : "" +:+ b = b.
Proof. reflexivity. Qed.

Lemma append_assoc (a b c : string) : (a +:+ b) +:+ c = a +:+ (b +:+ c).
Proof.
  induction a as [|x a IH]; [reflexivity |].
  now rewrite !append_cons, IH.
Qed.

Lemma append_nil_r (a : string) : a +:+ "" = a.
Proof.
  induction a as [|x a IH]; [reflexivity |].
  now rewrite append_cons, IH.
Qed.

Lemma startswith_split (p s : string) :
  PyStr.startswith p s = true -> exists t, s = p +:+ t.
Proof.
  revert s. induction p as [|a p IH]; intros s H.
  - exists s. reflexivity.
  - destruct s as [|b s]; simpl in H; [discriminate |].
    apply andb_prop in H as [Hab Hp].
    apply Ascii.eqb_eq in Hab as ->.
    destruct (IH _ Hp) as [t ->]. now exists t.
Qed.

(** Replacing a single character: one step of the scan. *)
Lemma replace_char_cons (a c : ascii) (new t : string) :
  PyStr.replace (String c t) (String a "") new =
  (if Ascii.eqb a c then new else String c "") +:+ PyStr.replace t (String a "") new.
Proof.
  unfold PyStr.replace. simpl.
  destruct (Ascii.eqb a c); simpl; [|reflexivity].
  destruct t; reflexivity.
Qed.

Lemma replace_char_app (a : ascii) (new u v : string) :
  PyStr.replace (u +:+ v) (String a "") new =
  PyStr.replace u (String a "") new +:+ PyStr.replace v (String a "") new.
Proof.
  induction u as [|c u IH]; [reflexivity |].
  now rewrite append_cons, !replace_char_cons, IH, append_assoc.
Qed.

Lemma contains_app (c : ascii) (u v : string) :
  contains c (u +:+ v) = contains c u || contains c v.
Proof.
  induction u as [|d u IH]; [reflexivity |].
  rewrite append_cons. simpl. now rewrite IH, orb_assoc.
Qed.

(** A character absent from the text and from the replacement is absent from
    the result; the replaced character itself is always gone. *)
Lemma replace_char_keeps_absent (c a : ascii) (new s : string) :
  contains c new = false -> contains c s = false ->
  contains c (PyStr.replace s (String a "") new) = false.
Proof.
  intros Hnew. induction s as [|d s IH]; intros Hs; [reflexivity |].
  simpl in Hs. apply orb_false_elim in Hs as [Hd Hs'].
  rewrite replace_char_cons, contains_app, (IH Hs'), orb_false_r.
  destruct (Ascii.eqb a d); [assumption |]. simpl. now rewrite Hd.
Qed.

Lemma replace_char_removes (a : ascii) (new s : string) :
  contains a new = false ->
  contains a (PyStr.replace s (String a "") new) = false.
Proof.
  intros Hnew. induction s as [|d s IH]; [reflexivity |].
  rewrite replace_char_cons, contains_app, IH, orb_false_r.
  destruct (Ascii.eqb a d) eqn:Had; [assumption |]. simpl. now rewrite Had.
Qed.

Lemma replace_char_single (a c : ascii) (new : string) :
  PyStr.replace (String c "") (String a "") new =
  if Ascii.eqb a c then new else String c "".
Proof. rewrite replace_char_cons. apply append_nil_r. Qed.

(** [html.escape] works character by character. *)
Lemma html_escape_cons (c : ascii) (s : string) :
  PyStr.html_escape (String c s) = escape_char c +:+ PyStr.html_escape s.
Proof.
  unfold PyStr.html_escape, PyStr.dquote.
  rewrite replace_char_cons, !replace_char_app. f_equal.
  unfold escape_char.
  rewrite (Ascii.eqb_sym c "&"), (Ascii.eqb_sym c "<"), (Ascii.eqb_sym c ">"),
    (Ascii.eqb_sym c "034"), (Ascii.eqb_sym c "'").
  destruct (Ascii.eqb "&" c); [reflexivity |].
  rewrite replace_char_single.
  destruct (Ascii.eqb "<" c); [reflexivity |].
  rewrite replace_char_single.
  destruct (Ascii.eqb ">" c); [reflexivity |].
  rewrite replace_char_single.
  destruct (Ascii.eqb "034" c); [reflexivity |].
  rewrite replace_char_single.
  destruct (Ascii.eqb "'" c); reflexivity.
Qed.

Lemma html_escape_app (u v : string) :
  PyStr.html_escape (u +:+ v) = PyStr.html_escape u +:+ PyStr.html_escape v.
Proof.
  induction u as [|c u IH]; [reflexivity |].
  now rewrite append_cons, !html_escape_cons, IH, append_assoc.
Qed.

(** The entities form a prefix code: no entity, and no plain character, is
    the beginning of another. *)
Lemma escape_char_cases (c : ascii) :
  (is_special c = false /\ escape_char c = String c "" /\ c <> "&"%char)
  \/ c = "&"%char \/ c = "<"%char \/ c = ">"%char \/ c = "034"%char \/ c = "'"%char.
Proof.
  unfold is_special, escape_char.
  destruct (Ascii.eqb_spec c "&"); [tauto |].
  destruct (Ascii.eqb_spec c "<"); [tauto |].
  destruct (Ascii.eqb_spec c ">"); [tauto |].
  destruct (Ascii.eqb_spec c "034"); [tauto |].
  destruct (Ascii.eqb_spec c "'"); [tauto |].
  left. auto.
Qed.

Lemma startswith_entity_plain (a b : ascii) (p s : string) :
  is_special a = true -> is_special b = false ->
  PyStr.startswith (escape_char a +:+ p) (String b s) = false.
Proof.
  intros Ha Hb.
  destruct (escape_char_cases a) as [[Hn _] | Hs]; [congruence |].
  destruct (escape_char_cases b) as [[_ [_ Hamp]] | Hs']; cycle 1.
  { destruct Hs' as [-> | [-> | [-> | [-> | ->]]]]; discriminate. }
  assert (Ascii.eqb "&" b = false) as Hf.
  { apply Ascii.eqb_neq. congruence. }
  destruct Hs as [-> | [-> | [-> | [-> | ->]]]];
    eval_escape_char; rewrite append_cons; cbn [PyStr.startswith]; now rewrite Hf.
Qed.

Lemma startswith_escape_char (a b : ascii) (p s : string) :
  PyStr.startswith (escape_char a +:+ p) (escape_char b +:+ s) =
  Ascii.eqb a b && PyStr.startswith p s.
Proof.
  destruct (escape_char_cases a) as [[Ha [Ea Na]] | Sa].
  - rewrite Ea, append_cons, append_nil_l.
    destruct (escape_char_cases b) as [[Hb [Eb Nb]] | Sb].
    + rewrite Eb, append_cons, append_nil_l. reflexivity.
    + assert (Ascii.eqb a "&" = false) as Hf by now apply Ascii.eqb_neq.
      assert (Ascii.eqb a b = false) as Hab.
      { apply Ascii.eqb_neq. intros ->. unfold is_special in Ha.
        destruct Sb as [-> | [-> | [-> | [-> | ->]]]]; discriminate. }
      rewrite Hab.
      destruct Sb as [-> | [-> | [-> | [-> | ->]]]];
        eval_escape_char; rewrite append_cons; cbn [PyStr.startswith];
        now rewrite Hf.
  - destruct (escape_char_cases b) as [[Hb [Eb Nb]] | Sb].
    + rewrite Eb, append_cons, append_nil_l.
      assert (is_special a = true) as Ha.
      { destruct Sa as [-> | [-> | [-> | [-> | ->]]]]; reflexivity. }
      rewrite startswith_entity_plain by assumption.
      symmetry. apply andb_false_intro1. apply Ascii.eqb_neq. intros ->. congruence.
    + destruct Sa as [-> | [-> | [-> | [-> | ->]]]];
        destruct Sb as [-> | [-> | [-> | [-> | ->]]]]; reflexivity.
Qed.

Lemma startswith_html_escape (p s : string) :
  PyStr.startswith (PyStr.html_escape p) (PyStr.html_escape s) = PyStr.startswith p s.
Proof.
  revert s. induction p as [|a p IH]; intros s; [reflexivity |].
  destruct s as [|b s].
  - rewrite html_escape_cons.
    destruct (escape_char_cases a) as [[_ [-> _]] | Sa]; [reflexivity |].
    destruct Sa as [-> | [-> | [-> | [-> | ->]]]]; reflexivity.
  - rewrite !html_escape_cons, startswith_escape_char, IH. reflexivity.
Qed.

End StringFacts.

(** ** Lines 51-52: escaping and the break marker *)

Section Sanitize.

Local Open Scope nat_scope.

Lemma append_length (a b : string) :
  String.length (a +:+ b) = String.length a + String.length b.
Proof.
  induction a as [|x a IH]; [reflexivity |].
  rewrite append_cons. simpl. now rewrite IH.
Qed.

Lemma sanitize_br (X : string) : sanitize ("&lt;br&gt;" +:+ X) = "<br>" +:+ sanitize X.
Proof. reflexivity. Qed.

Lemma sanitize_escape_char (c : ascii) (X : string) :
  PyStr.startswith "&lt;br&gt;" (escape_char c +:+ X) = false ->
  sanitize (escape_char c +:+ X) = escape_char c +:+ sanitize X.
Proof.
  intros H.
  destruct (escape_char_cases c) as [[_ [Ec _]] | Sc].
  - rewrite Ec in *. rewrite append_cons, append_nil_l in *.
    unfold sanitize, PyStr.replace. cbn [PyStr.replace_scan].
    now rewrite H.
  - destruct Sc as [-> | [-> | [-> | [-> | ->]]]]; try reflexivity.
    change (escape_char "<") with "&lt;" in *.
    change (sanitize ("&lt;" +:+ X)) with
      (if PyStr.startswith "&lt;br&gt;" ("&lt;" +:+ X)
       then "<br>" +:+ PyStr.replace_scan "&lt;br&gt;" "<br>" 9 ("lt;" +:+ X)
       else "&lt;" +:+ sanitize X).
    now rewrite H.
Qed.

Lemma escape_keeping_br_br (t : string) :
  escape_keeping_br 0 ("<br>" +:+ t) = "<br>" +:+ escape_keeping_br 0 t.
Proof. reflexivity. Qed.

Lemma escape_keeping_br_char (c : ascii) (t : string) :
  PyStr.startswith "<br>" (String c t) = false ->
  escape_keeping_br 0 (String c t) = escape_char c +:+ escape_keeping_br 0 t.
Proof. intros H. cbn [escape_keeping_br]. now rewrite H. Qed.

(** Escaping and then restoring the break marker un-escapes the literal
    [<br>] of the text and nothing else. *)
Lemma sanitize_html_escape (raw : string) :
  sanitize (PyStr.html_escape raw) = escape_keeping_br 0 raw.
Proof.
  remember (String.length raw) as n eqn:Hn.
  revert raw Hn. induction n as [n IH] using lt_wf_ind. intros raw Hn.
  destruct raw as [|c t]; [reflexivity |].
  destruct (PyStr.startswith "<br>" (String c t)) eqn:Hbr.
  - destruct (startswith_split _ _ Hbr) as [t' Ht']. rewrite Ht'.
    rewrite html_escape_app, escape_keeping_br_br.
    change (PyStr.html_escape "<br>") with "&lt;br&gt;".
    rewrite sanitize_br. f_equal.
    apply (IH (String.length t')); [|reflexivity].
    subst n. rewrite Ht', append_length. simpl. lia.
  - rewrite html_escape_cons, escape_keeping_br_char by assumption.
    rewrite sanitize_escape_char.
    + f_equal. apply (IH (String.length t)); [subst n; simpl; lia | reflexivity].
    + rewrite <- html_escape_cons.
      change "&lt;br&gt;" with (PyStr.html_escape "<br>").
      now rewrite startswith_html_escape.
Qed.

Lemma markup_safe_escape_keeping_br (raw : string) :
  markup_safe (escape_keeping_br 0 raw).
Proof.
  remember (String.length raw) as n eqn:Hn.
  revert raw Hn. induction n as [n IH] using lt_wf_ind. intros raw Hn.
  destruct raw as [|c t]; [constructor |].
  destruct (PyStr.startswith "<br>" (String c t)) eqn:Hbr.
  - destruct (startswith_split _ _ Hbr) as [t' Ht']. rewrite Ht'.
    rewrite escape_keeping_br_br. apply safe_br.
    apply (IH (String.length t')); [|reflexivity].
    subst n. rewrite Ht', append_length. simpl. lia.
  - rewrite escape_keeping_br_char by assumption.
    assert (markup_safe (escape_keeping_br 0 t)) as Ht.
    { apply (IH (String.length t)); [subst n; simpl; lia | reflexivity]. }
    destruct (is_special c) eqn:Hc.
    + now apply safe_entity.
    + destruct (escape_char_cases c) as [[_ [-> _]] | Sc].
      * rewrite append_cons, append_nil_l. now apply safe_plain.
      * destruct Sc as [-> | [-> | [-> | [-> | ->]]]]; discriminate.
Qed.

End Sanitize.

Example sanitize_sample :
  sanitize (PyStr.html_escape "a<b & <br>c<br/>&lt;br&gt;") =
  "a&lt;b &amp; <br>c&lt;br/&gt;&amp;lt;br&amp;gt;".
Proof. reflexivity. Qed.

(** ** The monad *)

Section MonadFacts.

Context {A B : Type}.

Lemma bind_ok_inv (c : M A) (k : A -> M B) w b w' :
  bind c k w = (Ok b, w') ->
  exists a w1, c w = (Ok a, w1) /\ k a w1 = (Ok b, w').
Proof.
  unfold bind. destruct (c w) as [[a | e] w1]; intros H; [eauto | discriminate].
Qed.

Lemma bind_eval (c : M A) (k : A -> M B) w a w1 :
  c w = (Ok a, w1) -> bind c k w = k a w1.
Proof. unfold bind. now intros ->. Qed.

Lemma bind_raise (c : M A) (k : A -> M B) w e w1 :
  c w = (Raise e, w1) -> bind c k w = (Raise e, w1).
Proof. unfold bind. now intros ->. Qed.

Lemma bind_lift (r : result A) (k : A -> M B) w :
  bind (lift r) k w = match r with Ok a => k a w | Raise e => (Raise e, w) end.
Proof. reflexivity. Qed.

End MonadFacts.

(** ** The page loop *)

Lemma render_page_image_eval E local_pdf page_num w content :
  tmp_files w !! local_pdf = Some content ->
  render_page_image E local_pdf page_num w =
  (render_pdf_to_base64webp E content page_num, w).
Proof. unfold render_page_image. now intros ->. Qed.

(** The loop leaves the world as it is and computes [span_page] for every
    span in order, stopping at the first exception. *)
Lemma render_pages_spec E text local_pdf content spans pages w :
  tmp_files w !! local_pdf = Some content ->
  render_pages E text local_pdf spans pages w =
  (match map_result (span_page E text content) spans with
   | Ok new => Ok (pages ++ new)
   | Raise e => Raise e
   end, w).
Proof.
  intros Hf. revert pages.
  induction spans as [|sp rest IH]; intros pages.
  - simpl. unfold ret. now rewrite app_nil_r.
  - cbn [render_pages map_result]. unfold span_page at 1.
    rewrite bind_lift.
    destruct (unpack3 sp) as [[[start_index end_index] page_num] | e];
      [| reflexivity].
    cbn [result_bind]. rewrite bind_lift.
    destruct (getitem_slice text start_index end_index) as [sliced | e];
      [| reflexivity].
    cbn [result_bind]. rewrite bind_lift.
    destruct (html_escape sliced) as [escaped | e]; [| reflexivity].
    cbn [result_bind]. rewrite bind_lift.
    destruct (markdown2_markdown E (sanitize escaped) ["tables"]) as [md | e];
      [| reflexivity].
    cbn [result_bind].
    unfold bind at 1. rewrite (render_page_image_eval _ _ _ _ _ Hf).
    destruct (render_pdf_to_base64webp E content page_num) as [img | e];
      [| reflexivity].
    cbn [result_bind]. rewrite IH.
    destruct (map_result (span_page E text content) rest) as [new | e];
      [| reflexivity].
    cbn [result_bind]. now rewrite <- app_assoc.
Qed.

(** ** [process_document], stage by stage *)

Lemma dict_get_obj kv k default : dict_get (JObj kv) k default = Ok (field kv k default).
Proof. reflexivity. Qed.

Lemma tmp_created (w : world) : NamedTemporaryFile w = (Ok (tmp_next w), opened w []).
Proof. reflexivity. Qed.

Lemma tmp_written (w : world) (content : bytes) :
  tmp_write (tmp_next w) content (opened w []) = (Ok tt, opened w content).
Proof.
  unfold tmp_write, opened. cbn.
  now rewrite alter_insert_eq.
Qed.

Lemma tmp_closed (w : world) (content : bytes) :
  tmp_close (tmp_next w) (opened w content) = (Ok tt, closed w).
Proof. unfold tmp_close, opened, closed. cbn. now rewrite delete_insert_eq. Qed.

(** A record whose [attributes] and [metadata] are objects, stage by stage:
    the fetch into the temporary file (lines 41-43), the page loop on the
    local copy (lines 45-56), then lines 58-73. *)
Lemma process_document_stages E kv akv mkv s3_client template output_dir w :
  field kv "attributes" (JObj []) = JObj akv ->
  field kv "metadata" (JObj []) = JObj mkv ->
  process_document E (JObj kv) s3_client template output_dir w =
  match get_s3_bytes E s3_client (field mkv "Source-File" JNull) with
  | Raise e => (Raise e, opened w [])
  | Ok content =>
      match py_iter (field akv "pdf_page_numbers" (JList [])) with
      | Raise e => (Raise e, opened w content)
      | Ok spans =>
          match map_result (span_page E (field kv "text" (JStr "")) content) spans with
          | Raise e => (Raise e, opened w content)
          | Ok pages =>
              finish_document E s3_client template output_dir (field kv "id" JNull)
                (field mkv "Source-File" JNull) pages (closed w)
          end
      end
  end.
Proof.
  intros Ha Hm. unfold process_document.
  rewrite !dict_get_obj.
  do 3 (rewrite bind_lift; cbn match).
  rewrite Ha, dict_get_obj.
  do 2 (rewrite bind_lift; cbn match).
  rewrite Hm, dict_get_obj.
  rewrite bind_lift; cbn match.
  rewrite (bind_eval _ _ _ _ _ (tmp_created w)).
  rewrite bind_lift.
  destruct (get_s3_bytes E s3_client (field mkv "Source-File" JNull))
    as [content | e]; [| reflexivity].
  rewrite (bind_eval _ _ _ _ _ (tmp_written w content)).
  rewrite bind_lift.
  destruct (py_iter (field akv "pdf_page_numbers" (JList []))) as [spans | e];
    [| reflexivity].
  unfold bind at 1.
  rewrite (render_pages_spec E _ (tmp_next w) content).
  2:{ unfold opened. cbn. apply lookup_insert_eq. }
  destruct (map_result _ spans) as [pages | e]; [| reflexivity].
  rewrite app_nil_l. now rewrite (bind_eval _ _ _ _ _ (tmp_closed w content)).
Qed.

(** A record that is not an object, or whose [attributes] or [metadata] is
    not one, fails on [.get] before anything is created. *)
Lemma process_document_shape E data s3_client template output_dir w w' :
  process_document E data s3_client template output_dir w = (Ok tt, w') ->
  exists kv akv mkv,
    data = JObj kv /\
    field kv "attributes" (JObj []) = JObj akv /\
    field kv "metadata" (JObj []) = JObj mkv.
Proof.
  intros H. unfold process_document in H.
  destruct data as [| | | | | | kv]; try (rewrite bind_lift in H; discriminate H).
  rewrite !dict_get_obj in H.
  do 3 (rewrite bind_lift in H; cbn match in H).
  destruct (field kv "attributes" (JObj [])) as [| | | | | | akv] eqn:Ha;
    try (rewrite bind_lift in H; discriminate H).
  rewrite dict_get_obj in H.
  do 2 (rewrite bind_lift in H; cbn match in H).
  destruct (field kv "metadata" (JObj [])) as [| | | | | | mkv] eqn:Hm;
    try (rewrite bind_lift in H; discriminate H).
  eauto 10.
Qed.

(** A run that returns went through every stage. *)
Lemma process_document_ok_inv E data s3_client template output_dir w w' :
  process_document E data s3_client template output_dir w = (Ok tt, w') ->
  exists kv akv mkv content spans pages,
    data = JObj kv /\
    field kv "attributes" (JObj []) = JObj akv /\
    field kv "metadata" (JObj []) = JObj mkv /\
    get_s3_bytes E s3_client (field mkv "Source-File" JNull) = Ok content /\
    py_iter (field akv "pdf_page_numbers" (JList [])) = Ok spans /\
    map_result (span_page E (field kv "text" (JStr "")) content) spans = Ok pages /\
    finish_document E s3_client template output_dir (field kv "id" JNull)
      (field mkv "Source-File" JNull) pages (closed w) = (Ok tt, w').
Proof.
  intros H.
  destruct (process_document_shape _ _ _ _ _ _ _ H) as (kv & akv & mkv & -> & Ha & Hm).
  rewrite (process_document_stages E kv akv mkv _ _ _ w Ha Hm) in H.
  destruct (get_s3_bytes E s3_client (field mkv "Source-File" JNull))
    as [content | e] eqn:Hget; [| discriminate H].
  destruct (py_iter (field akv "pdf_page_numbers" (JList [])))
    as [spans | e] eqn:Hspans; [| discriminate H].
  destruct (map_result _ spans) as [pages | e] eqn:Hpages; [| discriminate H].
  exists kv, akv, mkv, content, spans, pages. repeat split; assumption.
Qed.

Lemma map_result_Forall2 {A B} (f : A -> result B) l ys :
  map_result f l = Ok ys -> Forall2 (fun x y => f x = Ok y) l ys.
Proof.
  revert ys. induction l as [|x l IH]; intros ys H; simpl in H.
  - injection H as <-. constructor.
  - destruct (f x) as [y | e] eqn:Hx; [| discriminate H]. cbn in H.
    destruct (map_result f l) as [ys' | e]; [| discriminate H]. cbn in H.
    injection H as <-. constructor; auto.
Qed.

(** ** The link and the output file *)

Lemma generate_presigned_url_eval s3_client bucket_name key_name w :
  generate_presigned_url s3_client bucket_name key_name w =
  let w1 := requested w (PresignRequest "get_object" bucket_name key_name 604700) in
  match s3_generate_presigned_url s3_client "get_object" bucket_name key_name 604700 with
  | Ok response => (Ok (Some response), w1)
  | Raise e =>
      if is_credentials_error e
      then (Ok None, printed w1 "Error: AWS credentials not found or incomplete.")
      else (Raise e, w1)
  end.
Proof.
  unfold generate_presigned_url, try_except, client_generate_presigned_url, bind.
  change (3600 * 24 * 7 - 100) with 604700. cbn zeta.
  destruct (s3_generate_presigned_url _ _ _ _ _) as [response | e]; [reflexivity |].
  destruct (is_credentials_error e); reflexivity.
Qed.

(** The link step touches neither the temporary files nor the output files. *)
Lemma make_s3_link_frame E s3_client source_file w r w1 :
  make_s3_link E s3_client source_file w = (r, w1) ->
  tmp_next w1 = tmp_next w /\ tmp_files w1 = tmp_files w /\ disk w1 = disk w.
Proof.
  unfold make_s3_link.
  destruct (truthy source_file); [| intros [= _ <-]; auto].
  destruct source_file; try (intros [= _ <-]; auto).
  destruct (PyStr.startswith "s3://" s); [| intros [= _ <-]; auto].
  rewrite bind_lift.
  destruct (parse_s3_path E s) as [[bucket_name key_name] | e];
    [| intros [= _ <-]; auto].
  rewrite generate_presigned_url_eval. cbn zeta.
  destruct (s3_generate_presigned_url _ _ _ _ _) as [response | e];
    [intros [= _ <-]; auto |].
  destruct (is_credentials_error e); intros [= _ <-]; auto.
Qed.

(** Writing returns exactly when neither [open] nor [f.write] raises. *)
Lemma write_file_ok E filepath content w :
  open_w E filepath = None -> f_write E filepath content = None ->
  write_file E filepath content w = (Ok tt, written w filepath content).
Proof. unfold write_file. now intros -> ->. Qed.

Lemma write_file_ok_inv E filepath content w w' :
  write_file E filepath content w = (Ok tt, w') ->
  open_w E filepath = None /\ f_write E filepath content = None /\
  w' = written w filepath content.
Proof.
  unfold write_file.
  destruct (open_w E filepath); [discriminate |].
  destruct (f_write E filepath content) as [[e n] |]; [discriminate |].
  now intros [= <-].
Qed.

(** Lines 60-73 return exactly when the link step returns, the template
    renders, the source is a string and the file can be opened and written. *)
Lemma finish_document_ok_iff E s3_client template output_dir id_ source_file pages w w' :
  finish_document E s3_client template output_dir id_ source_file pages w = (Ok tt, w') <->
  exists s3_link w1 html_content path,
    make_s3_link E s3_client source_file w = (Ok s3_link, w1) /\
    render template id_ pages s3_link = Ok html_content /\
    source_file = JStr path /\
    open_w E (PyStr.os_path_join output_dir (output_name path)) = None /\
    f_write E (PyStr.os_path_join output_dir (output_name path)) html_content = None /\
    w' = written w1 (PyStr.os_path_join output_dir (output_name path)) html_content.
Proof.
  unfold finish_document. split.
  - intros H.
    apply bind_ok_inv in H as (s3_link & w1 & Hlink & H).
    rewrite bind_lift in H.
    destruct (render template id_ pages s3_link) as [html_content | e] eqn:Hr;
      [| discriminate H].
    rewrite bind_lift in H.
    destruct source_file; try discriminate H.
    cbn [output_filename] in H.
    apply write_file_ok_inv in H as (Hopen & Hwrite & ->).
    eauto 12.
  - intros (s3_link & w1 & html_content & path & Hlink & Hr & -> & Hopen & Hwrite & ->).
    rewrite (bind_eval _ _ _ _ _ Hlink), bind_lift, Hr, bind_lift.
    cbn [output_filename]. now apply write_file_ok.
Qed.

Lemma finish_document_ok_inv E s3_client template output_dir id_ source_file pages w w' :
  finish_document E s3_client template output_dir id_ source_file pages w = (Ok tt, w') ->
  exists s3_link w1 html_content path,
    make_s3_link E s3_client source_file w = (Ok s3_link, w1) /\
    render template id_ pages s3_link = Ok html_content /\
    source_file = JStr path /\
    open_w E (PyStr.os_path_join output_dir (output_name path)) = None /\
    w' = written w1 (PyStr.os_path_join output_dir (output_name path)) html_content.
Proof.
  intros H. apply finish_document_ok_iff in H
    as (s3_link & w1 & html_content & path & Hlink & Hr & Hsrc & Hopen & _ & Hw).
  eauto 10.
Qed.

(** * The documented properties *)

(** ** Text path *)

Lemma span_page_text E text content sp pg :
  span_page E text content sp = Ok pg ->
  exists start_index end_index page_num raw,
    unpack3 sp = Ok (start_index, end_index, page_num) /\
    getitem_slice text start_index end_index = Ok (JStr raw) /\
    markdown2_markdown E
      (PyStr.replace (PyStr.html_escape raw) "&lt;br&gt;" "<br>") ["tables"]
      = Ok (pg_text pg).
Proof.
  unfold span_page. intros H.
  destruct (unpack3 sp) as [[[start_index end_index] page_num] | e];
    [| discriminate H].
  cbn [result_bind] in H.
  destruct (getitem_slice text start_index end_index) as [sliced | e] eqn:Hs;
    [| discriminate H].
  cbn [result_bind] in H.
  destruct sliced as [| | | | raw | |]; try discriminate H.
  cbn [html_escape result_bind] in H.
  destruct (markdown2_markdown E _ _) as [md | e] eqn:Hmd; [| discriminate H].
  cbn [result_bind] in H.
  destruct (render_pdf_to_base64webp E content page_num); [| discriminate H].
  injection H as <-. exists start_index, end_index, page_num, raw. auto.
Qed.

(** C1.  In every run of [process_document] that returns, the text of each
    page handed to the template is obtained from its span in this order: the
    slice [text[start:end]] is HTML-escaped, the escaped sequence [&lt;br&gt;]
    is replaced by [<br>], and the result is converted by the Markdown
    converter with the [tables] extra.  The text given to the converter is the
    slice with every character escaped except those of a literal [<br>], so
    each [<], [>], [&] and quote in it belongs to an entity or to a restored
    [<br>]. *)
Theorem text_path_escape_then_br_then_markdown
    E data s3_client template output_dir w w' :
  process_document E data s3_client template output_dir w = (Ok tt, w') ->
  exists kv akv spans pages s3_link html_content,
    data = JObj kv /\
    field kv "attributes" (JObj []) = JObj akv /\
    py_iter (field akv "pdf_page_numbers" (JList [])) = Ok spans /\
    render template (field kv "id" JNull) pages s3_link = Ok html_content /\
    Forall2
      (fun sp pg =>
         exists start_index end_index page_num raw,
           unpack3 sp = Ok (start_index, end_index, page_num) /\
           getitem_slice (field kv "text" (JStr "")) start_index end_index
             = Ok (JStr raw) /\
           markdown2_markdown E
             (PyStr.replace (PyStr.html_escape raw) "&lt;br&gt;" "<br>") ["tables"]
             = Ok (pg_text pg) /\
           PyStr.replace (PyStr.html_escape raw) "&lt;br&gt;" "<br>"
             = escape_keeping_br 0 raw /\
           markup_safe (PyStr.replace (PyStr.html_escape raw) "&lt;br&gt;" "<br>"))
      spans pages.
Proof.
  intros H.
  apply process_document_ok_inv in H
    as (kv & akv & mkv & content & spans & pages & -> & Ha & Hm & Hget & Hspans & Hpages & Hfin).
  apply finish_document_ok_inv in Hfin
    as (s3_link & w1 & html_content & path & _ & Hrender & _).
  exists kv, akv, spans, pages, s3_link, html_content.
  repeat split; try assumption.
  apply map_result_Forall2 in Hpages.
  eapply Forall2_impl; [exact Hpages |].
  intros sp pg Hpg. cbn beta in Hpg.
  apply span_page_text in Hpg as (a & b & p & raw & Hu & Hs & Hmd).
  exists a, b, p, raw. repeat split; try assumption.
  - apply sanitize_html_escape.
  - change (markup_safe (sanitize (PyStr.html_escape raw))).
    rewrite sanitize_html_escape. apply markup_safe_escape_keeping_br.
Qed.

(** The boundary record of the specification on the sample collaborators. *)
Lemma text_path_escape_then_br_then_markdown_witness :
  exists kv akv spans pages s3_link html_content,
    Sample.hello = JObj kv /\
    field kv "attributes" (JObj []) = JObj akv /\
    py_iter (field akv "pdf_page_numbers" (JList [])) = Ok spans /\
    render Sample.template (field kv "id" JNull) pages s3_link = Ok html_content /\
    Forall2
      (fun sp pg =>
         exists start_index end_index page_num raw,
           unpack3 sp = Ok (start_index, end_index, page_num) /\
           getitem_slice (field kv "text" (JStr "")) start_index end_index
             = Ok (JStr raw) /\
           markdown2_markdown Sample.env
             (PyStr.replace (PyStr.html_escape raw) "&lt;br&gt;" "<br>") ["tables"]
             = Ok (pg_text pg) /\
           PyStr.replace (PyStr.html_escape raw) "&lt;br&gt;" "<br>"
             = escape_keeping_br 0 raw /\
           markup_safe (PyStr.replace (PyStr.html_escape raw) "&lt;br&gt;" "<br>"))
      spans pages.
Proof.
  eapply (text_path_escape_then_br_then_markdown Sample.env Sample.hello
            Sample.client Sample.template "out" Sample.start).
  vm_compute. reflexivity.
Defined.

(** ** Lifetime of the presigned link *)

(** C6.  Every call of [generate_presigned_url] sends the storage backend
    exactly one request, with [ExpiresIn] = 3600*24*7 - 100 = 604700 seconds:
    within 100 seconds of one week and strictly below the backend's maximum
    of 604800 seconds. *)
Theorem presigned_ttl_below_backend_maximum s3_client bucket_name key_name w :
  exists q,
    s3_requests (snd (generate_presigned_url s3_client bucket_name key_name w))
      = s3_requests w ++ [q] /\
    pr_bucket q = bucket_name /\ pr_key q = key_name /\
    pr_expires_in q = 604700 /\
    pr_expires_in q < BACKEND_MAX_EXPIRES_IN /\
    ONE_WEEK - 100 <= pr_expires_in q < ONE_WEEK.
Proof.
  exists (PresignRequest "get_object" bucket_name key_name 604700).
  rewrite generate_presigned_url_eval. cbn zeta.
  split.
  - destruct (s3_generate_presigned_url _ _ _ _ _) as [response | e]; [reflexivity |].
    destruct (is_credentials_error e); reflexivity.
  - cbn. unfold BACKEND_MAX_EXPIRES_IN, ONE_WEEK. repeat split; lia.
Qed.

(** ** Output file name *)

Lemma output_name_stem (source_file : string) :
  exists stem,
    output_name source_file = stem +:+ ".html" /\
    contains "/" stem = false /\ contains "." stem = false.
Proof.
  unfold output_name. eexists. split; [reflexivity |]. split.
  - apply replace_char_keeps_absent; [reflexivity |].
    now apply replace_char_removes.
  - now apply replace_char_removes.
Qed.

Lemma output_name_relative (source_file : string) :
  PyStr.startswith "/" (output_name source_file) = false.
Proof.
  destruct (output_name_stem source_file) as (stem & -> & Hslash & _).
  destruct stem as [| c stem]; [reflexivity |].
  rewrite append_cons. cbn [PyStr.startswith].
  cbn [contains] in Hslash. apply orb_false_elim in Hslash as [-> _].
  reflexivity.
Qed.

Lemma replace_scheme_prefix (rest : string) :
  PyStr.replace ("s3://" +:+ rest) "s3://" "" = PyStr.replace rest "s3://" "".
Proof. reflexivity. Qed.

Lemma replace_no_colon (s : string) :
  contains ":" s = false -> PyStr.replace s "s3://" "" = s.
Proof.
  unfold PyStr.replace. induction s as [| c t IH]; intros H; [reflexivity |].
  cbn [contains] in H. apply orb_false_elim in H as [Hc Ht].
  assert (PyStr.startswith "s3://" (String c t) = false) as Hno.
  { destruct (PyStr.startswith "s3://" (String c t)) eqn:Hs; [| reflexivity].
    destruct (startswith_split _ _ Hs) as [t' E]. injection E as -> ->.
    cbn [contains] in Ht. rewrite !append_cons in Ht. cbn in Ht. discriminate Ht. }
  cbn [PyStr.replace_scan]. rewrite Hno. now rewrite (IH Ht).
Qed.

Lemma replace_separators (s : string) :
  PyStr.replace (PyStr.replace s "/" "_") "." "_" = map_chars underscore s.
Proof.
  induction s as [| c t IH]; [reflexivity |].
  rewrite replace_char_cons, replace_char_app, IH. cbn [map_chars].
  unfold underscore. rewrite (Ascii.eqb_sym c "/"), (Ascii.eqb_sym c ".").
  destruct (Ascii.eqb "/" c); [reflexivity |].
  rewrite replace_char_single.
  destruct (Ascii.eqb "." c); reflexivity.
Qed.

Lemma map_chars_length (f : ascii -> ascii) (s : string) :
  String.length (map_chars f s) = String.length s.
Proof. induction s as [| c t IH]; [reflexivity |]. cbn. now rewrite IH. Qed.

Lemma map_chars_get (f : ascii -> ascii) (s : string) (i : nat) :
  String.get i (map_chars f s) = option_map f (String.get i s).
Proof.
  revert i. induction s as [| c t IH]; intros i; [reflexivity |].
  destruct i as [| i]; [reflexivity |]. cbn. apply IH.
Qed.

(** C9.  The output name is a function of [Source-File] alone: the
    occurrences of [s3://] are removed, then every [/] and every [.] becomes
    [_] while every other character is kept in its place, and [.html] is
    added.  So for a source [s3://] followed by a bucket and a key without
    colon, the name has one character per character of bucket and key, each
    the same character or [_] for a separator or a dot.  The two distinct
    sources [s3://b/k.pdf] and [s3://b/k/pdf] both give [b_k_pdf.html].  The
    stem of a name holds no [/] and no [.], so the name is a single path
    component that [os.path.join] puts under the output directory, and
    whatever the collaborators, the client, the template and the world, a run
    that returns has written exactly the file of that name in the output
    directory. *)
Theorem output_name_deterministic_with_collision :
  (forall source_file,
     output_name source_file =
     map_chars underscore (PyStr.replace source_file "s3://" "") +:+ ".html") /\
  (forall rest,
     contains ":" rest = false ->
     output_name ("s3://" +:+ rest) = map_chars underscore rest +:+ ".html" /\
     String.length (map_chars underscore rest) = String.length rest /\
     forall i c,
       String.get i rest = Some c ->
       String.get i (map_chars underscore rest) =
       Some (if (Ascii.eqb c "/" || Ascii.eqb c ".")%bool then "_"%char else c)) /\
  (forall source_file,
     contains ":" source_file = false ->
     output_name source_file = map_chars underscore source_file +:+ ".html") /\
  output_name "s3://b/k.pdf" = "b_k_pdf.html" /\
  output_name "s3://b/k/pdf" = "b_k_pdf.html" /\
  "s3://b/k.pdf" <> "s3://b/k/pdf" /\
  (forall source_file, exists stem,
     output_name source_file = stem +:+ ".html" /\
     contains "/" stem = false /\ contains "." stem = false) /\
  (forall source_file, PyStr.startswith "/" (output_name source_file) = false) /\
  PyStr.os_path_join "dolma_previews" (output_name "s3://b/k.pdf")
    = "dolma_previews/b_k_pdf.html" /\
  (forall E data s3_client template output_dir w w',
     process_document E data s3_client template output_dir w = (Ok tt, w') ->
     exists kv mkv path html_content,
       data = JObj kv /\
       field kv "metadata" (JObj []) = JObj mkv /\
       field mkv "Source-File" JNull = JStr path /\
       disk w' = <[PyStr.os_path_join output_dir (output_name path) := html_content]>
                   (disk w)).
Proof.
  assert (forall source_file,
            output_name source_file =
            map_chars underscore (PyStr.replace source_file "s3://" "") +:+ ".html")
    as Hshape.
  { intros source_file. unfold output_name. now rewrite replace_separators. }
  split; [exact Hshape |].
  split.
  { intros rest Hrest. split; [| split].
    - now rewrite Hshape, replace_scheme_prefix, (replace_no_colon rest Hrest).
    - apply map_chars_length.
    - intros i c Hi. rewrite map_chars_get, Hi. reflexivity. }
  split.
  { intros source_file Hs. now rewrite Hshape, (replace_no_colon source_file Hs). }
  split; [reflexivity |]. split; [reflexivity |]. split; [discriminate |].
  split; [exact output_name_stem |].
  split; [exact output_name_relative |]. split; [reflexivity |].
  intros E data s3_client template output_dir w w' H.
  apply process_document_ok_inv in H
    as (kv & akv & mkv & content & spans & pages & -> & Ha & Hm & Hget & Hspans & Hpages & Hfin).
  apply finish_document_ok_inv in Hfin
    as (s3_link & w1 & html_content & path & Hlink & Hrender & Hsrc & Hopen & ->).
  apply make_s3_link_frame in Hlink as (_ & _ & Hdisk).
  exists kv, mkv, path, html_content. repeat split; try assumption.
  cbn. now rewrite Hdisk.
Qed.

(** ** Spans that end beyond the text *)

Lemma adjust_index_beyond (len stop default : Z) :
  0 <= len -> len <= stop -> PyStr.adjust_index len (Some stop) default = len.
Proof.
  intros H0 H. unfold PyStr.adjust_index.
  destruct (Z.ltb_spec stop 0); [lia |].
  destruct (Z.leb_spec len stop); [reflexivity | lia].
Qed.

Lemma slice_beyond (text : string) (lo : option Z) (stop : Z) :
  Z.of_nat (String.length text) <= stop ->
  PyStr.slice text lo (Some stop) =
  PyStr.slice text lo (Some (Z.of_nat (String.length text))).
Proof.
  intros H. unfold PyStr.slice. cbn zeta.
  rewrite !adjust_index_beyond by lia. reflexivity.
Qed.

Lemma getitem_slice_beyond (text : string) (start_index : json) (stop : Z) :
  Z.of_nat (String.length text) <= stop ->
  getitem_slice (JStr text) start_index (JInt stop) =
  getitem_slice (JStr text) start_index (JInt (Z.of_nat (String.length text))).
Proof.
  intros H. unfold getitem_slice.
  destruct (slice_bound start_index) as [lo | e]; [| reflexivity].
  cbn [slice_bound]. now rewrite slice_beyond.
Qed.

Lemma span_page_clamp_end E (text : string) content sp :
  span_page E (JStr text) content (clamp_end (Z.of_nat (String.length text)) sp) =
  span_page E (JStr text) content sp.
Proof.
  destruct sp as [| ? | ? | ? ? | ? | l | ?]; try reflexivity.
  destruct l as [| a [| b [| p rest]]]; try reflexivity;
    destruct b as [| ? | stop | ? ? | ? | ? | ?]; try reflexivity.
  destruct rest; [| reflexivity].
  cbn [clamp_end].
  destruct (Z.ltb_spec (Z.of_nat (String.length text)) stop); [| reflexivity].
  unfold span_page. cbn [unpack3 py_iter result_bind].
  now rewrite (getitem_slice_beyond text a stop) by lia.
Qed.

Lemma map_result_ext {A B} (f g : A -> result B) l :
  (forall x, f x = g x) -> map_result f l = map_result g l.
Proof.
  intros H. induction l as [|x l IH]; [reflexivity |].
  simpl. now rewrite H, IH.
Qed.

Lemma map_result_map {A B C} (f : B -> result C) (g : A -> B) l :
  map_result f (map g l) = map_result (fun x => f (g x)) l.
Proof.
  induction l as [|x l IH]; [reflexivity |].
  simpl. now rewrite IH.
Qed.

Lemma process_document_record E id_ text spans source_file s3_client template output_dir w :
  process_document E (record id_ text spans source_file) s3_client template output_dir w =
  match get_s3_bytes E s3_client (JStr source_file) with
  | Raise e => (Raise e, opened w [])
  | Ok content =>
      match map_result (span_page E (JStr text) content) spans with
      | Raise e => (Raise e, opened w content)
      | Ok pages =>
          finish_document E s3_client template output_dir id_ (JStr source_file)
            pages (closed w)
      end
  end.
Proof.
  unfold record.
  etransitivity.
  - apply (process_document_stages E _ [("pdf_page_numbers", JList spans)]
             [("Source-File", JStr source_file)]); reflexivity.
  - reflexivity.
Qed.

(** A run on a record is the run on the record whose ends beyond the text are
    moved to the end of the text. *)
Lemma process_document_clamp_end E id_ text spans source_file s3_client template
    output_dir w :
  process_document E (record id_ text spans source_file)
    s3_client template output_dir w =
  process_document E
    (record id_ text (map (clamp_end (Z.of_nat (String.length text))) spans)
       source_file)
    s3_client template output_dir w.
Proof.
  rewrite !process_document_record.
  destruct (get_s3_bytes E s3_client (JStr source_file)) as [content | e];
    [| reflexivity].
  rewrite map_result_map.
  rewrite (map_result_ext _ _ spans (span_page_clamp_end E text content)).
  reflexivity.
Qed.

(** ** The temporary file *)

Lemma process_document_ok_tmp E data s3_client template output_dir w w' :
  process_document E data s3_client template output_dir w = (Ok tt, w') ->
  tmp_files w' = delete (tmp_next w) (tmp_files w).
Proof.
  intros H.
  apply process_document_ok_inv in H
    as (kv & akv & mkv & content & spans & pages & -> & Ha & Hm & Hget & Hspans & Hpages & Hfin).
  apply finish_document_ok_inv in Hfin
    as (s3_link & w1 & html_content & path & Hlink & _ & _ & _ & ->).
  apply make_s3_link_frame in Hlink as (_ & Htmp & _).
  cbn. now rewrite Htmp.
Qed.

(** C5.  The temporary file is closed, and so deleted, only on the path that
    reaches line 58.  When the slicing, the conversion or the rasterization of
    a span raises, [process_document] ends with the file still there: on the
    record [Sample.bad_page], whose span names page 9 of a PDF of three pages,
    the run raises and leaves temporary file 0 with the bytes of the PDF. *)
Theorem temporary_file_survives_a_failing_span :
  (forall E data s3_client template output_dir w w',
     process_document E data s3_client template output_dir w = (Ok tt, w') ->
     tmp_files w' !! tmp_next w = None) /\
  (forall E id_ text spans source_file s3_client template output_dir w content e,
     get_s3_bytes E s3_client (JStr source_file) = Ok content ->
     map_result (span_page E (JStr text) content) spans = Raise e ->
     exists w',
       process_document E (record id_ text spans source_file)
         s3_client template output_dir w = (Raise e, w') /\
       tmp_files w' !! tmp_next w = Some content) /\
  (let '(r, w') :=
     process_document Sample.env Sample.bad_page Sample.client Sample.template
       "out" Sample.start in
   r = Raise (Exn ValueError "page out of range") /\
   tmp_files w' !! 0%nat = Some Sample.pdf_bytes).
Proof.
  split; [| split].
  - intros E data s3_client template output_dir w w' H.
    rewrite (process_document_ok_tmp _ _ _ _ _ _ _ H). apply lookup_delete_eq.
  - intros E id_ text spans source_file s3_client template output_dir w content e Hget Hpages.
    exists (opened w content).
    rewrite process_document_record, Hget, Hpages. split; [reflexivity |].
    unfold opened. cbn. apply lookup_insert_eq.
  - vm_compute. split; reflexivity.
Qed.

(** ** Records without spans *)

Lemma spans_absent_or_empty_iter kv :
  spans_absent_or_empty kv ->
  exists akv,
    field kv "attributes" (JObj []) = JObj akv /\
    py_iter (field akv "pdf_page_numbers" (JList [])) = Ok [].
Proof.
  unfold field. intros [Hnone | (akv & Ha & [Hp | Hp])].
  - exists []. now rewrite Hnone.
  - exists akv. now rewrite Ha, Hp.
  - exists akv. now rewrite Ha, Hp.
Qed.

(** C8, as the code has it.  On a record whose span list is missing or empty
    and whose source can be fetched, nothing raises up to and including the
    page loop: the missing list is read as the empty one, the temporary file
    is closed, and lines 60-73 run with zero pages.  The run then returns, and
    has written the template's rendering of zero pages, exactly when the link
    step returns, the template renders, the source is a string and the output
    file can be opened and written; an exception of the link step or of the
    template is the outcome of the run, and no file is written then. *)
Theorem no_spans_give_a_document_of_zero_pages
    E kv mkv s3_client template output_dir w content :
  spans_absent_or_empty kv ->
  field kv "metadata" (JObj []) = JObj mkv ->
  get_s3_bytes E s3_client (field mkv "Source-File" JNull) = Ok content ->
  process_document E (JObj kv) s3_client template output_dir w =
    finish_document E s3_client template output_dir (field kv "id" JNull)
      (field mkv "Source-File" JNull) [] (closed w) /\
  (forall s3_link w1 html_content path,
     make_s3_link E s3_client (field mkv "Source-File" JNull) (closed w)
       = (Ok s3_link, w1) ->
     render template (field kv "id" JNull) [] s3_link = Ok html_content ->
     field mkv "Source-File" JNull = JStr path ->
     open_w E (PyStr.os_path_join output_dir (output_name path)) = None ->
     f_write E (PyStr.os_path_join output_dir (output_name path)) html_content = None ->
     process_document E (JObj kv) s3_client template output_dir w =
       (Ok tt,
        written w1 (PyStr.os_path_join output_dir (output_name path)) html_content)) /\
  (forall w',
     process_document E (JObj kv) s3_client template output_dir w = (Ok tt, w') ->
     exists s3_link w1 html_content path,
       make_s3_link E s3_client (field mkv "Source-File" JNull) (closed w)
         = (Ok s3_link, w1) /\
       render template (field kv "id" JNull) [] s3_link = Ok html_content /\
       field mkv "Source-File" JNull = JStr path /\
       open_w E (PyStr.os_path_join output_dir (output_name path)) = None /\
       f_write E (PyStr.os_path_join output_dir (output_name path)) html_content = None /\
       w' = written w1 (PyStr.os_path_join output_dir (output_name path)) html_content) /\
  (forall e w1,
     make_s3_link E s3_client (field mkv "Source-File" JNull) (closed w)
       = (Raise e, w1) ->
     process_document E (JObj kv) s3_client template output_dir w = (Raise e, w1) /\
     disk w1 = disk w) /\
  (forall s3_link w1 e,
     make_s3_link E s3_client (field mkv "Source-File" JNull) (closed w)
       = (Ok s3_link, w1) ->
     render template (field kv "id" JNull) [] s3_link = Raise e ->
     process_document E (JObj kv) s3_client template output_dir w = (Raise e, w1) /\
     disk w1 = disk w).
Proof.
  intros Hspans Hm Hget.
  destruct (spans_absent_or_empty_iter kv Hspans) as (akv & Ha & Hiter).
  assert (process_document E (JObj kv) s3_client template output_dir w =
          finish_document E s3_client template output_dir (field kv "id" JNull)
            (field mkv "Source-File" JNull) [] (closed w)) as Hrun.
  { rewrite (process_document_stages E kv akv mkv _ _ _ w Ha Hm), Hget, Hiter.
    reflexivity. }
  split; [exact Hrun |]. split; [| split; [| split]].
  - intros s3_link w1 html_content path Hlink Hrender Hsrc Hopen Hwrite.
    rewrite Hrun. apply finish_document_ok_iff. eauto 12.
  - intros w' H. rewrite Hrun in H. now apply finish_document_ok_iff in H.
  - intros e w1 Hlink. split.
    + rewrite Hrun. unfold finish_document.
      now rewrite (bind_raise _ _ _ _ _ Hlink).
    + now apply make_s3_link_frame in Hlink as (_ & _ & ->).
  - intros s3_link w1 e Hlink Hrender. split.
    + rewrite Hrun. unfold finish_document.
      now rewrite (bind_eval _ _ _ _ _ Hlink), bind_lift, Hrender.
    + now apply make_s3_link_frame in Hlink as (_ & _ & ->).
Qed.

(** A record without [attributes] on the sample collaborators: the written
    document holds the link and no page. *)
Lemma no_spans_give_a_document_of_zero_pages_witness :
  process_document Sample.env Sample.bare Sample.client Sample.template "out"
    Sample.start =
  (Ok tt,
   written (requested (closed Sample.start)
              (PresignRequest "get_object" "b" "k.pdf" 604700))
     "out/b_k_pdf.html" "<a href='https://b.s3.amazonaws.com/k.pdf'>source</a>").
Proof.
  refine (proj1 (proj2 (no_spans_give_a_document_of_zero_pages Sample.env
            [("id", JStr "doc-2");
             ("metadata", JObj [("Source-File", JStr "s3://b/k.pdf")])]
            [("Source-File", JStr "s3://b/k.pdf")]
            Sample.client Sample.template "out" Sample.start Sample.pdf_bytes
            _ _ _))
          (Some "https://b.s3.amazonaws.com/k.pdf") _ _ "s3://b/k.pdf" _ _ _ _ _).
  - left. reflexivity.
  - reflexivity.
  - reflexivity.
  - reflexivity.
  - reflexivity.
  - reflexivity.
  - reflexivity.
  - reflexivity.
Defined.

(** C8, as documented, fails: the record [Sample.bare] has no span list and
    its source can be fetched, and yet [process_document] raises and writes no
    file when the backend refuses the presign request for another reason than
    the credentials, and when the template cannot be rendered.  Retrievable
    bytes are thus not enough for a document of zero pages. *)
Lemma no_spans_can_still_fail :
  spans_absent_or_empty
    [("id", JStr "doc-2"); ("metadata", JObj [("Source-File", JStr "s3://b/k.pdf")])] /\
  get_s3_bytes Sample.env Sample.client_refusing (JStr "s3://b/k.pdf")
    = Ok Sample.pdf_bytes /\
  fst (process_document Sample.env Sample.bare Sample.client_refusing
         Sample.template "out" Sample.start)
    = Raise (Exn (OtherError "ParamValidationError") "Invalid bucket name") /\
  disk (snd (process_document Sample.env Sample.bare Sample.client_refusing
               Sample.template "out" Sample.start)) = ∅ /\
  fst (process_document Sample.env Sample.bare Sample.client
         Sample.broken_template "out" Sample.start)
    = Raise (Exn (OtherError "UndefinedError") "undefined") /\
  disk (snd (process_document Sample.env Sample.bare Sample.client
               Sample.broken_template "out" Sample.start)) = ∅ /\
  ~ (forall E kv mkv s3_client template output_dir w content,
       spans_absent_or_empty kv ->
       field kv "metadata" (JObj []) = JObj mkv ->
       get_s3_bytes E s3_client (field mkv "Source-File" JNull) = Ok content ->
       fst (process_document E (JObj kv) s3_client template output_dir w) = Ok tt).
Proof.
  split; [left; reflexivity |].
  split; [reflexivity |].
  split; [vm_compute; reflexivity |].
  split; [vm_compute; reflexivity |].
  split; [vm_compute; reflexivity |].
  split; [vm_compute; reflexivity |].
  intros H.
  specialize (H Sample.env
                [("id", JStr "doc-2");
                 ("metadata", JObj [("Source-File", JStr "s3://b/k.pdf")])]
                [("Source-File", JStr "s3://b/k.pdf")]
                Sample.client_refusing Sample.template "out" Sample.start
                Sample.pdf_bytes (or_introl eq_refl) eq_refl eq_refl).
  vm_compute in H. discriminate H.
Qed.

(** ** Credentials *)




(** ** Records without text *)

Lemma slice_empty (lo hi : option Z) : PyStr.slice "" lo hi = "".
Proof.
  unfold PyStr.slice. cbn [String.length Z.of_nat]. cbn zeta.
  assert (forall b d, d = 0 -> PyStr.adjust_index 0 b d = 0) as H0.
  { intros [i |] d ->; [| reflexivity]. unfold PyStr.adjust_index.
    destruct (Z.ltb_spec i 0).
    - destruct (Z.ltb_spec (i + 0) 0); [reflexivity | lia].
    - destruct (Z.leb_spec 0 i); [reflexivity | lia]. }
  now rewrite !H0.
Qed.

Lemma getitem_slice_empty (a b : json) (s : string) :
  getitem_slice (JStr "") a b = Ok (JStr s) -> s = "".
Proof.
  unfold getitem_slice.
  destruct (slice_bound a) as [lo |]; [| discriminate].
  destruct (slice_bound b) as [hi |]; [| discriminate].
  rewrite slice_empty. now intros [= <-].
Qed.

(** C10.  A record without a [text] key is processed exactly as the same
    record with [text] set to the empty string: the missing field raises
    nothing.  Every span whose bounds are integers or [None] then selects the
    empty string, and its page is the conversion of the empty text together
    with the image of its page.  In a run that returns there is one page per
    span, in order, each with the conversion of the empty text. *)
Theorem missing_text_is_the_empty_text kv :
  assoc "text" kv = None ->
  (forall E s3_client template output_dir w,
     process_document E (JObj kv) s3_client template output_dir w =
     process_document E (JObj (("text", JStr "") :: kv))
       s3_client template output_dir w) /\
  (forall E content a b page_num lo hi,
     slice_bound a = Ok lo -> slice_bound b = Ok hi ->
     getitem_slice (field kv "text" (JStr "")) a b = Ok (JStr "") /\
     span_page E (field kv "text" (JStr "")) content (JList [a; b; page_num]) =
       (let? page_text := markdown2_markdown E "" ["tables"] in
        let? base64_image := render_pdf_to_base64webp E content page_num in
        Ok (Page page_num page_text base64_image))) /\
  (forall E s3_client template output_dir w w',
     process_document E (JObj kv) s3_client template output_dir w = (Ok tt, w') ->
     exists akv spans pages s3_link html_content,
       field kv "attributes" (JObj []) = JObj akv /\
       py_iter (field akv "pdf_page_numbers" (JList [])) = Ok spans /\
       render template (field kv "id" JNull) pages s3_link = Ok html_content /\
       length pages = length spans /\
       Forall2
         (fun sp pg =>
            exists start_index end_index,
              unpack3 sp = Ok (start_index, end_index, pg_page_num pg) /\
              markdown2_markdown E "" ["tables"] = Ok (pg_text pg))
         spans pages).
Proof.
  intros Htext.
  assert (field kv "text" (JStr "") = JStr "") as Hfield.
  { unfold field. now rewrite Htext. }
  split; [| split].
  - intros E s3_client template output_dir w.
    unfold process_document. rewrite !dict_get_obj, Hfield. reflexivity.
  - intros E content a b page_num lo hi Ha Hb. rewrite Hfield.
    assert (getitem_slice (JStr "") a b = Ok (JStr "")) as Hs.
    { unfold getitem_slice. now rewrite Ha, Hb, slice_empty. }
    split; [exact Hs |].
    unfold span_page. cbn [unpack3 py_iter result_bind].
    rewrite Hs. reflexivity.
  - intros E s3_client template output_dir w w' H.
    apply process_document_ok_inv in H
      as (kv' & akv & mkv & content & spans & pages & [= <-] & Ha & Hm & Hget
          & Hspans & Hpages & Hfin).
    apply finish_document_ok_inv in Hfin
      as (s3_link & w1 & html_content & path & _ & Hrender & _).
    exists akv, spans, pages, s3_link, html_content.
    apply map_result_Forall2 in Hpages.
    repeat split; try assumption.
    + symmetry. exact (Forall2_length _ _ _ Hpages).
    + eapply Forall2_impl; [exact Hpages |].
      intros sp pg Hpg. cbn beta in Hpg. rewrite Hfield in Hpg.
      unfold span_page in Hpg.
      destruct (unpack3 sp) as [[[a b] p] | e]; [| discriminate Hpg].
      cbn [result_bind] in Hpg.
      destruct (getitem_slice (JStr "") a b) as [sliced | e] eqn:Hs;
        [| discriminate Hpg].
      cbn [result_bind] in Hpg.
      destruct sliced as [| ? | ? | ? ? | raw | ? | ?]; try discriminate Hpg.
      apply getitem_slice_empty in Hs as ->.
      cbn [html_escape result_bind] in Hpg.
      change (sanitize (PyStr.html_escape "")) with "" in Hpg.
      destruct (markdown2_markdown E "" ["tables"]) as [md | e];
        [| discriminate Hpg].
      cbn [result_bind] in Hpg.
      destruct (render_pdf_to_base64webp E content p); [| discriminate Hpg].
      injection Hpg as <-. exists a, b. auto.
Qed.

(** A record without [text] and with two spans: two pages of empty text. *)
Lemma missing_text_is_the_empty_text_witness :
  process_document Sample.env Sample.textless Sample.client Sample.template
    "out" Sample.start =
  process_document Sample.env
    (JObj (("text", JStr "") ::
           [("id", JStr "doc-4");
            ("attributes",
             JObj [("pdf_page_numbers", JList [span 0 5 1; span 5 9 2])]);
            ("metadata", JObj [("Source-File", JStr "s3://b/k.pdf")])]))
    Sample.client Sample.template "out" Sample.start /\
  fst (process_document Sample.env Sample.textless Sample.client Sample.template
         "out" Sample.start) = Ok tt /\
  disk (snd (process_document Sample.env Sample.textless Sample.client
               Sample.template "out" Sample.start)) !! "out/b_k_pdf.html" =
  Some ("<a href='https://b.s3.amazonaws.com/k.pdf'>source</a>"
        +:+ "<section><p></p><img src='data:image/webp;base64,UklGRg=='></section>"
        +:+ "<section><p></p><img src='data:image/webp;base64,UklGRg=='></section>").
Proof.
  split.
  - apply (proj1 (missing_text_is_the_empty_text
                    [("id", JStr "doc-4");
                     ("attributes",
                      JObj [("pdf_page_numbers", JList [span 0 5 1; span 5 9 2])]);
                     ("metadata", JObj [("Source-File", JStr "s3://b/k.pdf")])]
                    eq_refl)).
  - split; vm_compute; reflexivity.
Defined.

(** ** The driver *)

Lemma drain_first_failure (before after : list (result unit)) e w :
  Forall (fun r => ~ failed r) before ->
  drain (before ++ Raise e :: after) w =
  (Raise e, printed w ("An error occurred: " +:+ exn_str e)).
Proof.
  induction 1 as [| r rest Hr _ IH]; [reflexivity |].
  destruct r as [[] | e']; [exact IH |]. exfalso. apply Hr. now exists e'.
Qed.

Lemma first_failing_future (futures : gmap nat (result unit)) (seen : list nat) i e :
  i ∈ seen -> futures !! i = Some (Raise e) ->
  exists before j after e',
    seen = before ++ j :: after /\
    futures !! j = Some (Raise e') /\
    Forall (fun k => forall e'', futures !! k <> Some (Raise e'')) before.
Proof.
  intros Hin Hi. induction seen as [| k rest IH]; [inversion Hin |].
  destruct (futures !! k) as [[[] | e0] |] eqn:Hk.
  - apply elem_of_cons in Hin as [-> | Hin]; [congruence |].
    destruct (IH Hin) as (before & j & after & e' & -> & Hj & Hb).
    exists (k :: before), j, after, e'. repeat split; [assumption |].
    constructor; [| assumption]. intros e''. congruence.
  - exists [], k, rest, e0. repeat split; [assumption | constructor].
  - apply elem_of_cons in Hin as [-> | Hin]; [congruence |].
    destruct (IH Hin) as (before & j & after & e' & -> & Hj & Hb).
    exists (k :: before), j, after, e'. repeat split; [assumption |].
    constructor; [| assumption]. intros e''. congruence.
Qed.

Lemma observed_before (futures : gmap nat (result unit)) (before : list nat) :
  Forall (fun k => forall e, futures !! k <> Some (Raise e)) before ->
  Forall (fun r => ~ failed r) (omap (fun i => futures !! i) before).
Proof.
  induction 1 as [| k rest Hk _ IH]; [constructor |].
  cbn. destruct (futures !! k) as [r |] eqn:Hr; [| exact IH].
  constructor; [| exact IH]. intros [e ->]. now apply (Hk e).
Qed.

Lemma first_failed_outcome (completed : list (result unit)) :
  Exists failed completed ->
  exists before e after,
    completed = before ++ Raise e :: after /\
    Forall (fun r => ~ failed r) before.
Proof.
  induction 1 as [r rest [e ->] | r rest _ IH].
  - exists [], e, rest. split; [reflexivity | constructor].
  - destruct r as [[] | e].
    + destruct IH as (before & e & after & -> & Hb).
      exists (Ok tt :: before), e, after. split; [reflexivity |].
      constructor; [| assumption]. intros [e' He']. discriminate He'.
    + exists [], e, rest. split; [reflexivity | constructor].
Qed.

Lemma dispatch_app E (before rest : list string) :
  snd (dispatch E before) = None ->
  dispatch E (before ++ rest) =
  (fst (dispatch E before) ++ fst (dispatch E rest), snd (dispatch E rest)).
Proof.
  induction before as [| line before IH]; intros H.
  - cbn. now destruct (dispatch E rest).
  - cbn [app dispatch] in *.
    destruct (String.eqb line ""); [now apply IH |].
    destruct (json_loads E line) as [data | e]; [| discriminate H].
    destruct (dispatch E before) as [submitted stopped] eqn:Hb.
    cbn [snd] in H. rewrite (IH H). reflexivity.
Qed.

(** C4, as the code has it.  The first non-empty line that is not JSON makes
    [json.loads] raise in the dispatch loop of [main] itself: no task is
    submitted for that line nor for any line after it, the loop over the
    completed futures is never entered, so nothing is printed by the driver,
    and [main] raises the parse error once the tasks submitted before that
    line have run, those that were still running included. *)
Theorem json_parse_failure_ends_dispatch E before line after e :
  snd (dispatch E before) = None ->
  line <> "" ->
  json_loads E line = Raise e ->
  dispatch E (before ++ line :: after) = (fst (dispatch E before), Some e) /\
  forall s3_client template output_dir raw_lines schedule seen late w,
    read_jsonl raw_lines = before ++ line :: after ->
    let tasks :=
      map (fun data => process_document E data s3_client template output_dir)
          (fst (dispatch E before)) in
    main E s3_client template output_dir raw_lines schedule seen late w =
    (Raise e, snd (run_pool tasks late (snd (run_pool tasks schedule w)))).
Proof.
  intros Hbefore Hline Hloads.
  assert (dispatch E (before ++ line :: after) = (fst (dispatch E before), Some e))
    as Hd.
  { rewrite dispatch_app by assumption. cbn [dispatch].
    apply String.eqb_neq in Hline. rewrite Hline, Hloads. cbn.
    now rewrite app_nil_r. }
  split; [exact Hd |].
  intros s3_client template output_dir raw_lines schedule seen late w Hraw tasks.
  unfold main. rewrite Hraw, Hd. fold tasks.
  now destruct (run_pool tasks schedule w).
Qed.

(** Three lines, the second of which is not JSON. *)
Lemma json_parse_failure_ends_dispatch_witness :
  dispatch Sample.env ([Sample.bare_line] ++ "not json" :: [Sample.hello_line]) =
    ([Sample.bare], Some (Exn JSONDecodeError "Expecting value: line 1 column 1 (char 0)")) /\
  fst (main Sample.env Sample.client Sample.template "out"
         [Sample.bare_line; "not json"; Sample.hello_line] [0%nat] [0%nat] []
         Sample.start)
    = Raise (Exn JSONDecodeError "Expecting value: line 1 column 1 (char 0)").
Proof.
  pose proof (json_parse_failure_ends_dispatch Sample.env [Sample.bare_line]
                "not json" [Sample.hello_line]
                (Exn JSONDecodeError "Expecting value: line 1 column 1 (char 0)")
                eq_refl ltac:(discriminate) eq_refl) as [Hd Hmain].
  split; [exact Hd |].
  now rewrite (Hmain Sample.client Sample.template "out"
                 [Sample.bare_line; "not json"; Sample.hello_line]
                 [0%nat] [0%nat] [] Sample.start eq_refl).
Defined.

(** C4, as documented, fails: on the three lines [Sample.bare_line],
    [not json], [Sample.hello_line] the dispatch loop is left with the parse
    error after one submission, the valid third line is never submitted, and
    [main] raises the parse error without printing anything.  So it is not the
    case that the dispatch loop always runs to its end. *)
Lemma json_parse_failure_is_batch_wide :
  dispatch Sample.env
    (read_jsonl [Sample.bare_line; "not json"; Sample.hello_line]) =
    ([Sample.bare],
     Some (Exn JSONDecodeError "Expecting value: line 1 column 1 (char 0)")) /\
  json_loads Sample.env Sample.hello_line = Ok Sample.hello /\
  fst (main Sample.env Sample.client Sample.template "out"
         [Sample.bare_line; "not json"; Sample.hello_line] [0%nat] [0%nat] []
         Sample.start)
    = Raise (Exn JSONDecodeError "Expecting value: line 1 column 1 (char 0)") /\
  stdout (snd (main Sample.env Sample.client Sample.template "out"
                 [Sample.bare_line; "not json"; Sample.hello_line]
                 [0%nat] [0%nat] [] Sample.start)) = [] /\
  ~ (forall E lines, snd (dispatch E lines) = None).
Proof.
  repeat split; try (vm_compute; reflexivity).
  intros H. specialize (H Sample.env ["not json"]). discriminate H.
Qed.

(** * Further properties of the code *)

(** ** What a run of [process_document] touches *)

(** A record of the wrong shape fails on its first [.get], before anything
    is created; any other record has objects for [attributes] and
    [metadata]. *)
Lemma process_document_shape_cases E data s3_client template output_dir w :
  (exists v,
     process_document E data s3_client template output_dir w =
     (Raise (no_attribute v "get"), w)) \/
  (exists kv akv mkv,
     data = JObj kv /\
     field kv "attributes" (JObj []) = JObj akv /\
     field kv "metadata" (JObj []) = JObj mkv).
Proof.
  destruct data as [| ? | ? | ? ? | ? | ? | kv];
    try (left; eexists; reflexivity).
  unfold process_document. rewrite !dict_get_obj.
  do 3 (rewrite bind_lift; cbn match).
  destruct (field kv "attributes" (JObj [])) as [| ? | ? | ? ? | ? | ? | akv] eqn:Ha;
    try (left; eexists; reflexivity).
  rewrite dict_get_obj.
  do 2 (rewrite bind_lift; cbn match).
  destruct (field kv "metadata" (JObj [])) as [| ? | ? | ? ? | ? | ? | mkv] eqn:Hm;
    try (left; eexists; reflexivity).
  right. eauto 10.
Qed.

(** What the link step does to the world: nothing, or one request to the
    backend, followed by the credentials message exactly when the backend
    raised a credentials error and [None] is returned. *)
Lemma make_s3_link_effects E s3_client source_file w r w1 :
  make_s3_link E s3_client source_file w = (r, w1) ->
  (w1 = w /\ forall url, r <> Ok (Some url)) \/
  (exists path bucket_name key_name,
     source_file = JStr path /\
     PyStr.startswith "s3://" path = true /\
     parse_s3_path E path = Ok (bucket_name, key_name) /\
     let q := PresignRequest "get_object" bucket_name key_name 604700 in
     ((exists url, r = Ok (Some url) /\ w1 = requested w q) \/
      (r = Ok None /\ w1 = printed (requested w q) CREDENTIALS_MESSAGE) \/
      (exists e, r = Raise e /\ is_credentials_error e = false /\ w1 = requested w q))).
Proof.
  unfold make_s3_link.
  destruct (truthy source_file).
  2:{ intros [= <- <-]. left. split; [reflexivity | intros; discriminate]. }
  destruct source_file as [| ? | ? | ? ? | path | ? | ?];
    try (intros [= <- <-]; left; repeat split; intros; discriminate).
  destruct (PyStr.startswith "s3://" path) eqn:Hs3.
  2:{ intros [= <- <-]. left. split; [reflexivity | intros; discriminate]. }
  rewrite bind_lift.
  destruct (parse_s3_path E path) as [[bucket_name key_name] | e] eqn:Hparse.
  2:{ intros [= <- <-]. left. split; [reflexivity | intros; discriminate]. }
  rewrite generate_presigned_url_eval. cbn zeta.
  intros H. right. exists path, bucket_name, key_name.
  repeat split; try assumption. cbn zeta.
  destruct (s3_generate_presigned_url _ _ _ _ _) as [url | e].
  - injection H as <- <-. left. eauto.
  - destruct (is_credentials_error e) eqn:Hc; injection H as <- <-.
    + right. left. auto.
    + right. right. eauto.
Qed.

Lemma make_s3_link_step E s3_client source_file w r w1 :
  make_s3_link E s3_client source_file w = (r, w1) -> link_step w w1.
Proof.
  intros H. apply make_s3_link_effects in H as [[-> _] | H]; [now left |].
  destruct H as (path & bucket_name & key_name & _ & _ & _ & H). cbn zeta in H.
  right. exists (PresignRequest "get_object" bucket_name key_name 604700).
  split; [reflexivity |]. split; [reflexivity |].
  destruct H as [(url & _ & ->) | [(_ & ->) | (e & _ & _ & ->)]]; auto.
Qed.

Lemma write_file_effects E filepath content w r w' :
  write_file E filepath content w = (r, w') ->
  (exists e, r = Raise e /\ open_w E filepath = Some e /\ w' = w) \/
  (open_w E filepath = None /\
   w' = written w filepath (left_in_file E filepath content) /\
   match f_write E filepath content with
   | Some (e, _) => r = Raise e
   | None => r = Ok tt
   end).
Proof.
  unfold write_file, left_in_file.
  destruct (open_w E filepath) as [e |].
  - intros [= <- <-]. left. eauto.
  - destruct (f_write E filepath content) as [[e n] |]; intros [= <- <-]; right; auto.
Qed.

(** Lines 60-73 end either by an exception before the output file is opened,
    with no file touched, or with the output file opened and holding what
    reached it: the whole document exactly when they return. *)
Lemma finish_document_effects E s3_client template output_dir id_ source_file pages w r w' :
  finish_document E s3_client template output_dir id_ source_file pages w = (r, w') ->
  exists w1,
    link_step w w1 /\
    ((exists e, r = Raise e /\ w' = w1) \/
     (exists path s3_link html_content,
        source_file = JStr path /\
        render template id_ pages s3_link = Ok html_content /\
        let filepath := PyStr.os_path_join output_dir (output_name path) in
        open_w E filepath = None /\
        w' = written w1 filepath (left_in_file E filepath html_content) /\
        match f_write E filepath html_content with
        | Some (e, _) => r = Raise e
        | None => r = Ok tt
        end)).
Proof.
  unfold finish_document. intros H. unfold bind at 1 in H.
  destruct (make_s3_link E s3_client source_file w) as [[s3_link | e] w1] eqn:Hlink.
  2:{ injection H as <- <-. exists w1. split; [eapply make_s3_link_step; eauto |].
      left. eauto. }
  exists w1. split; [eapply make_s3_link_step; eauto |].
  rewrite bind_lift in H.
  destruct (render template id_ pages s3_link) as [html_content | e] eqn:Hr.
  2:{ injection H as <- <-. left. eauto. }
  rewrite bind_lift in H.
  destruct source_file as [| ? | ? | ? ? | path | ? | ?];
    try (injection H as <- <-; left; eauto).
  cbn [output_filename] in H.
  apply write_file_effects in H as [(e & -> & _ & ->) | (Hopen & -> & Hr')].
  - left. eauto.
  - right. exists path, s3_link, html_content. cbn zeta. auto.
Qed.

(** Every run of [process_document], whatever its outcome: the world it
    leaves is the one it found, with the temporary file created (and closed
    again if the page loop returned), after the link step, and with the
    output file opened and written to exactly when line 72 was passed. *)
Lemma process_document_effects E data s3_client template output_dir w r w' :
  process_document E data s3_client template output_dir w = (r, w') ->
  (exists e, r = Raise e /\
     (w' = w \/ exists content, w' = opened w content)) \/
  (exists w1,
     link_step (closed w) w1 /\
     ((exists e, r = Raise e /\ w' = w1) \/
      (exists path html_content,
         source_of data = Some path /\
         let filepath := PyStr.os_path_join output_dir (output_name path) in
         open_w E filepath = None /\
         w' = written w1 filepath (left_in_file E filepath html_content) /\
         match f_write E filepath html_content with
         | Some (e, _) => r = Raise e
         | None => r = Ok tt
         end))).
Proof.
  intros H.
  destruct (process_document_shape_cases E data s3_client template output_dir w)
    as [(v & Hv) | (kv & akv & mkv & -> & Ha & Hm)].
  { rewrite Hv in H. injection H as <- <-. left. eauto. }
  rewrite (process_document_stages E kv akv mkv _ _ _ w Ha Hm) in H.
  destruct (get_s3_bytes E s3_client (field mkv "Source-File" JNull))
    as [content | e].
  2:{ injection H as <- <-. left. eauto. }
  destruct (py_iter (field akv "pdf_page_numbers" (JList []))) as [spans | e].
  2:{ injection H as <- <-. left. eauto. }
  destruct (map_result _ spans) as [pages | e].
  2:{ injection H as <- <-. left. eauto. }
  apply finish_document_effects in H as (w1 & Hstep & H).
  right. exists w1. split; [assumption |].
  destruct H as [(e & -> & ->) | (path & s3_link & html & Hsrc & _ & H)].
  - left. eauto.
  - right. exists path, html. split; [| exact H].
    unfold source_of. now rewrite Hm, Hsrc.
Qed.

Lemma link_step_frame w0 w1 :
  link_step w0 w1 ->
  tmp_next w1 = tmp_next w0 /\ tmp_files w1 = tmp_files w0 /\ disk w1 = disk w0.
Proof.
  intros [-> | (q & _ & _ & [-> | ->])]; auto.
Qed.

(** X1.  A run of [process_document] that raises leaves the output files as
    they were, whichever step raised, with one exception: when it is the
    writing of line 73 that raises, line 72 has already created or emptied
    the output file of the record, which is left with the part of the
    document that reached it. *)
Theorem failed_run_leaves_at_most_a_partial_file
    E data s3_client template output_dir w e w' :
  process_document E data s3_client template output_dir w = (Raise e, w') ->
  disk w' = disk w \/
  exists path html_content n,
    source_of data = Some path /\
    let filepath := PyStr.os_path_join output_dir (output_name path) in
    open_w E filepath = None /\
    f_write E filepath html_content = Some (e, n) /\
    disk w' = <[filepath := String.substring 0 n html_content]> (disk w).
Proof.
  intros H.
  apply process_document_effects in H as [(e' & _ & [-> | (content & ->)]) | H];
    [now left | now left |].
  destruct H as (w1 & Hstep & [(e' & _ & ->) | (path & html & Hsrc & H)]).
  - left. now apply link_step_frame in Hstep as (_ & _ & ->).
  - cbn zeta in H. destruct H as (Hopen & -> & Hr).
    apply link_step_frame in Hstep as (_ & _ & Hdisk).
    unfold left_in_file.
    destruct (f_write E _ html) as [[e' n] |] eqn:Hw; [| discriminate Hr].
    injection Hr as <-.
    right. exists path, html, n. cbn zeta. repeat split; try assumption.
    cbn. now rewrite Hdisk.
Qed.

(** A record whose template cannot be rendered: nothing is written.  The
    boundary record on a disk that fills up: the file is left with the first
    ten characters of the document. *)
Lemma failed_run_leaves_at_most_a_partial_file_witness :
  (disk (snd (process_document Sample.env Sample.hello Sample.client
                Sample.broken_template "out" Sample.start)) = disk Sample.start \/
   exists path html_content n,
     source_of Sample.hello = Some path /\
     let filepath := PyStr.os_path_join "out" (output_name path) in
     open_w Sample.env filepath = None /\
     f_write Sample.env filepath html_content
       = Some (Exn (OtherError "UndefinedError") "undefined", n) /\
     disk (snd (process_document Sample.env Sample.hello Sample.client
                  Sample.broken_template "out" Sample.start))
       = <[filepath := String.substring 0 n html_content]> (disk Sample.start)) /\
  fst (process_document Cases.full_disk_env Sample.hello Sample.client
         Sample.template "out" Sample.start)
    = Raise (Exn (OtherError "OSError") "[Errno 28] No space left on device") /\
  disk (snd (process_document Cases.full_disk_env Sample.hello Sample.client
               Sample.template "out" Sample.start)) !! "out/b_k_pdf.html"
    = Some "<a href='h".
Proof.
  split; [| split; vm_compute; reflexivity].
  eapply (failed_run_leaves_at_most_a_partial_file Sample.env Sample.hello
            Sample.client Sample.broken_template "out" Sample.start
            (Exn (OtherError "UndefinedError") "undefined")).
  vm_compute. reflexivity.
Defined.

(** X2.  Whatever its outcome, a run of [process_document] sends the storage
    backend at most one request, always for a [get_object] link of 604700
    seconds, and prints at most one line, the credentials message, and that
    only after the request. *)
Theorem at_most_one_request_and_one_line E data s3_client template output_dir w :
  let w' := snd (process_document E data s3_client template output_dir w) in
  (s3_requests w' = s3_requests w /\ stdout w' = stdout w) \/
  (exists q,
     pr_method q = "get_object" /\ pr_expires_in q = 604700 /\
     s3_requests w' = s3_requests w ++ [q] /\
     (stdout w' = stdout w \/ stdout w' = stdout w ++ [CREDENTIALS_MESSAGE])).
Proof.
  cbn zeta.
  destruct (process_document E data s3_client template output_dir w) as [r w'] eqn:H.
  cbn [snd].
  apply process_document_effects in H as [(e' & _ & [-> | (content & ->)]) | H];
    [left; auto | left; auto |].
  destruct H as (w1 & Hstep & H).
  assert (s3_requests w' = s3_requests w1 /\ stdout w' = stdout w1) as [-> ->].
  { destruct H as [(e' & _ & ->) | (path & html & _ & _ & -> & _)]; auto. }
  destruct Hstep as [-> | (q & Hm & Hx & [-> | ->])].
  - left. auto.
  - right. exists q. auto.
  - right. exists q. auto.
Qed.

Lemma make_s3_link_not_s3 E s3_client path w :
  PyStr.startswith "s3://" path = false ->
  make_s3_link E s3_client (JStr path) w = (Ok None, w).
Proof.
  intros H. unfold make_s3_link.
  destruct (truthy (JStr path)); [| reflexivity]. now rewrite H.
Qed.

(** X3.  For a record whose source does not start with [s3://], no request
    reaches the storage backend and nothing is printed, and once the pages
    are rendered the template is rendered with no link: the run is the
    writing of that rendering, or the exception of the template. *)
Theorem local_source_gets_no_link
    E kv akv mkv path s3_client template output_dir w :
  field kv "attributes" (JObj []) = JObj akv ->
  field kv "metadata" (JObj []) = JObj mkv ->
  field mkv "Source-File" JNull = JStr path ->
  PyStr.startswith "s3://" path = false ->
  let run := process_document E (JObj kv) s3_client template output_dir w in
  s3_requests (snd run) = s3_requests w /\
  stdout (snd run) = stdout w /\
  forall content spans pages,
    get_s3_bytes E s3_client (JStr path) = Ok content ->
    py_iter (field akv "pdf_page_numbers" (JList [])) = Ok spans ->
    map_result (span_page E (field kv "text" (JStr "")) content) spans = Ok pages ->
    run =
    match render template (field kv "id" JNull) pages None with
    | Ok html_content =>
        write_file E (PyStr.os_path_join output_dir (output_name path))
          html_content (closed w)
    | Raise e => (Raise e, closed w)
    end.
Proof.
  intros Ha Hm Hsrc Hs3 run.
  assert (forall pages,
            finish_document E s3_client template output_dir (field kv "id" JNull)
              (JStr path) pages (closed w) =
            match render template (field kv "id" JNull) pages None with
            | Ok html_content =>
                write_file E (PyStr.os_path_join output_dir (output_name path))
                  html_content (closed w)
            | Raise e => (Raise e, closed w)
            end) as Hfin.
  { intros pages. unfold finish_document.
    rewrite (bind_eval _ _ _ _ _ (make_s3_link_not_s3 E s3_client path _ Hs3)).
    rewrite bind_lift.
    destruct (render template (field kv "id" JNull) pages None); reflexivity. }
  assert (s3_requests (snd run) = s3_requests w /\ stdout (snd run) = stdout w)
    as [Hreq Hout].
  { subst run. rewrite (process_document_stages E kv akv mkv _ _ _ w Ha Hm), Hsrc.
    destruct (get_s3_bytes E s3_client (JStr path)); [| auto].
    destruct (py_iter (field akv "pdf_page_numbers" (JList []))) as [spans | e];
      [| auto].
    destruct (map_result _ spans) as [pages | e]; [| auto].
    rewrite Hfin.
    destruct (render template (field kv "id" JNull) pages None); [| auto].
    unfold write_file. destruct (open_w E _); [auto |].
    destruct (f_write E _ _) as [[e n] |]; auto. }
  split; [exact Hreq |]. split; [exact Hout |].
  intros content spans pages Hget Hspans Hpages. subst run.
  rewrite (process_document_stages E kv akv mkv _ _ _ w Ha Hm), Hsrc.
  now rewrite Hget, Hspans, Hpages, Hfin.
Qed.

(** A record with a local source: one page, no link, no request. *)
Lemma local_source_gets_no_link_witness :
  s3_requests (snd (process_document Sample.env Cases.local Sample.client
                      Sample.template "out" Sample.start)) = [] /\
  disk (snd (process_document Sample.env Cases.local Sample.client
               Sample.template "out" Sample.start)) !! "out/data_a_pdf.html" =
  Some "<section><p>abc</p><img src='data:image/webp;base64,UklGRg=='></section>".
Proof.
  pose proof (local_source_gets_no_link Sample.env
                [("id", JStr "doc-5"); ("text", JStr "abc");
                 ("attributes", JObj [("pdf_page_numbers", JList [span 0 3 1])]);
                 ("metadata", JObj [("Source-File", JStr "data/a.pdf")])]
                [("pdf_page_numbers", JList [span 0 3 1])]
                [("Source-File", JStr "data/a.pdf")]
                "data/a.pdf" Sample.client Sample.template "out" Sample.start
                eq_refl eq_refl eq_refl eq_refl) as (Hreq & _ & Hrun).
  split; [exact Hreq |].
  unfold Cases.local, record.
  rewrite (Hrun Sample.pdf_bytes [span 0 3 1]
             [Page (JInt 1) "<p>abc</p>" "UklGRg=="] eq_refl eq_refl eq_refl).
  vm_compute. reflexivity.
Defined.

(** ** Pages *)

Lemma span_page_image E text content sp pg :
  span_page E text content sp = Ok pg ->
  exists start_index end_index,
    unpack3 sp = Ok (start_index, end_index, pg_page_num pg) /\
    render_pdf_to_base64webp E content (pg_page_num pg) = Ok (pg_image pg).
Proof.
  unfold span_page. intros H.
  destruct (unpack3 sp) as [[[start_index end_index] page_num] | e];
    [| discriminate H].
  cbn [result_bind] in H.
  destruct (getitem_slice text start_index end_index); [| discriminate H].
  cbn [result_bind] in H.
  destruct (html_escape a); [| discriminate H].
  cbn [result_bind] in H.
  destruct (markdown2_markdown E _ _); [| discriminate H].
  cbn [result_bind] in H.
  destruct (render_pdf_to_base64webp E content page_num) eqn:Himg;
    [| discriminate H].
  injection H as <-. exists start_index, end_index. auto.
Qed.

(** X4.  In a run that returns, the source was fetched once and the pages
    handed to the template follow the spans one to one and in their order:
    the page of a span carries the third item of the span as its number,
    whatever it is and however often it occurs, and the image the rasterizer
    gives for that number on the one fetched content. *)
Theorem pages_follow_the_spans E data s3_client template output_dir w w' :
  process_document E data s3_client template output_dir w = (Ok tt, w') ->
  exists kv akv mkv content spans pages s3_link html_content,
    data = JObj kv /\
    field kv "attributes" (JObj []) = JObj akv /\
    field kv "metadata" (JObj []) = JObj mkv /\
    get_s3_bytes E s3_client (field mkv "Source-File" JNull) = Ok content /\
    py_iter (field akv "pdf_page_numbers" (JList [])) = Ok spans /\
    render template (field kv "id" JNull) pages s3_link = Ok html_content /\
    length pages = length spans /\
    Forall2
      (fun sp pg =>
         exists start_index end_index,
           unpack3 sp = Ok (start_index, end_index, pg_page_num pg) /\
           render_pdf_to_base64webp E content (pg_page_num pg) = Ok (pg_image pg))
      spans pages.
Proof.
  intros H.
  apply process_document_ok_inv in H
    as (kv & akv & mkv & content & spans & pages & -> & Ha & Hm & Hget & Hspans
        & Hpages & Hfin).
  apply finish_document_ok_inv in Hfin
    as (s3_link & w1 & html_content & path & _ & Hrender & _).
  exists kv, akv, mkv, content, spans, pages, s3_link, html_content.
  apply map_result_Forall2 in Hpages.
  repeat split; try assumption.
  - symmetry. exact (Forall2_length _ _ _ Hpages).
  - eapply Forall2_impl; [exact Hpages |].
    intros sp pg Hpg. now apply span_page_image in Hpg.
Qed.

(** The boundary record: three spans, pages 1, 1 and 2. *)
Lemma pages_follow_the_spans_witness :
  exists kv akv mkv content spans pages s3_link html_content,
    Sample.hello = JObj kv /\
    field kv "attributes" (JObj []) = JObj akv /\
    field kv "metadata" (JObj []) = JObj mkv /\
    get_s3_bytes Sample.env Sample.client (field mkv "Source-File" JNull)
      = Ok content /\
    py_iter (field akv "pdf_page_numbers" (JList [])) = Ok spans /\
    render Sample.template (field kv "id" JNull) pages s3_link = Ok html_content /\
    length pages = length spans /\
    Forall2
      (fun sp pg =>
         exists start_index end_index,
           unpack3 sp = Ok (start_index, end_index, pg_page_num pg) /\
           render_pdf_to_base64webp Sample.env content (pg_page_num pg)
             = Ok (pg_image pg))
      spans pages.
Proof.
  eapply (pages_follow_the_spans Sample.env Sample.hello Sample.client
            Sample.template "out" Sample.start).
  vm_compute. reflexivity.
Defined.

Lemma map_result_app_raise {A B} (f : A -> result B) good bad rest ys e :
  map_result f good = Ok ys -> f bad = Raise e ->
  map_result f (good ++ bad :: rest) = Raise e.
Proof.
  revert ys. induction good as [| x good IH]; intros ys Hgood Hbad.
  - cbn. now rewrite Hbad.
  - cbn in *. destruct (f x) as [y | e']; [| discriminate Hgood].
    cbn in *. destruct (map_result f good) as [ys' | e']; [| discriminate Hgood].
    now rewrite (IH ys' eq_refl Hbad).
Qed.

(** X5.  The page loop stops at the first span that cannot be rendered: the
    run raises the exception of that span, the pages rendered before it are
    dropped, the spans after it are never looked at, the template is not
    rendered and no file is written; the temporary file stays. *)
Theorem first_failing_span_fails_the_record
    E id_ text good bad rest source_file s3_client template output_dir w
    content pages e :
  get_s3_bytes E s3_client (JStr source_file) = Ok content ->
  map_result (span_page E (JStr text) content) good = Ok pages ->
  span_page E (JStr text) content bad = Raise e ->
  process_document E (record id_ text (good ++ bad :: rest) source_file)
    s3_client template output_dir w = (Raise e, opened w content).
Proof.
  intros Hget Hgood Hbad.
  rewrite process_document_record, Hget.
  now rewrite (map_result_app_raise _ good bad rest pages e Hgood Hbad).
Qed.

(** A good span, then a span of two items, then something that is no span. *)
Lemma first_failing_span_fails_the_record_witness :
  process_document Sample.env
    (record (JStr "doc-8") "abc"
       ([span 0 1 1] ++ JList [JInt 0; JInt 3] :: [JNull]) "s3://b/k.pdf")
    Sample.client Sample.template "out" Sample.start =
  (Raise (Exn ValueError "not enough values to unpack (expected 3, got 2)"),
   opened Sample.start Sample.pdf_bytes).
Proof.
  apply (first_failing_span_fails_the_record Sample.env (JStr "doc-8") "abc"
           [span 0 1 1] (JList [JInt 0; JInt 3]) [JNull] "s3://b/k.pdf"
           Sample.client Sample.template "out" Sample.start Sample.pdf_bytes
           [Page (JInt 1) "<p>a</p>" "UklGRg=="]);
    reflexivity.
Defined.

(** ** Output files *)

Lemma process_document_ok_disk E data s3_client template output_dir w w' :
  process_document E data s3_client template output_dir w = (Ok tt, w') ->
  exists path html_content,
    source_of data = Some path /\
    disk w' = <[PyStr.os_path_join output_dir (output_name path) := html_content]>
                (disk w).
Proof.
  intros H.
  apply process_document_ok_inv in H
    as (kv & akv & mkv & content & spans & pages & -> & Ha & Hm & Hget & Hspans
        & Hpages & Hfin).
  apply finish_document_ok_inv in Hfin
    as (s3_link & w1 & html_content & path & Hlink & _ & Hsrc & _ & ->).
  apply make_s3_link_frame in Hlink as (_ & _ & Hdisk).
  exists path, html_content. split.
  - unfold source_of. now rewrite Hm, Hsrc.
  - cbn. now rewrite Hdisk.
Qed.

(** A run that returns has put the document of its record in its file. *)
Lemma process_document_ok_document E data s3_client template output_dir w w' :
  process_document E data s3_client template output_dir w = (Ok tt, w') ->
  exists path html_content,
    source_of data = Some path /\
    document_of E s3_client template data (closed w) html_content /\
    disk w' = <[PyStr.os_path_join output_dir (output_name path) := html_content]>
                (disk w).
Proof.
  intros H.
  apply process_document_ok_inv in H
    as (kv & akv & mkv & content & spans & pages & -> & Ha & Hm & Hget & Hspans
        & Hpages & Hfin).
  apply finish_document_ok_inv in Hfin
    as (s3_link & w1 & html_content & path & Hlink & Hr & Hsrc & _ & ->).
  exists path, html_content. split; [| split].
  - unfold source_of. now rewrite Hm, Hsrc.
  - exists kv, akv, mkv, content, spans, pages, s3_link, w1. auto 10.
  - apply make_s3_link_frame in Hlink as (_ & _ & Hdisk). cbn. now rewrite Hdisk.
Qed.

(** X6.  Two records whose sources have the same output name share one
    file: when both are processed into the same directory, the first run
    puts the document of the first record there and the second run replaces
    it by the document of the second record, so that the disk is then what it
    would be had the first record never been processed. *)
Theorem colliding_names_overwrite
    E data1 data2 s3_client template output_dir w w1 w2 path1 path2 :
  process_document E data1 s3_client template output_dir w = (Ok tt, w1) ->
  process_document E data2 s3_client template output_dir w1 = (Ok tt, w2) ->
  source_of data1 = Some path1 ->
  source_of data2 = Some path2 ->
  output_name path1 = output_name path2 ->
  let filepath := PyStr.os_path_join output_dir (output_name path1) in
  exists html1 html2,
    document_of E s3_client template data1 (closed w) html1 /\
    document_of E s3_client template data2 (closed w1) html2 /\
    disk w1 !! filepath = Some html1 /\
    disk w2 !! filepath = Some html2 /\
    disk w1 = <[filepath := html1]> (disk w) /\
    disk w2 = <[filepath := html2]> (disk w).
Proof.
  intros H1 H2 Hs1 Hs2 Hname filepath.
  apply process_document_ok_document in H1 as (p1 & html1 & Hp1 & Hdoc1 & Hd1).
  apply process_document_ok_document in H2 as (p2 & html2 & Hp2 & Hdoc2 & Hd2).
  rewrite Hs1 in Hp1. injection Hp1 as <-.
  rewrite Hs2 in Hp2. injection Hp2 as <-.
  rewrite <- Hname in Hd2. fold filepath in Hd1, Hd2.
  exists html1, html2.
  split; [exact Hdoc1 |]. split; [exact Hdoc2 |].
  assert (disk w2 = <[filepath := html2]> (disk w)) as Hd2'.
  { now rewrite Hd2, Hd1, insert_insert_eq. }
  split; [rewrite Hd1; apply lookup_insert_eq |].
  split; [rewrite Hd2'; apply lookup_insert_eq |].
  split; assumption.
Qed.

(** [s3://b/k.pdf] and then [s3://b/k/pdf]: one file, with the second
    document. *)
Lemma colliding_names_overwrite_witness :
  map_to_list
    (disk (snd (process_document Sample.env Cases.twin Sample.client
                  Sample.template "out"
                  (snd (process_document Sample.env Sample.hello Sample.client
                          Sample.template "out" Sample.start))))) =
  [("out/b_k_pdf.html",
    "<a href='https://b.s3.amazonaws.com/k/pdf'>source</a>"
    +:+ "<section><p>xyz</p><img src='data:image/webp;base64,UklGRg=='></section>")].
Proof.
  destruct (colliding_names_overwrite Sample.env Sample.hello Cases.twin
              Sample.client Sample.template "out" Sample.start
              (snd (process_document Sample.env Sample.hello Sample.client
                      Sample.template "out" Sample.start))
              (snd (process_document Sample.env Cases.twin Sample.client
                      Sample.template "out"
                      (snd (process_document Sample.env Sample.hello Sample.client
                              Sample.template "out" Sample.start))))
              "s3://b/k.pdf" "s3://b/k/pdf")
    as (html1 & html2 & _ & _ & _ & _ & _ & _).
  - vm_compute. reflexivity.
  - vm_compute. reflexivity.
  - reflexivity.
  - reflexivity.
  - reflexivity.
  - vm_compute. reflexivity.
Defined.

(** ** Records of the wrong shape *)

(** X7.  Only a [dict] has [get]: a record that is not an object, a record
    whose [attributes] is present but not an object (for instance [null]),
    and a record whose [metadata] is present but not an object, each raise
    [AttributeError] on that value before a temporary file is created or the
    source is fetched; the world is left as it was.  A key that is present
    with [null] is thus not read as a missing key. *)
Theorem wrong_shape_fails_before_any_effect E s3_client template output_dir w :
  (forall data,
     is_object data = false ->
     process_document E data s3_client template output_dir w =
     (Raise (no_attribute data "get"), w)) /\
  (forall kv attributes,
     assoc "attributes" kv = Some attributes ->
     is_object attributes = false ->
     process_document E (JObj kv) s3_client template output_dir w =
     (Raise (no_attribute attributes "get"), w)) /\
  (forall kv metadata,
     is_object (field kv "attributes" (JObj [])) = true ->
     assoc "metadata" kv = Some metadata ->
     is_object metadata = false ->
     process_document E (JObj kv) s3_client template output_dir w =
     (Raise (no_attribute metadata "get"), w)).
Proof.
  split; [| split].
  - intros data Hd. destruct data; try discriminate Hd; reflexivity.
  - intros kv attributes Ha Hobj.
    unfold process_document. rewrite !dict_get_obj.
    do 3 (rewrite bind_lift; cbn match).
    unfold field at 1. rewrite Ha.
    destruct attributes; try discriminate Hobj; reflexivity.
  - intros kv metadata Ha Hm Hobj.
    unfold process_document. rewrite !dict_get_obj.
    do 3 (rewrite bind_lift; cbn match).
    destruct (field kv "attributes" (JObj [])) as [| ? | ? | ? ? | ? | ? | akv];
      try discriminate Ha.
    rewrite dict_get_obj.
    do 2 (rewrite bind_lift; cbn match).
    unfold field at 1. rewrite Hm.
    destruct metadata; try discriminate Hobj; reflexivity.
Qed.

(** X8.  A record without [Source-File] never yields a document.  The
    fetch is asked for [None]; should it answer, the pages are rendered, the
    link step is skipped without a request, the template is rendered, and
    line 70 then raises [AttributeError] on [None.replace]: nothing is
    written. *)
Theorem missing_source_file_never_returns
    E kv akv mkv s3_client template output_dir w :
  field kv "attributes" (JObj []) = JObj akv ->
  field kv "metadata" (JObj []) = JObj mkv ->
  assoc "Source-File" mkv = None ->
  let run := process_document E (JObj kv) s3_client template output_dir w in
  fst run <> Ok tt /\
  disk (snd run) = disk w /\
  s3_requests (snd run) = s3_requests w /\
  forall content spans pages html_content,
    get_s3_bytes E s3_client JNull = Ok content ->
    py_iter (field akv "pdf_page_numbers" (JList [])) = Ok spans ->
    map_result (span_page E (field kv "text" (JStr "")) content) spans = Ok pages ->
    render template (field kv "id" JNull) pages None = Ok html_content ->
    run = (Raise (no_attribute JNull "replace"), closed w).
Proof.
  intros Ha Hm Hsrc run.
  assert (field mkv "Source-File" JNull = JNull) as Hnull.
  { unfold field. now rewrite Hsrc. }
  assert (forall pages,
            finish_document E s3_client template output_dir (field kv "id" JNull)
              JNull pages (closed w) =
            match render template (field kv "id" JNull) pages None with
            | Ok _ => (Raise (no_attribute JNull "replace"), closed w)
            | Raise e => (Raise e, closed w)
            end) as Hfin.
  { intros pages. unfold finish_document. cbn [make_s3_link truthy].
    unfold bind at 1. cbn [ret]. rewrite bind_lift.
    destruct (render template (field kv "id" JNull) pages None); reflexivity. }
  assert (run =
          match get_s3_bytes E s3_client JNull with
          | Raise e => (Raise e, opened w [])
          | Ok content =>
              match py_iter (field akv "pdf_page_numbers" (JList [])) with
              | Raise e => (Raise e, opened w content)
              | Ok spans =>
                  match map_result (span_page E (field kv "text" (JStr "")) content)
                          spans with
                  | Raise e => (Raise e, opened w content)
                  | Ok pages =>
                      match render template (field kv "id" JNull) pages None with
                      | Ok _ => (Raise (no_attribute JNull "replace"), closed w)
                      | Raise e => (Raise e, closed w)
                      end
                  end
              end
          end) as Hrun.
  { subst run. rewrite (process_document_stages E kv akv mkv _ _ _ w Ha Hm), Hnull.
    destruct (get_s3_bytes E s3_client JNull); [| reflexivity].
    destruct (py_iter (field akv "pdf_page_numbers" (JList []))) as [spans | e];
      [| reflexivity].
    destruct (map_result _ spans) as [pages | e]; [| reflexivity].
    apply Hfin. }
  repeat split.
  - rewrite Hrun.
    destruct (get_s3_bytes E s3_client JNull); [| discriminate].
    destruct (py_iter (field akv "pdf_page_numbers" (JList []))) as [spans | e];
      [| discriminate].
    destruct (map_result _ spans) as [pages | e]; [| discriminate].
    destruct (render template (field kv "id" JNull) pages None); discriminate.
  - rewrite Hrun.
    destruct (get_s3_bytes E s3_client JNull); [| reflexivity].
    destruct (py_iter (field akv "pdf_page_numbers" (JList []))) as [spans | e];
      [| reflexivity].
    destruct (map_result _ spans) as [pages | e]; [| reflexivity].
    destruct (render template (field kv "id" JNull) pages None); reflexivity.
  - rewrite Hrun.
    destruct (get_s3_bytes E s3_client JNull); [| reflexivity].
    destruct (py_iter (field akv "pdf_page_numbers" (JList []))) as [spans | e];
      [| reflexivity].
    destruct (map_result _ spans) as [pages | e]; [| reflexivity].
    destruct (render template (field kv "id" JNull) pages None); reflexivity.
  - intros content spans pages html_content Hget Hspans Hpages Hrender.
    now rewrite Hrun, Hget, Hspans, Hpages, Hrender.
Qed.

(** A record with an empty [metadata], on a fetch that answers for [None]. *)
Lemma missing_source_file_never_returns_witness :
  process_document Cases.lenient_env Cases.sourceless Sample.client
    Sample.template "out" Sample.start =
  (Raise (no_attribute JNull "replace"), closed Sample.start).
Proof.
  refine (proj2 (proj2 (proj2
    (missing_source_file_never_returns Cases.lenient_env
       [("id", JStr "doc-7"); ("text", JStr "abc");
        ("attributes", JObj [("pdf_page_numbers", JList [span 0 3 1])]);
        ("metadata", JObj [])]
       [("pdf_page_numbers", JList [span 0 3 1])] []
       Sample.client Sample.template "out" Sample.start
       eq_refl eq_refl eq_refl)))
    Sample.pdf_bytes [span 0 3 1] [Page (JInt 1) "<p>abc</p>" "UklGRg=="]
    "<section><p>abc</p><img src='data:image/webp;base64,UklGRg=='></section>"
    _ _ _ _); reflexivity.
Defined.

(** ** Slices *)

Section SliceFacts.

Local Open Scope nat_scope.

Lemma substring_split (s : string) (n m1 m2 : nat) :
  String.substring n (m1 + m2) s =
  String.substring n m1 s +:+ String.substring (n + m1) m2 s.
Proof.
  revert n m1. induction s as [| c s IH]; intros n m1.
  - destruct n, m1; destruct m2; reflexivity.
  - destruct n as [| n].
    + destruct m1 as [| m1]; [reflexivity |].
      cbn [String.substring Nat.add]. rewrite append_cons. f_equal.
      exact (IH 0 m1).
    + cbn [String.substring Nat.add]. apply IH.
Qed.

Lemma substring_all (s : string) : String.substring 0 (String.length s) s = s.
Proof.
  induction s as [| c s IH]; [reflexivity |].
  cbn [String.length String.substring]. now rewrite IH.
Qed.

End SliceFacts.

Lemma adjust_index_nonneg (len i d : Z) :
  0 <= len -> 0 <= i -> PyStr.adjust_index len (Some i) d = Z.min i len.
Proof.
  intros Hl Hi. unfold PyStr.adjust_index.
  destruct (Z.ltb_spec i 0); [lia |].
  destruct (Z.leb_spec len i); lia.
Qed.

Lemma slice_nonneg (s : string) (a b : Z) :
  0 <= a -> 0 <= b ->
  PyStr.slice s (Some a) (Some b) =
  let len := Z.of_nat (String.length s) in
  if Z.min b len <=? Z.min a len then ""
  else String.substring (Z.to_nat (Z.min a len))
         (Z.to_nat (Z.min b len - Z.min a len)) s.
Proof.
  intros Ha Hb. unfold PyStr.slice. cbn zeta.
  now rewrite !adjust_index_nonneg by lia.
Qed.

Lemma slice_adjacent (s : string) (a b c : Z) :
  0 <= a -> a <= b -> b <= c ->
  PyStr.slice s (Some a) (Some b) +:+ PyStr.slice s (Some b) (Some c) =
  PyStr.slice s (Some a) (Some c).
Proof.
  intros Ha Hab Hbc. rewrite !slice_nonneg by lia. cbn zeta.
  set (len := Z.of_nat (String.length s)).
  destruct (Z.leb_spec (Z.min b len) (Z.min a len)) as [H1 | H1].
  - rewrite append_nil_l. replace (Z.min b len) with (Z.min a len) by lia.
    reflexivity.
  - destruct (Z.leb_spec (Z.min c len) (Z.min b len)) as [H2 | H2].
    + rewrite append_nil_r. replace (Z.min c len) with (Z.min b len) by lia.
      destruct (Z.leb_spec (Z.min b len) (Z.min a len)); [lia | reflexivity].
    + destruct (Z.leb_spec (Z.min c len) (Z.min a len)); [lia |].
      replace (Z.to_nat (Z.min c len - Z.min a len))
        with (Z.to_nat (Z.min b len - Z.min a len)
              + Z.to_nat (Z.min c len - Z.min b len))%nat by lia.
      rewrite substring_split. do 2 f_equal. lia.
Qed.

Lemma slice_whole (s : string) (c : Z) :
  Z.of_nat (String.length s) <= c -> PyStr.slice s (Some 0) (Some c) = s.
Proof.
  intros Hc. rewrite slice_nonneg by lia. cbn zeta.
  rewrite Z.min_r by lia. rewrite Z.min_l by lia.
  destruct (Z.leb_spec (Z.of_nat (String.length s)) 0) as [H | H].
  - destruct s; [reflexivity | cbn in H; lia].
  - rewrite Z.sub_0_r, Nat2Z.id. apply substring_all.
Qed.

(** X9.  Spans that follow one another, each starting at the offset where
    the one before ends, cut the text without loss and without overlap: their
    slices, put together, are the slice from the first start to the last end;
    when the first start is 0 and the last end is at or beyond the end of
    the text, they are the whole text. *)
Theorem consecutive_spans_partition_the_text (s : string) (start : Z) (ends : list Z) :
  0 <= start ->
  ascending start ends ->
  join_all (consecutive_slices s start ends) =
    PyStr.slice s (Some start) (Some (last_end start ends)) /\
  (start = 0 -> Z.of_nat (String.length s) <= last_end start ends ->
   join_all (consecutive_slices s start ends) = s).
Proof.
  intros Hstart Hasc.
  assert (join_all (consecutive_slices s start ends) =
          PyStr.slice s (Some start) (Some (last_end start ends)) /\
          start <= last_end start ends) as [Hjoin _].
  { revert start Hstart Hasc. induction ends as [| e rest IH]; intros start Hstart Hasc.
    - cbn. split; [| lia]. rewrite slice_nonneg by lia. cbn zeta.
      destruct (Z.leb_spec (Z.min start (Z.of_nat (String.length s)))
                  (Z.min start (Z.of_nat (String.length s)))); [reflexivity | lia].
    - destruct Hasc as [Hle Hrest].
      destruct (IH e ltac:(lia) Hrest) as [IHj IHl].
      cbn [consecutive_slices join_all fold_right last_end].
      fold (join_all (consecutive_slices s e rest)).
      rewrite IHj. split; [| lia]. apply slice_adjacent; lia. }
  split; [exact Hjoin |].
  intros -> Hlast. rewrite Hjoin. now apply slice_whole.
Qed.

(** The spans of the boundary record. *)
Lemma consecutive_spans_partition_the_text_witness :
  join_all (consecutive_slices "Hello World!!X" 0 [5; 10; 15]) = "Hello World!!X".
Proof.
  apply (proj2 (consecutive_spans_partition_the_text "Hello World!!X" 0 [5; 10; 15]
                  ltac:(lia) ltac:(cbn; lia)));
    [reflexivity | cbn; lia].
Defined.

(** X10.  A span whose end is not after its start, or whose start is at or
    beyond the end of the text, raises nothing and selects the empty text. *)
Theorem degenerate_span_selects_nothing (text : string) (start_index end_index : Z) :
  (0 <= end_index <= start_index \/
   Z.of_nat (String.length text) <= start_index) ->
  getitem_slice (JStr text) (JInt start_index) (JInt end_index) = Ok (JStr "").
Proof.
  intros H. unfold getitem_slice. cbn [slice_bound]. do 2 f_equal.
  unfold PyStr.slice. cbn zeta.
  set (len := Z.of_nat (String.length text)).
  assert (0 <= len) as Hlen by (subst len; lia).
  assert (PyStr.adjust_index len (Some end_index) len <=
          PyStr.adjust_index len (Some start_index) 0) as Hle.
  { unfold PyStr.adjust_index.
    destruct (Z.ltb_spec end_index 0), (Z.ltb_spec start_index 0);
      repeat match goal with
             | |- context [?a <? ?b] => destruct (Z.ltb_spec a b)
             | |- context [?a <=? ?b] => destruct (Z.leb_spec a b)
             end; lia. }
  destruct (Z.leb_spec (PyStr.adjust_index len (Some end_index) len)
              (PyStr.adjust_index len (Some start_index) 0)); [reflexivity | lia].
Qed.

(** The span (7, 3) and the span (20, 25) of a text of five characters. *)
Lemma degenerate_span_selects_nothing_witness :
  getitem_slice (JStr "Hello") (JInt 7) (JInt 3) = Ok (JStr "") /\
  getitem_slice (JStr "Hello") (JInt 20) (JInt 25) = Ok (JStr "").
Proof.
  split.
  - apply (degenerate_span_selects_nothing "Hello" 7 3). left. lia.
  - apply (degenerate_span_selects_nothing "Hello" 20 25). right. cbn. lia.
Defined.

(** ** Line 51 on whole texts *)

(** X11.  A text without [<], [>], [&] and quotes goes through
    [html.escape] and the restoring of the break marker unchanged. *)
Theorem plain_text_is_left_as_it_is (s : string) :
  all_plain s = true ->
  PyStr.replace (PyStr.html_escape s) "&lt;br&gt;" "<br>" = s.
Proof.
  intros H. change (sanitize (PyStr.html_escape s) = s).
  rewrite sanitize_html_escape.
  induction s as [| c t IH]; [reflexivity |].
  cbn [all_plain] in H. apply andb_prop in H as [Hc Ht].
  apply negb_true_iff in Hc.
  assert (PyStr.startswith "<br>" (String c t) = false) as Hbr.
  { cbn [PyStr.startswith].
    destruct (Ascii.eqb_spec "<" c) as [<- | _]; [discriminate Hc | reflexivity]. }
  rewrite escape_keeping_br_char by assumption. rewrite (IH Ht).
  destruct (escape_char_cases c) as [[_ [-> _]] | Sc]; [reflexivity |].
  destruct Sc as [-> | [-> | [-> | [-> | ->]]]]; discriminate Hc.
Qed.

(** A Markdown table row. *)
Lemma plain_text_is_left_as_it_is_witness :
  PyStr.replace (PyStr.html_escape "| a | b |") "&lt;br&gt;" "<br>" = "| a | b |".
Proof.
  apply (plain_text_is_left_as_it_is "| a | b |"). reflexivity.
Defined.

Section Injectivity.

Lemma startswith_refl (s : string) : PyStr.startswith s s = true.
Proof.
  induction s as [| c s IH]; [reflexivity |].
  cbn [PyStr.startswith]. now rewrite Ascii.eqb_refl, IH.
Qed.

Lemma append_inj_l (p a b : string) : p +:+ a = p +:+ b -> a = b.
Proof.
  induction p as [| c p IH]; [auto |].
  rewrite !append_cons. intros [= H]. auto.
Qed.

Lemma escape_char_inj (a b : ascii) (P S : string) :
  escape_char a +:+ P = escape_char b +:+ S -> a = b /\ P = S.
Proof.
  intros H.
  pose proof (startswith_escape_char a b P S) as Hs.
  rewrite H, startswith_refl in Hs. symmetry in Hs.
  apply andb_prop in Hs as [Hab _]. apply Ascii.eqb_eq in Hab as ->.
  split; [reflexivity |]. now apply append_inj_l in H.
Qed.

Lemma escape_char_not_br (c : ascii) (X Y : string) :
  escape_char c +:+ X <> "<br>" +:+ Y.
Proof.
  destruct (escape_char_cases c) as [[Hc [-> _]] | Sc].
  - rewrite !append_cons, append_nil_l. intros [= -> _]. discriminate Hc.
  - destruct Sc as [-> | [-> | [-> | [-> | ->]]]]; discriminate.
Qed.

Lemma escape_keeping_br_nil (s : string) : escape_keeping_br 0 s = "" -> s = "".
Proof.
  destruct s as [| c t]; [reflexivity |].
  destruct (PyStr.startswith "<br>" (String c t)) eqn:Hbr.
  - destruct (startswith_split _ _ Hbr) as [t' ->]. discriminate.
  - rewrite escape_keeping_br_char by assumption.
    destruct (escape_char_cases c) as [[_ [-> _]] | Sc]; [discriminate |].
    destruct Sc as [-> | [-> | [-> | [-> | ->]]]]; discriminate.
Qed.

Lemma escape_keeping_br_inj (a b : string) :
  escape_keeping_br 0 a = escape_keeping_br 0 b -> a = b.
Proof.
  remember (String.length a) as n eqn:Hn.
  revert a b Hn. induction n as [n IH] using lt_wf_ind. intros a b Hn H.
  destruct a as [| c t].
  { symmetry. apply escape_keeping_br_nil. now rewrite <- H. }
  destruct b as [| d u].
  { apply escape_keeping_br_nil. now rewrite H. }
  destruct (PyStr.startswith "<br>" (String c t)) eqn:Ha;
    destruct (PyStr.startswith "<br>" (String d u)) eqn:Hb.
  - destruct (startswith_split _ _ Ha) as [t' Et].
    destruct (startswith_split _ _ Hb) as [u' Eu].
    rewrite Et, Eu in *. rewrite !escape_keeping_br_br in H.
    apply append_inj_l in H. f_equal.
    apply (IH (String.length t')); [| reflexivity | assumption].
    subst n. rewrite append_length. cbn. lia.
  - destruct (startswith_split _ _ Ha) as [t' Et]. rewrite Et in H.
    rewrite escape_keeping_br_br, escape_keeping_br_char in H by assumption.
    symmetry in H. now apply escape_char_not_br in H.
  - destruct (startswith_split _ _ Hb) as [u' Eu]. rewrite Eu in H.
    rewrite escape_keeping_br_br, escape_keeping_br_char in H by assumption.
    now apply escape_char_not_br in H.
  - rewrite !escape_keeping_br_char in H by assumption.
    apply escape_char_inj in H as [-> H]. f_equal.
    apply (IH (String.length t)); [subst n; cbn; lia | reflexivity | assumption].
Qed.

End Injectivity.

(** X12.  Line 51 loses nothing: two different slices never give the same
    text to the Markdown converter. *)
Theorem escaping_keeps_slices_apart (a b : string) :
  PyStr.replace (PyStr.html_escape a) "&lt;br&gt;" "<br>" =
  PyStr.replace (PyStr.html_escape b) "&lt;br&gt;" "<br>" ->
  a = b.
Proof.
  intros H. change (sanitize (PyStr.html_escape a) = sanitize (PyStr.html_escape b)) in H.
  rewrite !sanitize_html_escape in H. now apply escape_keeping_br_inj.
Qed.

(** A break marker and its escaped spelling stay different. *)
Lemma escaping_keeps_slices_apart_witness :
  "a<b" = "a<b" /\
  PyStr.replace (PyStr.html_escape "<br>") "&lt;br&gt;" "<br>" <>
  PyStr.replace (PyStr.html_escape "&lt;br&gt;") "&lt;br&gt;" "<br>".
Proof.
  split.
  - apply (escaping_keeps_slices_apart "a<b" "a<b"). reflexivity.
  - intros H.
    pose proof (escaping_keeps_slices_apart "<br>" "&lt;br&gt;" H) as E.
    discriminate E.
Defined.

(** ** Lines of the input *)

Lemma lstrip_cases (s : string) :
  (PyStr.lstrip s = "" /\ all_space s = true) \/
  (exists c t, PyStr.lstrip s = String c t /\ PyStr.isspace c = false /\
               all_space s = false).
Proof.
  induction s as [| c s IH]; [left; auto |].
  cbn [PyStr.lstrip all_space].
  destruct (PyStr.isspace c) eqn:Hc.
  - destruct IH as [[-> ->] | (d & t & -> & Hd & ->)]; [left; auto |].
    right. exists d, t. auto.
  - right. exists c, s. auto.
Qed.

Lemma rstrip_nil (s : string) : PyStr.rstrip s = "" <-> all_space s = true.
Proof.
  induction s as [| c s IH]; [cbn; tauto |].
  cbn [PyStr.rstrip all_space].
  destruct (PyStr.rstrip s) eqn:Hr.
  - destruct (PyStr.isspace c); cbn.
    + tauto.
    + split; discriminate.
  - split; [discriminate |]. intros H. apply andb_prop in H as [_ H].
    apply IH in H. discriminate H.
Qed.

Lemma strip_nil (s : string) : PyStr.strip s = "" <-> all_space s = true.
Proof.
  unfold PyStr.strip. rewrite rstrip_nil.
  destruct (lstrip_cases s) as [[-> ->] | (c & t & -> & Hc & ->)].
  - cbn. tauto.
  - cbn [all_space]. rewrite Hc. cbn. tauto.
Qed.

(** X13.  A line is skipped exactly when it holds nothing but whitespace:
    such lines never reach [json.loads] and no task is submitted for them, so
    leaving them out of the input changes neither the records submitted nor
    the exception that ends the dispatch loop. *)
Theorem blank_lines_are_skipped E (raw_lines : list string) :
  (forall line, PyStr.strip line = "" <-> all_space line = true) /\
  dispatch E (read_jsonl raw_lines) =
  dispatch E (read_jsonl (List.filter (fun line => negb (all_space line)) raw_lines)).
Proof.
  split; [exact strip_nil |].
  unfold read_jsonl. induction raw_lines as [| line rest IH]; [reflexivity |].
  cbn [map List.filter dispatch].
  destruct (all_space line) eqn:Hs.
  - apply strip_nil in Hs. rewrite Hs. cbn [String.eqb negb]. exact IH.
  - cbn [negb map dispatch]. rewrite IH. reflexivity.
Qed.

(** ** The whole batch *)

Lemma run_pool_nil (schedule : list nat) w : run_pool [] schedule w = (∅, w).
Proof. induction schedule as [| i rest IH]; [reflexivity |]. exact IH. Qed.

Lemma dispatch_blank E (lines : list string) :
  Forall (fun line => line = "") lines -> dispatch E lines = ([], None).
Proof.
  induction 1 as [| line rest -> _ IH]; [reflexivity |]. exact IH.
Qed.

(** X14.  An input that is empty, or holds only lines of whitespace, is
    not an error: nothing is parsed, no task is submitted, and [main] returns
    with the world as it found it. *)
Theorem blank_input_is_a_successful_empty_batch
    E s3_client template output_dir raw_lines schedule seen late w :
  Forall (fun line => all_space line = true) raw_lines ->
  main E s3_client template output_dir raw_lines schedule seen late w = (Ok tt, w).
Proof.
  intros H. unfold main.
  rewrite dispatch_blank.
  2:{ unfold read_jsonl. apply Forall_map.
      eapply Forall_impl; [exact H |]. intros line Hl. now apply strip_nil. }
  cbn [map]. rewrite run_pool_nil.
  assert (omap (fun i : nat => (∅ : gmap nat (result unit)) !! i) seen = []) as ->.
  { induction seen as [| i rest IH]; [reflexivity |].
    cbn. rewrite lookup_empty. exact IH. }
  cbn [drain ret]. now rewrite run_pool_nil.
Qed.

(** Two lines of whitespace. *)
Lemma blank_input_is_a_successful_empty_batch_witness :
  main Sample.env Sample.client Sample.template "out" [""; "  "]
    [0; 1]%nat [1; 0]%nat [] Sample.start = (Ok tt, Sample.start).
Proof.
  apply (blank_input_is_a_successful_empty_batch Sample.env Sample.client
           Sample.template "out" [""; "  "] [0; 1]%nat [1; 0]%nat [] Sample.start).
  repeat constructor.
Defined.

Lemma drain_ok_iff (completed : list (result unit)) w :
  fst (drain completed w) = Ok tt <-> Forall (fun r => ~ failed r) completed.
Proof.
  induction completed as [| r rest IH]; [cbn; split; [constructor | reflexivity] |].
  destruct r as [[] | e].
  - cbn [drain]. rewrite IH. split.
    + intros H. constructor; [| assumption]. intros [e He]. discriminate He.
    + intros H. now inversion H.
  - split; [discriminate |]. intros H. inversion H as [| ? ? Hr _].
    exfalso. apply Hr. now exists e.
Qed.

Lemma drain_ok_world (completed : list (result unit)) w :
  fst (drain completed w) = Ok tt -> drain completed w = (Ok tt, w).
Proof.
  induction completed as [| r rest IH]; [reflexivity |].
  destruct r as [[] | e]; [exact IH | discriminate].
Qed.

Lemma observed_ok_iff (futures : gmap nat (result unit)) (seen : list nat) :
  Forall (fun r => ~ failed r) (omap (fun i => futures !! i) seen) <->
  Forall (fun i => forall e, futures !! i <> Some (Raise e)) seen.
Proof.
  induction seen as [| i rest IH]; [split; constructor |].
  change (omap (fun i => futures !! i) (i :: rest))
    with (match futures !! i with
          | Some r => r :: omap (fun i => futures !! i) rest
          | None => omap (fun i => futures !! i) rest
          end).
  destruct (futures !! i) as [r |] eqn:Hi.
  - split; intros H; inversion H as [| ? ? Hr Hrest]; subst; constructor.
    + rewrite Hi. intros e [= ->]. apply Hr. now exists e.
    + now apply IH.
    + intros [e ->]. rewrite Hi in Hr. now apply (Hr e).
    + now apply IH.
  - split; intros H.
    + constructor; [rewrite Hi; discriminate | now apply IH].
    + inversion H. now apply IH.
Qed.

(** [main], once the dispatch loop and the tasks that take effect in the
    body of the block are known. *)
Lemma main_eval E s3_client template output_dir raw_lines schedule seen late w
    submitted stopped futures w1 :
  dispatch E (read_jsonl raw_lines) = (submitted, stopped) ->
  let tasks :=
    map (fun data => process_document E data s3_client template output_dir) submitted in
  run_pool tasks schedule w = (futures, w1) ->
  main E s3_client template output_dir raw_lines schedule seen late w =
  match stopped with
  | Some e => (Raise e, snd (run_pool tasks late w1))
  | None =>
      (fst (drain (omap (fun i => futures !! i) seen) w1),
       snd (run_pool tasks late (snd (drain (omap (fun i => futures !! i) seen) w1))))
  end.
Proof.
  intros Hd tasks Hpool. unfold main. rewrite Hd. fold tasks. rewrite Hpool.
  destruct stopped as [e |]; [reflexivity |].
  now destruct (drain _ w1).
Qed.

(** X15.  [main] returns exactly when every non-empty line was parsed and
    no future that [as_completed] yields holds an exception; the driver has
    then printed nothing, and the world is the one the tasks left. *)
Theorem main_returns_iff_nothing_failed
    E s3_client template output_dir raw_lines schedule seen late w :
  let d := dispatch E (read_jsonl raw_lines) in
  let tasks :=
    map (fun data => process_document E data s3_client template output_dir) (fst d) in
  let pool := run_pool tasks schedule w in
  let run := main E s3_client template output_dir raw_lines schedule seen late w in
  (fst run = Ok tt <->
   snd d = None /\
   Forall (fun i => forall e, fst pool !! i <> Some (Raise e)) seen) /\
  (fst run = Ok tt -> snd run = snd (run_pool tasks late (snd pool))).
Proof.
  cbn zeta.
  destruct (dispatch E (read_jsonl raw_lines)) as [submitted stopped] eqn:Hd.
  cbn [fst snd].
  destruct (run_pool _ schedule w) as [futures w1] eqn:Hpool. cbn [fst snd].
  rewrite (main_eval _ _ _ _ _ _ _ _ _ _ _ _ _ Hd Hpool).
  destruct stopped as [e |].
  - cbn [fst snd]. split.
    + split; [discriminate | intros [H _]; discriminate H].
    + discriminate.
  - cbn [fst snd]. split.
    + rewrite drain_ok_iff, observed_ok_iff. tauto.
    + intros H. now rewrite (drain_ok_world _ _ H).
Qed.

Lemma process_document_disk_grows E data s3_client template output_dir w r w' p :
  process_document E data s3_client template output_dir w = (r, w') ->
  is_Some (disk w !! p) -> is_Some (disk w' !! p).
Proof.
  intros H Hp.
  apply process_document_effects in H as [(e' & _ & [-> | (content & ->)]) | H];
    [assumption | assumption |].
  destruct H as (w1 & Hstep & H).
  apply link_step_frame in Hstep as (_ & _ & Hdisk). cbn in Hdisk.
  destruct H as [(e' & _ & ->) | (path & html & _ & _ & -> & _)].
  - now rewrite Hdisk.
  - cbn. rewrite Hdisk.
    destruct (decide (PyStr.os_path_join output_dir (output_name path) = p))
      as [-> | Hne].
    + rewrite lookup_insert_eq. eauto.
    + now rewrite lookup_insert_ne.
Qed.

Lemma run_pool_disk_grows E s3_client template output_dir submitted schedule w
    futures w1 p :
  run_pool
    (map (fun data => process_document E data s3_client template output_dir) submitted)
    schedule w = (futures, w1) ->
  is_Some (disk w !! p) -> is_Some (disk w1 !! p).
Proof.
  revert w futures. induction schedule as [| j rest IH]; intros w futures H Hp.
  - now injection H as _ <-.
  - cbn [run_pool] in H.
    destruct (map _ submitted !! j) as [task |] eqn:Hj; [| eauto].
    apply (list_lookup_fmap_Some_1
             (fun data => process_document E data s3_client template output_dir))
      in Hj as (data & -> & _).
    destruct (process_document E data s3_client template output_dir w)
      as [r wa] eqn:Hrun.
    destruct (run_pool _ rest wa) as [futures' w2] eqn:Hrest.
    injection H as _ <-.
    eapply IH; [exact Hrest |].
    eapply process_document_disk_grows; eauto.
Qed.

Lemma run_pool_returned_is_written E s3_client template output_dir submitted schedule w
    futures w1 i data :
  run_pool
    (map (fun data => process_document E data s3_client template output_dir) submitted)
    schedule w = (futures, w1) ->
  submitted !! i = Some data ->
  futures !! i = Some (Ok tt) ->
  exists path,
    source_of data = Some path /\
    is_Some (disk w1 !! PyStr.os_path_join output_dir (output_name path)).
Proof.
  revert w futures. induction schedule as [| j rest IH]; intros w futures H Hdata Hi.
  - injection H as <- _. rewrite lookup_empty in Hi. discriminate Hi.
  - cbn [run_pool] in H.
    destruct (map _ submitted !! j) as [task |] eqn:Hj; [| eauto].
    apply (list_lookup_fmap_Some_1
             (fun data => process_document E data s3_client template output_dir))
      in Hj as (data' & -> & Hj).
    destruct (process_document E data' s3_client template output_dir w)
      as [r wa] eqn:Hrun.
    destruct (run_pool _ rest wa) as [futures' w2] eqn:Hrest.
    injection H as <- <-.
    destruct (decide (j = i)) as [-> | Hne].
    + rewrite lookup_insert_eq in Hi. injection Hi as ->.
      rewrite Hdata in Hj. injection Hj as <-.
      apply process_document_ok_disk in Hrun as (path & html & Hsrc & Hdisk).
      exists path. split; [assumption |].
      eapply run_pool_disk_grows; [exact Hrest |].
      rewrite Hdisk, lookup_insert_eq. eauto.
    + rewrite lookup_insert_ne in Hi by assumption. eauto.
Qed.

Lemma drain_disk (completed : list (result unit)) w :
  disk (snd (drain completed w)) = disk w.
Proof.
  induction completed as [| r rest IH]; [reflexivity |].
  destruct r as [[] | e]; [exact IH | reflexivity].
Qed.

(** X16.  A submitted task is never cancelled: when [main] ends, whether
    it returns or raises, the output file of every record whose task
    returned is there, also of the records that came after the one whose
    failure [main] raises, and also of the tasks that were still running
    when the driver left the block. *)
Theorem returned_tasks_have_written_when_main_ends
    E s3_client template output_dir raw_lines schedule seen late w i data :
  let d := dispatch E (read_jsonl raw_lines) in
  let tasks :=
    map (fun data => process_document E data s3_client template output_dir) (fst d) in
  let pool := run_pool tasks schedule w in
  let run := main E s3_client template output_dir raw_lines schedule seen late w in
  fst d !! i = Some data ->
  (fst pool !! i = Some (Ok tt) ->
   exists path,
     source_of data = Some path /\
     is_Some (disk (snd run) !! PyStr.os_path_join output_dir (output_name path))) /\
  exists left,
    snd run = snd (run_pool tasks late left) /\
    (fst (run_pool tasks late left) !! i = Some (Ok tt) ->
     exists path,
       source_of data = Some path /\
       is_Some (disk (snd run) !! PyStr.os_path_join output_dir (output_name path))).
Proof.
  cbn zeta.
  destruct (dispatch E (read_jsonl raw_lines)) as [submitted stopped] eqn:Hd.
  cbn [fst snd].
  destruct (run_pool _ schedule w) as [futures w1] eqn:Hpool. cbn [fst snd].
  intros Hdata.
  rewrite (main_eval _ _ _ _ _ _ _ _ _ _ _ _ _ Hd Hpool).
  set (tasks :=
         map (fun data => process_document E data s3_client template output_dir)
             submitted) in *.
  set (left := match stopped with
               | Some _ => w1
               | None => snd (drain (omap (fun i => futures !! i) seen) w1)
               end).
  assert (disk left = disk w1) as Hleft.
  { subst left. destruct stopped; [reflexivity | apply drain_disk]. }
  assert (snd (match stopped with
               | Some e => (Raise e, snd (run_pool tasks late w1))
               | None =>
                   (fst (drain (omap (fun i => futures !! i) seen) w1),
                    snd (run_pool tasks late
                           (snd (drain (omap (fun i => futures !! i) seen) w1))))
               end) = snd (run_pool tasks late left)) as ->.
  { subst left. now destruct stopped. }
  destruct (run_pool tasks late left) as [futures2 w3] eqn:Hlate. cbn [fst snd].
  split.
  - intros Hi.
    destruct (run_pool_returned_is_written _ _ _ _ _ _ _ _ _ _ _ Hpool Hdata Hi)
      as (path & Hsrc & Hp).
    exists path. split; [assumption |].
    eapply run_pool_disk_grows; [exact Hlate |]. now rewrite Hleft.
  - exists left. rewrite Hlate. cbn [fst snd]. split; [reflexivity |].
    intros Hi.
    exact (run_pool_returned_is_written _ _ _ _ _ _ _ _ _ _ _ Hlate Hdata Hi).
Qed.

(** The first record fails and is seen first; the second has written its
    document all the same. *)
Lemma returned_tasks_have_written_when_main_ends_witness :
  fst (main Sample.env Sample.client Sample.template "out"
         [Sample.bad_page_line; Sample.bare_line] [0; 1]%nat [0; 1]%nat []
         Sample.start)
    = Raise (Exn ValueError "page out of range") /\
  exists path,
    source_of Sample.bare = Some path /\
    is_Some (disk (snd (main Sample.env Sample.client Sample.template "out"
                          [Sample.bad_page_line; Sample.bare_line]
                          [0; 1]%nat [0; 1]%nat [] Sample.start))
               !! PyStr.os_path_join "out" (output_name path)).
Proof.
  split; [vm_compute; reflexivity |].
  apply (returned_tasks_have_written_when_main_ends Sample.env Sample.client
           Sample.template "out" [Sample.bad_page_line; Sample.bare_line]
           [0; 1]%nat [0; 1]%nat [] Sample.start 1%nat Sample.bare).
  - vm_compute. reflexivity.
  - vm_compute. reflexivity.
Defined.

(** ** A failure seen by the driver *)

(** C3, as the code has it.  The loop of lines 98-103 stops at the first
    future, in the order in which [as_completed] yields them, whose task
    raised: it prints [An error occurred: ] followed by that failure and
    raises that same failure, and it inspects no later future.  So in a batch
    whose dispatch loop has run to its end, when the driver sees a future
    whose task raised, [main] prints that message for the first failure seen
    and ends with it.  The rest of the batch is not given up: the tasks that
    are still running then take effect after the message, and when [main]
    ends every record whose task returned, before or after the message, has
    its output file. *)
Theorem first_observed_failure_is_printed_and_reraised :
  (forall completed w,
     Exists failed completed ->
     exists before e after,
       completed = before ++ Raise e :: after /\
       Forall (fun r => ~ failed r) before /\
       drain completed w =
         (Raise e, printed w ("An error occurred: " +:+ exn_str e))) /\
  (forall E s3_client template output_dir raw_lines schedule seen late w
          submitted futures w1 i0 e0,
     dispatch E (read_jsonl raw_lines) = (submitted, None) ->
     let tasks :=
       map (fun data => process_document E data s3_client template output_dir)
           submitted in
     run_pool tasks schedule w = (futures, w1) ->
     i0 ∈ seen ->
     futures !! i0 = Some (Raise e0) ->
     exists before i after e,
       seen = before ++ i :: after /\
       futures !! i = Some (Raise e) /\
       Forall (fun k => forall e', futures !! k <> Some (Raise e')) before /\
       let reported := printed w1 ("An error occurred: " +:+ exn_str e) in
       main E s3_client template output_dir raw_lines schedule seen late w =
         (Raise e, snd (run_pool tasks late reported)) /\
       forall j data,
         submitted !! j = Some data ->
         futures !! j = Some (Ok tt) \/
         fst (run_pool tasks late reported) !! j = Some (Ok tt) ->
         exists path,
           source_of data = Some path /\
           is_Some (disk (snd (run_pool tasks late reported))
                      !! PyStr.os_path_join output_dir (output_name path))).
Proof.
  split.
  - intros completed w H.
    destruct (first_failed_outcome completed H) as (before & e & after & -> & Hb).
    exists before, e, after. repeat split; [assumption |].
    now apply drain_first_failure.
  - intros E s3_client template output_dir raw_lines schedule seen late w
           submitted futures w1 i0 e0 Hdispatch tasks Hpool Hin Hi0.
    destruct (first_failing_future futures seen i0 e0 Hin Hi0)
      as (before & i & after & e & -> & Hi & Hbefore).
    exists before, i, after, e.
    split; [reflexivity |]. split; [assumption |]. split; [assumption |].
    intros reported.
    assert (drain (omap (fun k => futures !! k) (before ++ i :: after)) w1 =
            (Raise e, reported)) as Hdrain.
    { rewrite omap_app. cbn. rewrite Hi.
      apply drain_first_failure. now apply observed_before. }
    split.
    + rewrite (main_eval _ _ _ _ _ _ _ _ _ _ _ _ _ Hdispatch Hpool).
      fold tasks. now rewrite Hdrain.
    + intros j data Hdata Hj.
      destruct (run_pool tasks late reported) as [futures2 w3] eqn:Hlate.
      cbn [fst snd] in *.
      destruct Hj as [Hj | Hj].
      * destruct (run_pool_returned_is_written _ _ _ _ _ _ _ _ _ _ _ Hpool Hdata Hj)
          as (path & Hsrc & Hp).
        exists path. split; [assumption |].
        eapply run_pool_disk_grows; [exact Hlate |]. exact Hp.
      * exact (run_pool_returned_is_written _ _ _ _ _ _ _ _ _ _ _ Hlate Hdata Hj).
Qed.

(** Two records, the first of which names a page the PDF does not have; its
    future is seen first, while the task of the second is still running. *)
Lemma first_observed_failure_is_printed_and_reraised_witness :
  let tasks :=
    map (fun data =>
           process_document Sample.env data Sample.client Sample.template "out")
        [Sample.bad_page; Sample.hello] in
  exists before i after e,
    [0; 1]%nat = before ++ i :: after /\
    fst (run_pool tasks [0%nat] Sample.start) !! i = Some (Raise e) /\
    Forall
      (fun k => forall e',
         fst (run_pool tasks [0%nat] Sample.start) !! k <> Some (Raise e'))
      before /\
    let reported :=
      printed (snd (run_pool tasks [0%nat] Sample.start))
        ("An error occurred: " +:+ exn_str e) in
    main Sample.env Sample.client Sample.template "out"
      [Sample.bad_page_line; Sample.hello_line] [0%nat] [0; 1]%nat [1%nat]
      Sample.start =
    (Raise e, snd (run_pool tasks [1%nat] reported)) /\
    forall j data,
      [Sample.bad_page; Sample.hello] !! j = Some data ->
      fst (run_pool tasks [0%nat] Sample.start) !! j = Some (Ok tt) \/
      fst (run_pool tasks [1%nat] reported) !! j = Some (Ok tt) ->
      exists path,
        source_of data = Some path /\
        is_Some (disk (snd (run_pool tasks [1%nat] reported))
                   !! PyStr.os_path_join "out" (output_name path)).
Proof.
  intros tasks.
  apply (proj2 first_observed_failure_is_printed_and_reraised Sample.env
           Sample.client Sample.template "out"
           [Sample.bad_page_line; Sample.hello_line]
           [0%nat] [0; 1]%nat [1%nat] Sample.start
           [Sample.bad_page; Sample.hello]
           (fst (run_pool tasks [0%nat] Sample.start))
           (snd (run_pool tasks [0%nat] Sample.start))
           0%nat (Exn ValueError "page out of range")).
  - vm_compute. reflexivity.
  - apply surjective_pairing.
  - apply list_elem_of_here.
  - vm_compute. reflexivity.
Defined.

(** C3, as documented, fails: the failure that is re-raised does not abort
    the rest of the batch.  With the records [Sample.bad_page] and
    [Sample.hello] and a client without credentials, the first task fails and
    its failure is seen and reported while the second task is still running;
    [main] ends with that failure, and yet the second record is processed to
    its end after the report: its credentials message follows the report and
    its document is on the disk, which was empty when the failure was
    reported. *)
Lemma remaining_batch_is_not_aborted :
  let tasks :=
    map (fun data =>
           process_document Sample.env data Sample.client_without_credentials
             Sample.template "out")
        [Sample.bad_page; Sample.hello] in
  let run :=
    main Sample.env Sample.client_without_credentials Sample.template "out"
      [Sample.bad_page_line; Sample.hello_line] [0%nat] [0; 1]%nat [1%nat]
      Sample.start in
  fst run = Raise (Exn ValueError "page out of range") /\
  stdout (snd run) =
    ["An error occurred: page out of range";
     "Error: AWS credentials not found or incomplete."] /\
  disk (snd (run_pool tasks [0%nat] Sample.start)) = ∅ /\
  disk (snd run) !! "out/b_k_pdf.html" =
    Some ("<section><p>Hello</p><img src='data:image/webp;base64,UklGRg=='></section>"
          +:+ "<section><p> Worl</p><img src='data:image/webp;base64,UklGRg=='></section>"
          +:+ "<section><p>d!!X</p><img src='data:image/webp;base64,UklGRg=='></section>") /\
  ~ (forall E s3_client template output_dir raw_lines schedule seen late w e,
       fst (main E s3_client template output_dir raw_lines schedule seen late w)
         = Raise e ->
       snd (main E s3_client template output_dir raw_lines schedule seen late w) =
       snd (main E s3_client template output_dir raw_lines schedule seen [] w)).
Proof.
  cbv zeta.
  split; [vm_compute; reflexivity |].
  split; [vm_compute; reflexivity |].
  split; [vm_compute; reflexivity |].
  split; [vm_compute; reflexivity |].
  intros H.
  specialize (H Sample.env Sample.client_without_credentials Sample.template "out"
                [Sample.bad_page_line; Sample.hello_line] [0%nat] [0; 1]%nat [1%nat]
                Sample.start (Exn ValueError "page out of range")
                ltac:(vm_compute; reflexivity)).
  apply (f_equal stdout) in H. vm_compute in H. discriminate H.
Qed.

(** ** Spans that end beyond the text, in the record and in the batch *)

Lemma substring_none (s : string) (n : nat) : String.substring n 0 s = "".
Proof.
  revert n. induction s as [| c s IH]; intros [| n]; try reflexivity.
  cbn [String.substring]. apply IH.
Qed.

(** From a start inside the text, an end at or beyond the end of the text
    selects the rest of the text. *)
Lemma slice_to_the_end (text : string) (start_index end_index : Z) :
  0 <= start_index <= Z.of_nat (String.length text) ->
  Z.of_nat (String.length text) <= end_index ->
  PyStr.slice text (Some start_index) (Some end_index) =
  String.substring (Z.to_nat start_index)
    (String.length text - Z.to_nat start_index) text.
Proof.
  intros Ha Hb. rewrite slice_nonneg by lia. cbn zeta.
  rewrite (Z.min_r end_index) by lia. rewrite (Z.min_l start_index) by lia.
  destruct (Z.leb_spec (Z.of_nat (String.length text)) start_index) as [H | H].
  - replace (String.length text - Z.to_nat start_index)%nat with 0%nat by lia.
    now rewrite substring_none.
  - f_equal. lia.
Qed.

Lemma slice_min (text : string) (lo : option Z) (end_index : Z) :
  PyStr.slice text lo (Some end_index) =
  PyStr.slice text lo (Some (Z.min end_index (Z.of_nat (String.length text)))).
Proof.
  destruct (Z.le_gt_cases end_index (Z.of_nat (String.length text))) as [H | H].
  - now rewrite Z.min_l by lia.
  - rewrite Z.min_r by lia. apply slice_beyond. lia.
Qed.

(** The page of a span of three integers carries the clamped slice. *)
Lemma span_page_int E (text : string) content (t : Z * Z * Z) :
  span_page E (JStr text) content (span_of t) = clamped_page E text content t.
Proof.
  destruct t as [[start_index end_index] page_num].
  unfold span_page, clamped_page, span_of, span.
  cbn [unpack3 py_iter result_bind getitem_slice slice_bound html_escape].
  cbn zeta. now rewrite <- slice_min.
Qed.

Lemma process_document_int_spans E id_ text triples source_file s3_client template
    output_dir w :
  process_document E (record id_ text (map span_of triples) source_file)
    s3_client template output_dir w =
  match get_s3_bytes E s3_client (JStr source_file) with
  | Raise e => (Raise e, opened w [])
  | Ok content =>
      match map_result (clamped_page E text content) triples with
      | Raise e => (Raise e, opened w content)
      | Ok pages =>
          finish_document E s3_client template output_dir id_ (JStr source_file)
            pages (closed w)
      end
  end.
Proof.
  rewrite process_document_record.
  destruct (get_s3_bytes E s3_client (JStr source_file)) as [content | e];
    [| reflexivity].
  rewrite map_result_map.
  now rewrite (map_result_ext _ _ triples (span_page_int E text content)).
Qed.

(** The outcome of a run does not depend on the world it starts in. *)
Lemma make_s3_link_outcome E s3_client source_file w w0 :
  fst (make_s3_link E s3_client source_file w) =
  fst (make_s3_link E s3_client source_file w0).
Proof.
  unfold make_s3_link.
  destruct (truthy source_file); [| reflexivity].
  destruct source_file as [| ? | ? | ? ? | path | ? | ?]; try reflexivity.
  destruct (PyStr.startswith "s3://" path); [| reflexivity].
  rewrite !bind_lift.
  destruct (parse_s3_path E path) as [[bucket_name key_name] | e]; [| reflexivity].
  rewrite !generate_presigned_url_eval. cbn zeta.
  destruct (s3_generate_presigned_url _ _ _ _ _) as [url | e]; [reflexivity |].
  destruct (is_credentials_error e); reflexivity.
Qed.

Lemma finish_document_eval E s3_client template output_dir id_ source_file pages w :
  finish_document E s3_client template output_dir id_ source_file pages w =
  match make_s3_link E s3_client source_file w with
  | (Raise e, w1) => (Raise e, w1)
  | (Ok s3_link, w1) =>
      match render template id_ pages s3_link with
      | Raise e => (Raise e, w1)
      | Ok html_content =>
          match output_filename source_file with
          | Raise e => (Raise e, w1)
          | Ok filename =>
              write_file E (PyStr.os_path_join output_dir filename) html_content w1
          end
      end
  end.
Proof.
  unfold finish_document, bind at 1.
  destruct (make_s3_link E s3_client source_file w) as [[s3_link | e] w1];
    reflexivity.
Qed.

Lemma finish_document_outcome E s3_client template output_dir id_ source_file pages w w0 :
  fst (finish_document E s3_client template output_dir id_ source_file pages w) =
  fst (finish_document E s3_client template output_dir id_ source_file pages w0).
Proof.
  rewrite !finish_document_eval.
  pose proof (make_s3_link_outcome E s3_client source_file w w0) as Hlink.
  destruct (make_s3_link E s3_client source_file w) as [[s3_link | e] w1];
    destruct (make_s3_link E s3_client source_file w0) as [[s3_link' | e'] w1'];
    cbn [fst] in Hlink; try discriminate Hlink.
  - injection Hlink as <-.
    destruct (render template id_ pages s3_link) as [html_content | e];
      [| reflexivity].
    destruct (output_filename source_file) as [filename | e]; [| reflexivity].
    unfold write_file.
    destruct (open_w E _); [reflexivity |].
    destruct (f_write E _ _) as [[e n] |]; reflexivity.
  - cbn [fst]. now injection Hlink as <-.
Qed.

Lemma process_document_wrong_shape E data s3_client template output_dir :
  (exists v, forall w,
     process_document E data s3_client template output_dir w =
     (Raise (no_attribute v "get"), w)) \/
  (exists kv akv mkv,
     data = JObj kv /\
     field kv "attributes" (JObj []) = JObj akv /\
     field kv "metadata" (JObj []) = JObj mkv).
Proof.
  destruct data as [| ? | ? | ? ? | ? | ? | kv];
    try (left; eexists; intros w; reflexivity).
  destruct (field kv "attributes" (JObj [])) as [| ? | ? | ? ? | ? | ? | akv] eqn:Ha.
  1-6: left; eexists; intros w; unfold process_document; rewrite !dict_get_obj;
       do 3 (rewrite bind_lift; cbn match); rewrite Ha; reflexivity.
  destruct (field kv "metadata" (JObj [])) as [| ? | ? | ? ? | ? | ? | mkv] eqn:Hm.
  1-6: left; eexists; intros w; unfold process_document; rewrite !dict_get_obj;
       do 3 (rewrite bind_lift; cbn match); rewrite Ha, dict_get_obj;
       do 2 (rewrite bind_lift; cbn match); rewrite Hm; reflexivity.
  right. eauto 10.
Qed.

Lemma process_document_outcome E data s3_client template output_dir w w0 :
  fst (process_document E data s3_client template output_dir w) =
  fst (process_document E data s3_client template output_dir w0).
Proof.
  destruct (process_document_wrong_shape E data s3_client template output_dir)
    as [(v & Hv) | (kv & akv & mkv & -> & Ha & Hm)].
  { now rewrite !Hv. }
  rewrite !(process_document_stages E kv akv mkv _ _ _ _ Ha Hm).
  destruct (get_s3_bytes E s3_client (field mkv "Source-File" JNull));
    [| reflexivity].
  destruct (py_iter (field akv "pdf_page_numbers" (JList []))) as [spans | e];
    [| reflexivity].
  destruct (map_result _ spans) as [pages | e]; [| reflexivity].
  apply finish_document_outcome.
Qed.

(** When every record of the batch is one whose task returns, every future
    holds a return. *)
Lemma run_pool_all_return E s3_client template output_dir submitted schedule w w0
    futures w1 i r :
  Forall (fun data =>
            fst (process_document E data s3_client template output_dir w0) = Ok tt)
         submitted ->
  run_pool
    (map (fun data => process_document E data s3_client template output_dir) submitted)
    schedule w = (futures, w1) ->
  futures !! i = Some r -> r = Ok tt.
Proof.
  intros Hall. revert w futures.
  induction schedule as [| j rest IH]; intros w futures H Hi.
  - injection H as <- _. rewrite lookup_empty in Hi. discriminate Hi.
  - cbn [run_pool] in H.
    destruct (map _ submitted !! j) as [task |] eqn:Hj; [| eauto].
    apply (list_lookup_fmap_Some_1
             (fun data => process_document E data s3_client template output_dir))
      in Hj as (data & -> & Hj).
    destruct (process_document E data s3_client template output_dir w)
      as [r0 wa] eqn:Hrun.
    destruct (run_pool _ rest wa) as [futures' w2] eqn:Hrest.
    injection H as <- <-.
    destruct (decide (j = i)) as [-> | Hne].
    + rewrite lookup_insert_eq in Hi. injection Hi as <-.
      rewrite Forall_forall in Hall.
      specialize (Hall data (list_elem_of_lookup_2 _ _ _ Hj)).
      rewrite (process_document_outcome _ _ _ _ _ w0 w), Hrun in Hall.
      exact Hall.
    + rewrite lookup_insert_ne in Hi by assumption. eauto.
Qed.

(** C2.  Slicing a text with integer bounds never raises, and an end index
    beyond the text selects up to the end of the text: from a start inside
    the text, the rest of the text.  So the page of a span of three integers
    is the conversion of that clamped slice with the image of its page, and a
    record with such spans fails only where the fetch, the converter, the
    rasterizer or lines 60-73 raise: when these return, [process_document]
    returns and has written the rendering of one page per span.  The run is
    the same, result and world, as on the record whose ends beyond the text
    are moved to the end of the text.  A batch whose records all have tasks
    that return makes [main] return.  On the text [Hello World!!X] the spans
    (0,5,1), (5,10,1), (10,15,2) select [Hello], [ Worl] and [d!!X], and the
    record is written with these three pages. *)
Theorem out_of_bounds_end_is_clamped :
  (forall text start_index end_index,
     getitem_slice (JStr text) (JInt start_index) (JInt end_index) =
     Ok (JStr (PyStr.slice text (Some start_index)
                 (Some (Z.min end_index (Z.of_nat (String.length text))))))) /\
  (forall text start_index end_index,
     0 <= start_index <= Z.of_nat (String.length text) ->
     Z.of_nat (String.length text) <= end_index ->
     getitem_slice (JStr text) (JInt start_index) (JInt end_index) =
     Ok (JStr (String.substring (Z.to_nat start_index)
                 (String.length text - Z.to_nat start_index) text))) /\
  (forall E text content t,
     span_page E (JStr text) content (span_of t) = clamped_page E text content t) /\
  (forall E id_ text triples source_file s3_client template output_dir w,
     process_document E (record id_ text (map span_of triples) source_file)
       s3_client template output_dir w =
     match get_s3_bytes E s3_client (JStr source_file) with
     | Raise e => (Raise e, opened w [])
     | Ok content =>
         match map_result (clamped_page E text content) triples with
         | Raise e => (Raise e, opened w content)
         | Ok pages =>
             finish_document E s3_client template output_dir id_ (JStr source_file)
               pages (closed w)
         end
     end) /\
  (forall E id_ text triples source_file s3_client template output_dir w
          content pages s3_link w1 html_content,
     get_s3_bytes E s3_client (JStr source_file) = Ok content ->
     map_result (clamped_page E text content) triples = Ok pages ->
     make_s3_link E s3_client (JStr source_file) (closed w) = (Ok s3_link, w1) ->
     render template id_ pages s3_link = Ok html_content ->
     let filepath := PyStr.os_path_join output_dir (output_name source_file) in
     open_w E filepath = None ->
     f_write E filepath html_content = None ->
     process_document E (record id_ text (map span_of triples) source_file)
       s3_client template output_dir w = (Ok tt, written w1 filepath html_content) /\
     length pages = length triples) /\
  (forall E id_ text spans source_file s3_client template output_dir w,
     process_document E (record id_ text spans source_file)
       s3_client template output_dir w =
     process_document E
       (record id_ text (map (clamp_end (Z.of_nat (String.length text))) spans)
          source_file)
       s3_client template output_dir w) /\
  (forall E s3_client template output_dir raw_lines schedule seen late w,
     snd (dispatch E (read_jsonl raw_lines)) = None ->
     Forall (fun data =>
               fst (process_document E data s3_client template output_dir w) = Ok tt)
            (fst (dispatch E (read_jsonl raw_lines))) ->
     fst (main E s3_client template output_dir raw_lines schedule seen late w)
       = Ok tt) /\
  map (fun sp => let? (a, b, _) := unpack3 sp in getitem_slice (JStr "Hello World!!X") a b)
      [span 0 5 1; span 5 10 1; span 10 15 2]
    = [Ok (JStr "Hello"); Ok (JStr " Worl"); Ok (JStr "d!!X")].
Proof.
  split; [| split; [| split; [| split; [| split; [| split; [| split]]]]]].
  - intros text start_index end_index.
    cbn [getitem_slice slice_bound]. now rewrite <- slice_min.
  - intros text start_index end_index Ha Hb.
    cbn [getitem_slice slice_bound]. now rewrite slice_to_the_end.
  - exact span_page_int.
  - exact process_document_int_spans.
  - intros E id_ text triples source_file s3_client template output_dir w
           content pages s3_link w1 html_content Hget Hpages Hlink Hrender
           filepath Hopen Hwrite.
    split.
    + rewrite process_document_int_spans, Hget, Hpages.
      apply finish_document_ok_iff.
      exists s3_link, w1, html_content, source_file. auto 10.
    + apply map_result_Forall2 in Hpages. symmetry.
      exact (Forall2_length _ _ _ Hpages).
  - exact process_document_clamp_end.
  - intros E s3_client template output_dir raw_lines schedule seen late w Hstop Hall.
    destruct (dispatch E (read_jsonl raw_lines)) as [submitted stopped] eqn:Hd.
    cbn [fst snd] in *. subst stopped.
    destruct (run_pool
                (map (fun data => process_document E data s3_client template output_dir)
                     submitted) schedule w) as [futures w1] eqn:Hpool.
    rewrite (main_eval _ _ _ _ _ _ _ _ _ _ _ _ _ Hd Hpool). cbn [fst].
    apply drain_ok_iff, observed_ok_iff, Forall_forall.
    intros i _ e Hi.
    pose proof (run_pool_all_return _ _ _ _ _ _ _ _ _ _ _ _ Hall Hpool Hi) as Hr.
    discriminate Hr.
  - reflexivity.
Qed.

(** The boundary record of the specification, whose last span ends at 15 in
    a text of 14 characters, alone and in a batch of two records. *)
Lemma out_of_bounds_end_is_clamped_witness :
  (process_document Sample.env Sample.hello Sample.client Sample.template "out"
     Sample.start =
   (Ok tt,
    written (requested (closed Sample.start)
               (PresignRequest "get_object" "b" "k.pdf" 604700))
      "out/b_k_pdf.html"
      ("<a href='https://b.s3.amazonaws.com/k.pdf'>source</a>"
       +:+ "<section><p>Hello</p><img src='data:image/webp;base64,UklGRg=='></section>"
       +:+ "<section><p> Worl</p><img src='data:image/webp;base64,UklGRg=='></section>"
       +:+ "<section><p>d!!X</p><img src='data:image/webp;base64,UklGRg=='></section>")) /\
   length [Page (JInt 1) "<p>Hello</p>" "UklGRg==";
           Page (JInt 1) "<p> Worl</p>" "UklGRg==";
           Page (JInt 2) "<p>d!!X</p>" "UklGRg=="] = 3%nat) /\
  fst (main Sample.env Sample.client Sample.template "out"
         [Sample.hello_line; Sample.bare_line] [0%nat] [1; 0]%nat [1%nat]
         Sample.start) = Ok tt.
Proof.
  destruct out_of_bounds_end_is_clamped
    as (_ & _ & _ & _ & Hrecord & _ & Hbatch & _).
  split.
  - refine (Hrecord Sample.env (JStr "doc-1") "Hello World!!X"
              [(0, 5, 1); (5, 10, 1); (10, 15, 2)] "s3://b/k.pdf"
              Sample.client Sample.template "out" Sample.start Sample.pdf_bytes
              [Page (JInt 1) "<p>Hello</p>" "UklGRg==";
               Page (JInt 1) "<p> Worl</p>" "UklGRg==";
               Page (JInt 2) "<p>d!!X</p>" "UklGRg=="]
              (Some "https://b.s3.amazonaws.com/k.pdf") _ _ _ _ _ _ _ _);
      reflexivity.
  - apply (Hbatch Sample.env Sample.client Sample.template "out"
             [Sample.hello_line; Sample.bare_line] [0%nat] [1; 0]%nat [1%nat]
             Sample.start).
    + vm_compute. reflexivity.
    + vm_compute. repeat constructor.
Defined.

(** ** Names that collide *)

Lemma append_inj_r (a b suffix : string) :
  a +:+ suffix = b +:+ suffix -> a = b.
Proof.
  intros H.
  assert (String.length a = String.length b) as Hlen.
  { apply (f_equal String.length) in H. rewrite !append_length in H. lia. }
  revert b Hlen H.
  induction a as [| c a IH]; intros [| d b] Hlen H; try discriminate Hlen.
  - reflexivity.
  - rewrite !append_cons in H. injection H as -> H. f_equal.
    apply IH; [now injection Hlen | assumption].
Qed.

(** X17.  A leading [s3://] is dropped from the name, so an object and the
    local path that spells out its bucket and key share one output file; and
    for sources that hold no colon the name is the source with every [/] and
    [.] turned into [_], followed by [.html], so two such sources share a
    file exactly when they differ only in where they have [/], [.] or [_]. *)
Theorem output_names_collide_up_to_separators :
  (forall rest, output_name ("s3://" +:+ rest) = output_name rest) /\
  (forall s, contains ":" s = false ->
             output_name s = map_chars underscore s +:+ ".html") /\
  (forall a b,
     contains ":" a = false -> contains ":" b = false ->
     (output_name a = output_name b <->
      map_chars underscore a = map_chars underscore b)).
Proof.
  assert (forall s, contains ":" s = false ->
                    output_name s = map_chars underscore s +:+ ".html") as Hmap.
  { intros s Hs. unfold output_name.
    now rewrite (replace_no_colon s Hs), replace_separators. }
  split; [| split].
  - intros rest. unfold output_name. now rewrite replace_scheme_prefix.
  - exact Hmap.
  - intros a b Ha Hb. rewrite (Hmap a Ha), (Hmap b Hb). split.
    + apply append_inj_r.
    + now intros ->.
Qed.

(** ** Failures after the temporary file is created *)

(** X18.  When the source cannot be fetched, the run raises the exception of
    the fetch at once: no span is looked at, no request for a link is made,
    the template is not rendered and no file is written; the temporary file,
    created before the fetch, is left behind, empty. *)
Theorem fetch_failure_fails_the_record
    E kv akv mkv s3_client template output_dir w e :
  field kv "attributes" (JObj []) = JObj akv ->
  field kv "metadata" (JObj []) = JObj mkv ->
  get_s3_bytes E s3_client (field mkv "Source-File" JNull) = Raise e ->
  process_document E (JObj kv) s3_client template output_dir w =
    (Raise e, opened w []) /\
  tmp_files (opened w []) !! tmp_next w = Some [] /\
  disk (opened w []) = disk w /\
  s3_requests (opened w []) = s3_requests w.
Proof.
  intros Ha Hm Hget.
  rewrite (process_document_stages E kv akv mkv _ _ _ w Ha Hm), Hget.
  repeat split. unfold opened. cbn. apply lookup_insert_eq.
Qed.

(** An object that the storage does not have. *)
Lemma fetch_failure_fails_the_record_witness :
  process_document Sample.env MoreCases.missing Sample.client Sample.template
    "out" Sample.start =
  (Raise (Exn (OtherError "ClientError") "NoSuchKey"), opened Sample.start []).
Proof.
  apply (fetch_failure_fails_the_record Sample.env
           [("id", JStr "doc-9"); ("text", JStr "abc");
            ("attributes", JObj [("pdf_page_numbers", JList [span 0 3 1])]);
            ("metadata", JObj [("Source-File", JStr "s3://b/missing.pdf")])]
           [("pdf_page_numbers", JList [span 0 3 1])]
           [("Source-File", JStr "s3://b/missing.pdf")]
           Sample.client Sample.template "out" Sample.start
           (Exn (OtherError "ClientError") "NoSuchKey")); reflexivity.
Defined.

(** X19.  A [text] that is present and [null] is not read as a missing
    text: with at least one span that unpacks to three items, the first slice
    raises [TypeError] ('NoneType' object is not subscriptable) and the record
    fails with the temporary file left behind. *)
Theorem null_text_fails_on_the_first_span
    E kv akv mkv s3_client template output_dir w content sp rest
    start_index end_index page_num :
  assoc "text" kv = Some JNull ->
  field kv "attributes" (JObj []) = JObj akv ->
  field kv "metadata" (JObj []) = JObj mkv ->
  get_s3_bytes E s3_client (field mkv "Source-File" JNull) = Ok content ->
  py_iter (field akv "pdf_page_numbers" (JList [])) = Ok (sp :: rest) ->
  unpack3 sp = Ok (start_index, end_index, page_num) ->
  process_document E (JObj kv) s3_client template output_dir w =
    (Raise (Exn TypeError "'NoneType' object is not subscriptable"),
     opened w content).
Proof.
  intros Htext Ha Hm Hget Hspans Hsp.
  rewrite (process_document_stages E kv akv mkv _ _ _ w Ha Hm), Hget, Hspans.
  unfold field at 1. rewrite Htext.
  cbn [map_result]. unfold span_page at 1. rewrite Hsp. reflexivity.
Qed.

(** A record with [text] set to [null] and one span. *)
Lemma null_text_fails_on_the_first_span_witness :
  process_document Sample.env MoreCases.null_text Sample.client Sample.template
    "out" Sample.start =
  (Raise (Exn TypeError "'NoneType' object is not subscriptable"),
   opened Sample.start Sample.pdf_bytes).
Proof.
  apply (null_text_fails_on_the_first_span Sample.env
           [("id", JStr "doc-10"); ("text", JNull);
            ("attributes", JObj [("pdf_page_numbers", JList [span 0 3 1])]);
            ("metadata", JObj [("Source-File", JStr "s3://b/k.pdf")])]
           [("pdf_page_numbers", JList [span 0 3 1])]
           [("Source-File", JStr "s3://b/k.pdf")]
           Sample.client Sample.template "out" Sample.start Sample.pdf_bytes
           (span 0 3 1) [] (JInt 0) (JInt 3) (JInt 1)); reflexivity.
Defined.

(** ** Reading and dispatching lines *)






Lemma dispatch_in_order E (lines : list string) :
  snd (dispatch E lines) = None ->
  Forall2 (fun line data => json_loads E line = Ok data)
    (List.filter (fun line => negb (String.eqb line "")) lines)
    (fst (dispatch E lines)).
Proof.
  induction lines as [| line rest IH]; intros H; [constructor |].
  cbn [dispatch List.filter] in *.
  destruct (String.eqb line ""); cbn [negb]; [now apply IH |].
  destruct (json_loads E line) as [data | e] eqn:Hl; [| discriminate H].
  destruct (dispatch E rest) as [submitted stopped].
  cbn [fst snd] in *. constructor; auto.
Qed.

(** X21.  When the dispatch loop runs to its end, it has submitted one task
    per non-empty line, in the order of the lines, each for the value
    [json.loads] gave for its line. *)
Theorem one_task_per_line_in_order E (raw_lines : list string) :
  snd (dispatch E (read_jsonl raw_lines)) = None ->
  let lines := List.filter (fun line => negb (String.eqb line "")) (read_jsonl raw_lines) in
  length (fst (dispatch E (read_jsonl raw_lines))) = length lines /\
  Forall2 (fun line data => json_loads E line = Ok data)
    lines (fst (dispatch E (read_jsonl raw_lines))).
Proof.
  intros H lines. pose proof (dispatch_in_order E _ H) as HF.
  split; [| exact HF]. symmetry. exact (Forall2_length _ _ _ HF).
Qed.

(** Two records with a line of whitespace between them. *)
Lemma one_task_per_line_in_order_witness :
  length (fst (dispatch Sample.env
                 (read_jsonl [Sample.hello_line; "  "; Sample.bare_line]))) = 2%nat /\
  Forall2 (fun line data => json_loads Sample.env line = Ok data)
    [Sample.hello_line; Sample.bare_line]
    (fst (dispatch Sample.env
            (read_jsonl [Sample.hello_line; "  "; Sample.bare_line]))).
Proof.
  exact (one_task_per_line_in_order Sample.env
           [Sample.hello_line; "  "; Sample.bare_line] eq_refl).
Defined.
